(** * aws-db-monitoring-automation: configuration validation, credential
      resolution, transformation and credential probing

    A shallow embedding of three Python scripts of the repository,

    - [scripts/lib/validation.py]      (module [Validation]),
    - [scripts/transform-config.py]    (module [Transform]),
    - [scripts/validate-credentials.py] (module [Probe]),

    over a small model of the Python values that [json.load] and
    [yaml.safe_load] produce.  Python exceptions are results of an error
    monad that keeps the state reached when the exception was raised;
    [print], the file system, the AWS clients and the database drivers are
    explicit state and explicit collaborators.

    Conventions of the model:
    - a string is the UTF-8 text of a Python [str]; what Python computes for
      characters outside ASCII (their upper case, whether they are decimal
      digits, how [repr] shows them) is taken from the runtime;
    - a dict is an association list in insertion order; lookups take the
      first binding of a key;
    - [except Exception] catches every exception of the model (the model has
      no [KeyboardInterrupt] or [SystemExit]). *)

From Stdlib Require Import ZArith QArith String Ascii List Bool Lia.
From Stdlib Require Import DecimalString Permutation.
From stdpp Require Import base gmap strings list.

Local Open Scope string_scope.
Local Open Scope list_scope.
Local Open Scope Z_scope.

(** ** Exceptions and the state-and-error monad *)

Inductive exn_class :=
| KeyError | TypeError | AttributeError | ValueError | IndexError
| FileNotFoundError
| PermissionError
| OperationalError      (* pymysql.err / psycopg2 OperationalError *)
| ProgrammingError      (* pymysql.err / psycopg2 ProgrammingError *)
| OtherError.           (* any other subclass of Exception *)

Record exn := Exn { exn_kind : exn_class; exn_text : string }.

Inductive result (A : Type) :=
| Returns (a : A)
| Raises (e : exn).
Arguments Returns {A} a.
Arguments Raises {A} e.

(** A computation reads and updates a state [S]; an exception leaves the
    state as it was when it was raised. *)
Definition M (S A : Type) : Type := S -> result A * S.

Definition ret {S A} (a : A) : M S A := fun s => (Returns a, s).
Definition raise {S A} (e : exn) : M S A := fun s => (Raises e, s).
Definition bind {S A B} (m : M S A) (k : A -> M S B) : M S B :=
  fun s => match m s with
           | (Returns a, s') => k a s'
           | (Raises e, s') => (Raises e, s')
           end.
Definition lift {S A} (r : result A) : M S A := fun s => (r, s).
Definition get_state {S} : M S S := fun s => (Returns s, s).
Definition modify {S} (f : S -> S) : M S unit := fun s => (Returns tt, f s).

(** [try: m except Exception as e: h e] *)
Definition try_except {S A} (m : M S A) (h : exn -> M S A) : M S A :=
  fun s => match m s with
           | (Returns a, s') => (Returns a, s')
           | (Raises e, s') => h e s'
           end.

(** The pure fragment: computations without state. *)
Definition rbind {A B} (r : result A) (k : A -> result B) : result B :=
  match r with
  | Returns a => k a
  | Raises e => Raises e
  end.

Declare Scope py_scope.
Delimit Scope py_scope with py.
Notation "x <~ m ;; k" := (bind m (fun x => k))
  (at level 100, m at next level, right associativity) : py_scope.
Notation "m ;;; k" := (bind m (fun _ => k))
  (at level 100, right associativity) : py_scope.
Notation "x <- r ;; k" := (rbind r (fun x => k))
  (at level 100, r at next level, right associativity) : py_scope.
Local Open Scope py_scope.

(** [for x in l: body x] *)
Fixpoint for_each {S A} (l : list A) (body : A -> M S unit) : M S unit :=
  match l with
  | [] => ret tt
  | x :: l' => body x ;;; for_each l' body
  end.

(** A loop that threads an accumulator (a local variable of the source). *)
Fixpoint for_fold {S A B} (l : list A) (acc : B) (body : B -> A -> M S B)
  : M S B :=
  match l with
  | [] => ret acc
  | x :: l' => acc' <~ body acc x ;; for_fold l' acc' body
  end.


(** ** Python values *)

(** A float is NaN, an infinity or a finite rational; comparisons with
    integers are exact, as in Python. *)
Inductive pyfloat :=
| FNan
| FInf (negative : bool)
| FFinite (q : Q).

#[warnings="-register-all"]
Inductive value :=
| VNone
| VBool (b : bool)
| VInt (z : Z)
| VFloat (f : pyfloat)
| VStr (s : string)
| VList (l : list value)
| VDict (d : list (string * value)).

Abbreviation dict := (list (string * value)).

(** [bool(v)] *)
Definition truthy (v : value) : bool :=
  match v with
  | VNone => false
  | VBool b => b
  | VInt z => negb (z =? 0)
  | VFloat FNan => true
  | VFloat (FInf _) => true
  | VFloat (FFinite q) => negb (Qeq_bool q 0)
  | VStr s => negb (String.eqb s "")
  | VList l => match l with [] => false | _ => true end
  | VDict d => match d with [] => false | _ => true end
  end.

(** [x or y] *)
Definition py_or (x : value) (y : value) : value := if truthy x then x else y.

(** Numbers: [bool] is a subclass of [int]. *)
Inductive num := NInt (z : Z) | NFloat (f : pyfloat).

Definition as_num (v : value) : option num :=
  match v with
  | VBool b => Some (NInt (if b then 1 else 0))
  | VInt z => Some (NInt z)
  | VFloat f => Some (NFloat f)
  | _ => None
  end.

Definition float_of_num (n : num) : pyfloat :=
  match n with
  | NInt z => FFinite (inject_Z z)
  | NFloat f => f
  end.

Definition float_lt (a b : pyfloat) : bool :=
  match a, b with
  | FNan, _ | _, FNan => false
  | FInf true, FInf true => false
  | FInf true, _ => true
  | _, FInf true => false
  | FInf false, _ => false
  | _, FInf false => true
  | FFinite p, FFinite q => negb (Qle_bool q p)
  end.

Definition float_eq (a b : pyfloat) : bool :=
  match a, b with
  | FNan, _ | _, FNan => false
  | FInf x, FInf y => Bool.eqb x y
  | FFinite p, FFinite q => Qeq_bool p q
  | _, _ => false
  end.

Definition num_lt (a b : num) : bool := float_lt (float_of_num a) (float_of_num b).
Definition num_eq (a b : num) : bool := float_eq (float_of_num a) (float_of_num b).

(** First binding of a key. *)
Fixpoint dict_lookup (d : dict) (k : string) : option value :=
  match d with
  | [] => None
  | (k', v) :: d' => if String.eqb k' k then Some v else dict_lookup d' k
  end.

(** [d.get(k, default)] *)
Definition dict_get (d : dict) (k : string) (default : value) : value :=
  match dict_lookup d k with
  | Some v => v
  | None => default
  end.

(** [d[k] = v]: replaces the value in place, or appends a new key. *)
Fixpoint dict_set (d : dict) (k : string) (v : value) : dict :=
  match d with
  | [] => [(k, v)]
  | (k', v') :: d' =>
      if String.eqb k' k then (k', v) :: d' else (k', v') :: dict_set d' k v
  end.

(** [a == b] *)
Fixpoint py_eq (a b : value) {struct a} : bool :=
  match a, b with
  | VNone, VNone => true
  | VStr s, VStr t => String.eqb s t
  | VList l, VList m =>
      (fix eq_list (l : list value) (m : list value) : bool :=
         match l, m with
         | [], [] => true
         | x :: l', y :: m' => py_eq x y && eq_list l' m'
         | _, _ => false
         end) l m
  | VDict d, VDict e =>
      (length d =? length e)%nat &&
      (fix eq_items (d : dict) : bool :=
         match d with
         | [] => true
         | (k, v) :: d' =>
             match dict_lookup e k with
             | Some w => py_eq v w && eq_items d'
             | None => false
             end
         end) d
  | _, _ =>
      match as_num a, as_num b with
      | Some x, Some y => num_eq x y
      | _, _ => false
      end
  end.

(** [textual occurrence]: [needle in haystack] on strings. *)
Fixpoint is_substring (needle hay : string) : bool :=
  String.prefix needle hay ||
  match hay with
  | EmptyString => false
  | String _ hay' => is_substring needle hay'
  end.

Definition join (sep : string) (l : list string) : string :=
  String.concat sep l.

Definition string_of_Z (z : Z) : string :=
  NilZero.string_of_int (Z.to_int z).

Definition upper_ascii (c : ascii) : ascii :=
  let n := nat_of_ascii c in
  if ((97 <=? n) && (n <=? 122))%nat then ascii_of_nat (n - 32) else c.

(** A character of ASCII: in UTF-8, one byte below 128. *)
Definition is_ascii (c : ascii) : bool := (nat_of_ascii c <? 128)%nat.

Definition all_ascii (s : string) : bool := forallb is_ascii (list_ascii_of_string s).

(** The strings of a list when every item is one. *)
Fixpoint all_strings (items : list value) : option (list string) :=
  match items with
  | [] => Some []
  | VStr s :: items' =>
      match all_strings items' with
      | Some ss => Some (s :: ss)
      | None => None
      end
  | _ :: _ => None
  end.

Definition AttributeError_get : exn :=
  Exn AttributeError "object has no attribute 'get'".

(** [v.get(k, default)] for a value that need not be a dict. *)
Definition get (v : value) (k : string) (default : value) : result value :=
  match v with
  | VDict d => Returns (dict_get d k default)
  | _ => Raises AttributeError_get
  end.

(** [v[k]] with a string key. *)
Definition subscript (v : value) (k : string) : result value :=
  match v with
  | VDict d => match dict_lookup d k with
               | Some x => Returns x
               | None => Raises (Exn KeyError k)
               end
  | _ => Raises (Exn TypeError "indices must be integers")
  end.

(** [k in v] for a string [k]. *)
Definition contains (k : string) (v : value) : result bool :=
  match v with
  | VDict d => Returns (match dict_lookup d k with Some _ => true | None => false end)
  | VStr s => Returns (is_substring k s)
  | VList l => Returns (existsb (py_eq (VStr k)) l)
  | _ => Raises (Exn TypeError "argument is not iterable")
  end.

(** The sequence a [for] loop runs over. *)
Definition iterate (v : value) : result (list value) :=
  match v with
  | VList l => Returns l
  | VDict d => Returns (map (fun kv => VStr (fst kv)) d)
  | VStr s => Returns (map (fun c => VStr (String c EmptyString)) (list_ascii_of_string s))
  | _ => Raises (Exn TypeError "object is not iterable")
  end.

(** [len(v)] *)
Definition len (v : value) : result Z :=
  match v with
  | VList l => Returns (Z.of_nat (length l))
  | VDict d => Returns (Z.of_nat (length d))
  | VStr s => Returns (Z.of_nat (String.length s))
  | _ => Raises (Exn TypeError "object has no len()")
  end.

(** [s.split(sep)] for a non-empty [sep]: [skip] counts the characters of a
    separator just found that are still to be passed over, [piece] is the
    piece being read. *)
Fixpoint split_from (sep : string) (skip : nat) (piece : string) (s : string)
  : list string :=
  match s with
  | EmptyString => [piece]
  | String c s' =>
      match skip with
      | S k => split_from sep k piece s'
      | O =>
          if String.prefix sep s
          then piece :: split_from sep (String.length sep - 1) EmptyString s'
          else split_from sep O (piece +:+ String c EmptyString) s'
      end
  end.

Definition split (sep s : string) : list string := split_from sep 0 EmptyString s.

(** [s * n] *)
Fixpoint repeat_string (s : string) (n : nat) : string :=
  match n with
  | O => EmptyString
  | S n' => s +:+ repeat_string s n'
  end.

(** What the interpreter and its libraries compute and the model takes as
    given: the text of a float, the [repr] of a list or dict, whether
    [ipaddress.ip_address] accepts a value, the order in which a [set] of
    strings is listed, the JSON and YAML readers and the YAML writer, and
    three facts about characters outside ASCII: the upper case [str.upper]
    gives a run of them, whether one of them is a decimal digit (what [\d]
    matches), and the [repr] of a string that is not all printable ASCII. *)
Record runtime := Runtime {
  repr_float : pyfloat -> string;
  repr_container : value -> string;
  ip_address_ok : value -> bool;
  set_order : list string -> list string;
  json_load : string -> result value;
  yaml_safe_load : string -> result value;
  yaml_dump : value -> string;
  upper_wide : string -> string;
  decimal_digit : string -> bool;
  repr_wide : string -> string
}.

(** [s.upper()]: [str.upper] maps character by character, so an ASCII
    letter becomes its capital, any other ASCII character stays, and each
    run of characters outside ASCII, gathered in [wide], becomes what the
    runtime gives for it (which may hold ASCII letters: the long s becomes
    [S]). *)
Definition upper_run (R : runtime) (wide : string) : string :=
  match wide with
  | EmptyString => EmptyString
  | _ => upper_wide R wide
  end.

Fixpoint upper_from (R : runtime) (wide : string) (s : string) : string :=
  match s with
  | EmptyString => upper_run R wide
  | String c s' =>
      if is_ascii c
      then upper_run R wide +:+ String (upper_ascii c) (upper_from R EmptyString s')
      else upper_from R (wide +:+ String c EmptyString) s'
  end.

Definition upper (R : runtime) (s : string) : string := upper_from R EmptyString s.

(** [repr(s)] of a string: for printable ASCII, the text between single
    quotes, or between double quotes when it holds a single quote and no
    double quote, with a backslash before a backslash and before the quote
    in use. *)
Definition printable (c : ascii) : bool :=
  let n := nat_of_ascii c in ((32 <=? n) && (n <=? 126))%nat.

Definition single_quote : ascii := ascii_of_nat 39.
Definition double_quote : ascii := ascii_of_nat 34.
Definition backslash : ascii := ascii_of_nat 92.

Fixpoint escaped (quote : ascii) (s : string) : string :=
  match s with
  | EmptyString => EmptyString
  | String c s' =>
      if Ascii.eqb c backslash || Ascii.eqb c quote
      then String backslash (String c (escaped quote s'))
      else String c (escaped quote s')
  end.

Definition has_char (c : ascii) (s : string) : bool :=
  existsb (Ascii.eqb c) (list_ascii_of_string s).

Definition repr_str (R : runtime) (s : string) : string :=
  if forallb printable (list_ascii_of_string s) then
    let quote :=
      if has_char single_quote s && negb (has_char double_quote s)
      then double_quote else single_quote in
    String quote (escaped quote s +:+ String quote EmptyString)
  else repr_wide R s.

(** [str(v)], as an f-string formats a value. *)
Definition py_str (R : runtime) (v : value) : string :=
  match v with
  | VNone => "None"
  | VBool true => "True"
  | VBool false => "False"
  | VInt z => string_of_Z z
  | VFloat f => repr_float R f
  | VStr s => s
  | VList _ | VDict _ => repr_container R v
  end.

(** ** Regular expressions, matched by derivatives *)

Module Regex.

(** [Cls p] is one ASCII character that satisfies [p]; [Wide p] is one
    character outside ASCII whose UTF-8 bytes satisfy [p], and [Tail n seen p]
    is what is left of it once the bytes [seen] are read and [n] are still
    to come. *)
Inductive regex :=
| Void
| Eps
| Cls (p : ascii -> bool)
| Wide (p : string -> bool)
| Tail (n : nat) (seen : string) (p : string -> bool)
| Cat (r1 r2 : regex)
| Alt (r1 r2 : regex)
| Star (r : regex).

Fixpoint nullable (r : regex) : bool :=
  match r with
  | Void => false
  | Eps => true
  | Cls _ => false
  | Wide _ => false
  | Tail _ _ _ => false
  | Cat r1 r2 => nullable r1 && nullable r2
  | Alt r1 r2 => nullable r1 || nullable r2
  | Star _ => true
  end.

Definition in_range (lo hi : nat) (c : ascii) : bool :=
  let n := nat_of_ascii c in ((lo <=? n) && (n <=? hi))%nat.

(** The bytes that follow the first byte of a character in UTF-8. *)
Definition following_bytes (c : ascii) : nat :=
  if in_range 192 223 c then 1
  else if in_range 224 239 c then 2
  else if in_range 240 247 c then 3
  else 0.

Definition is_continuation := in_range 128 191.

Definition is_void (r : regex) : bool :=
  match r with Void => true | _ => false end.

Definition cat (r1 r2 : regex) : regex :=
  if is_void r1 || is_void r2 then Void
  else match r1 with Eps => r2 | _ => Cat r1 r2 end.

Definition alt (r1 r2 : regex) : regex :=
  if is_void r1 then r2 else if is_void r2 then r1 else Alt r1 r2.

Fixpoint deriv (c : ascii) (r : regex) : regex :=
  match r with
  | Void => Void
  | Eps => Void
  | Cls p => if p c then Eps else Void
  | Wide p =>
      match following_bytes c with
      | O => Void
      | S n => Tail n (String c EmptyString) p
      end
  | Tail n seen p =>
      if is_continuation c then
        match n with
        | O => if p (seen +:+ String c EmptyString) then Eps else Void
        | S n' => Tail n' (seen +:+ String c EmptyString) p
        end
      else Void
  | Cat r1 r2 =>
      if nullable r1 then alt (cat (deriv c r1) r2) (deriv c r2)
      else cat (deriv c r1) r2
  | Alt r1 r2 => alt (deriv c r1) (deriv c r2)
  | Star r1 => cat (deriv c r1) (Star r1)
  end.

Fixpoint matches (r : regex) (s : string) : bool :=
  match s with
  | EmptyString => nullable r
  | String c s' => matches (deriv c r) s'
  end.

Definition opt (r : regex) : regex := Alt Eps r.
Definition plus (r : regex) : regex := Cat r (Star r).

(** [r{0,n}] *)
Fixpoint upto (n : nat) (r : regex) : regex :=
  match n with
  | O => Eps
  | S n' => opt (Cat r (upto n' r))
  end.

Definition is_lower := in_range 97 122.
Definition is_upper := in_range 65 90.
Definition is_digit := in_range 48 57.
Definition is_alnum (c : ascii) : bool := is_lower c || is_upper c || is_digit c.
Definition one_of (s : string) (c : ascii) : bool :=
  existsb (Ascii.eqb c) (list_ascii_of_string s).

Definition newline : ascii := ascii_of_nat 10.

(** [re.match('^' r '$', s)]: anchored at the start; [$] matches at the end
    of the string and also just before a newline that ends it. *)
Definition re_match_anchored (r : regex) (s : string) : bool :=
  matches (Cat r (opt (Cls (Ascii.eqb newline)))) s.

End Regex.

(** ** scripts/lib/validation.py *)

Module Validation.
Import Regex.

(** The [ConfigValidator] object: its two accumulators. *)
Record validator := Validator {
  errors : list string;
  warnings : list string
}.

Definition V := M validator.

(** [self.errors.append(msg)] *)
Definition append_error (msg : string) : V unit :=
  modify (fun v => Validator (errors v ++ [msg]) (warnings v)).

(** [self.warnings.append(msg)] *)
Definition append_warning (msg : string) : V unit :=
  modify (fun v => Validator (errors v) (warnings v ++ [msg])).

(** [re.match(pattern, v)] as a truth value; a non-string raises. *)
Definition re_match (r : regex) (v : value) : result bool :=
  match v with
  | VStr s => Returns (re_match_anchored r s)
  | _ => Raises (Exn TypeError "expected string or bytes-like object")
  end.

Definition name_char (c : ascii) : bool := is_alnum c || one_of "_-" c.
Definition host_char (c : ascii) : bool := is_alnum c || one_of "-" c.

(** [^[a-zA-Z0-9][a-zA-Z0-9_-]*$] *)
Definition name_regex : regex := Cat (Cls is_alnum) (Star (Cls name_char)).

(** [[a-zA-Z0-9]([a-zA-Z0-9-]{0,61}[a-zA-Z0-9])?] *)
Definition host_label : regex :=
  Cat (Cls is_alnum) (opt (Cat (upto 61 (Cls host_char)) (Cls is_alnum))).

(** [^label(\.label)*$] *)
Definition hostname_regex : regex :=
  Cat host_label (Star (Cat (Cls (Ascii.eqb ".")) host_label)).

(** [^[a-zA-Z0-9/_\-+=.@]+$] *)
Definition secret_name_regex : regex :=
  plus (Cls (fun c => is_alnum c || one_of "/_-+=.@" c)).

(** [^/[a-zA-Z0-9/_\-.]+$] *)
Definition ssm_name_regex : regex :=
  Cat (Cls (Ascii.eqb "/")) (plus (Cls (fun c => is_alnum c || one_of "/_-." c))).

Definition _validate_name (name : value) : result bool := re_match name_regex name.
Definition _validate_aws_secret_name (v : value) : result bool :=
  re_match secret_name_regex v.
Definition _validate_ssm_parameter_name (v : value) : result bool :=
  re_match ssm_name_regex v.

Section WithRuntime.
Variable R : runtime.

(** [\d]: a decimal digit, of ASCII or not. *)
Definition digit : regex := Alt (Cls is_digit) (Wide (decimal_digit R)).

(** [^\d+[smh]$] *)
Definition interval_regex : regex := Cat (plus digit) (Cls (one_of "smh")).

Definition _validate_interval (v : value) : result bool := re_match interval_regex v.

Definition _validate_host (host : value) : result bool :=
  if ip_address_ok R host then Returns true
  else re_match hostname_regex host.

Definition str_in (v : value) (l : list string) : bool :=
  existsb (fun s => py_eq v (VStr s)) l.

Definition is_int (v : value) : bool :=
  match v with VBool _ | VInt _ => true | _ => false end.

(** [v < lo or v > hi] for a number [v]. *)
Definition out_of_range (v : value) (lo hi : num) : bool :=
  match as_num v with
  | Some n => num_lt n lo || num_lt hi n
  | None => false
  end.

Definition _validate_connection (conn : value) (prefix : string) : V unit :=
  host <~ lift (get conn "host" VNone) ;;
  endpoint <~ lift (get conn "endpoint" VNone) ;;
  cluster_endpoint <~ lift (get conn "cluster_endpoint" VNone) ;;
  let hosts := [host; endpoint; cluster_endpoint] in
  let valid_hosts := List.filter truthy hosts in
  (match valid_hosts with
   | [] => append_error (prefix +:+ ".connection: No host specified")
   | [h] =>
       ok <~ lift (_validate_host h) ;;
       if ok then ret tt
       else append_error (prefix +:+ ".connection: Invalid host '" +:+ py_str R h +:+ "'")
   | _ => append_warning
            (prefix +:+ ".connection: Multiple hosts specified, will use first one")
   end) ;;;
  port <~ lift (get conn "port" VNone) ;;
  (match port with
   | VNone => ret tt
   | _ =>
       if negb (is_int port) || out_of_range port (NInt 1) (NInt 65535)
       then append_error (prefix +:+ ".connection: Invalid port '" +:+ py_str R port
                            +:+ "' - must be 1-65535")
       else ret tt
   end) ;;;
  ssl_mode <~ lift (get conn "ssl_mode" VNone) ;;
  if truthy ssl_mode
     && negb (str_in ssl_mode ["disable"; "require"; "verify-ca"; "verify-full"; "prefer"])
  then append_error (prefix +:+ ".connection: Invalid ssl_mode '" +:+ py_str R ssl_mode +:+ "'")
  else ret tt.

Definition sources : list string :=
  ["plain"; "aws_secrets_manager"; "aws_ssm_parameter"; "env_var"].

Definition _validate_credentials (creds : value) (prefix : string) : V unit :=
  (* Username validation *)
  user_source <~ lift (get creds "user_source" (VStr "plain")) ;;
  (if negb (str_in user_source sources)
   then append_error (prefix +:+ ".credentials: Invalid user_source '"
                        +:+ py_str R user_source +:+ "'")
   else ret tt) ;;;
  (if py_eq user_source (VStr "plain") then
     user <~ lift (get creds "user" VNone) ;;
     if negb (truthy user)
     then append_error (prefix +:+ ".credentials: Missing 'user' for plain text source")
     else ret tt
   else if py_eq user_source (VStr "env_var") then
     user_env <~ lift (get creds "user_env" VNone) ;;
     if negb (truthy user_env)
     then append_error (prefix +:+ ".credentials: Missing 'user_env' for environment variable source")
     else ret tt
   else if str_in user_source ["aws_secrets_manager"; "aws_ssm_parameter"] then
     user_key <~ lift (get creds "user_key" VNone) ;;
     if negb (truthy user_key)
     then append_error (prefix +:+ ".credentials: Missing 'user_key' for AWS source")
     else ret tt
   else ret tt) ;;;
  (* Password validation *)
  password_source <~ lift (get creds "password_source" (VStr "plain")) ;;
  (if negb (str_in password_source sources)
   then append_error (prefix +:+ ".credentials: Invalid password_source '"
                        +:+ py_str R password_source +:+ "'")
   else ret tt) ;;;
  (if py_eq password_source (VStr "plain") then
     password <~ lift (get creds "password" VNone) ;;
     if truthy password
     then append_warning (prefix +:+ ".credentials: Using plain text password is not recommended")
     else ret tt
   else if py_eq password_source (VStr "env_var") then
     password_env <~ lift (get creds "password_env" VNone) ;;
     if negb (truthy password_env)
     then append_error (prefix +:+ ".credentials: Missing 'password_env' for environment variable source")
     else ret tt
   else if str_in password_source ["aws_secrets_manager"; "aws_ssm_parameter"] then
     password_key <~ lift (get creds "password_key" VNone) ;;
     if negb (truthy password_key)
     then append_error (prefix +:+ ".credentials: Missing 'password_key' for AWS source")
     else ret tt
   else ret tt) ;;;
  (* Validate AWS resource names *)
  if py_eq password_source (VStr "aws_secrets_manager") then
    key <~ lift (get creds "password_key" (VStr "")) ;;
    if truthy key then
      ok <~ lift (_validate_aws_secret_name key) ;;
      if ok then ret tt
      else append_error (prefix +:+ ".credentials: Invalid secret name '" +:+ py_str R key +:+ "'")
    else ret tt
  else if py_eq password_source (VStr "aws_ssm_parameter") then
    key <~ lift (get creds "password_key" (VStr "")) ;;
    if truthy key then
      ok <~ lift (_validate_ssm_parameter_name key) ;;
      if ok then ret tt
      else append_error (prefix +:+ ".credentials: Invalid SSM parameter name '"
                           +:+ py_str R key +:+ "'")
    else ret tt
  else ret tt.

(** [numeric_fields], in the order the dict literal lists them; the bounds
    carry the text an f-string gives them. *)
Definition numeric_fields : list (string * (num * string) * (num * string)) :=
  [ ("max_sql_query_length", (NInt 1, "1"), (NInt 10000, "10000"));
    ("max_sample_rate", (NFloat (FFinite 0), "0.0"), (NFloat (FFinite 1), "1.0"));
    ("query_timeout", (NInt 1, "1"), (NInt 3600, "3600")) ].

Definition is_number (v : value) : bool :=
  match v with VBool _ | VInt _ | VFloat _ => true | _ => false end.

Definition _validate_monitoring (monitoring : value) (prefix : string) : V unit :=
  interval <~ lift (get monitoring "interval" VNone) ;;
  (if truthy interval then
     ok <~ lift (_validate_interval interval) ;;
     if ok then ret tt
     else append_error (prefix +:+ ".monitoring: Invalid interval '" +:+ py_str R interval
                          +:+ "' - use format like '30s', '5m', '1h'")
   else ret tt) ;;;
  for_each numeric_fields (fun '(field, (min_val, min_text), (max_val, max_text)) =>
    v <~ lift (get monitoring field VNone) ;;
    match v with
    | VNone => ret tt
    | _ =>
        if is_number v then
          if out_of_range v min_val max_val
          then append_error (prefix +:+ ".monitoring: " +:+ field +:+ " must be between "
                               +:+ min_text +:+ " and " +:+ max_text)
          else ret tt
        else append_error (prefix +:+ ".monitoring: " +:+ field +:+ " must be a number")
    end).

Definition _validate_database (db : value) (db_type : string) (index : nat) : V unit :=
  let prefix := db_type +:+ "[" +:+ string_of_Z (Z.of_nat index) +:+ "]" in
  (* Required fields *)
  has_name <~ lift (contains "name" db) ;;
  (if negb has_name
   then append_error (prefix +:+ ": Missing required field 'name'")
   else
     name <~ lift (subscript db "name") ;;
     ok <~ lift (_validate_name name) ;;
     if ok then ret tt
     else append_error (prefix +:+ ": Invalid name '" +:+ py_str R name
                          +:+ "' - must contain only alphanumeric, dash, underscore")) ;;;
  has_type <~ lift (contains "type" db) ;;
  (if negb has_type
   then append_error (prefix +:+ ": Missing required field 'type'")
   else
     ty <~ lift (subscript db "type") ;;
     if negb (py_eq ty (VStr db_type))
     then append_error (prefix +:+ ": Type mismatch - expected '" +:+ db_type
                          +:+ "', got '" +:+ py_str R ty +:+ "'")
     else ret tt) ;;;
  (* Validate connection *)
  conn <~ lift (get db "connection" (VDict [])) ;;
  (if negb (truthy conn)
   then append_error (prefix +:+ ": Missing 'connection' section")
   else _validate_connection conn prefix) ;;;
  (* Validate credentials *)
  creds <~ lift (get db "credentials" (VDict [])) ;;
  (if negb (truthy creds)
   then append_error (prefix +:+ ": Missing 'credentials' section")
   else _validate_credentials creds prefix) ;;;
  (* Validate monitoring settings *)
  monitoring <~ lift (get db "monitoring" (VDict [])) ;;
  if truthy monitoring then _validate_monitoring monitoring prefix else ret tt.

Definition hashable (v : value) : bool :=
  match v with VList _ | VDict _ => false | _ => true end.

(** [all_names.count(name)] *)
Definition count (name : value) (all_names : list value) : nat :=
  length (List.filter (py_eq name) all_names).

(** The names the two nested loops of [_check_duplicate_names] collect
    from one list of databases. *)
Definition collect_names (db_list : value) (all_names : list value)
  : result (list value) :=
  dbs <- iterate db_list ;;
  fold_left (fun acc db =>
               names <- acc ;;
               has_name <- contains "name" db ;;
               if has_name
               then n <- subscript db "name" ;; Returns (names ++ [n])
               else Returns names)
            dbs (Returns all_names).

Definition duplicate_prefix : string := "Duplicate service names found: ".

(** [all_names] once both lists are read. *)
Definition service_names (config : value) : result (list value) :=
  mysql <- get config "mysql_databases" (VList []) ;;
  postgres <- get config "postgresql_databases" (VList []) ;;
  names <- collect_names mysql [] ;;
  collect_names postgres names.

Definition _check_duplicate_names (config : value) : V unit :=
  all_names <~ lift (service_names config) ;;
  let duplicates := List.filter (fun name => (1 <? count name all_names)%nat) all_names in
  match duplicates with
  | [] => ret tt
  | _ =>
      (* list(set(duplicates)) needs hashable items, ', '.join needs strings *)
      if forallb hashable duplicates then
        match all_strings duplicates with
        | Some strs =>
            let unique_dups := set_order R strs in
            append_error (duplicate_prefix +:+ join ", " unique_dups)
        | None => raise (Exn TypeError "sequence item: expected str instance")
        end
      else raise (Exn TypeError "unhashable type")
  end.

(** [for i, db in enumerate(dbs): self._validate_database(db, db_type, i)] *)
Fixpoint validate_all (dbs : list value) (db_type : string) (i : nat) : V unit :=
  match dbs with
  | [] => ret tt
  | db :: dbs' => _validate_database db db_type i ;;; validate_all dbs' db_type (S i)
  end.

Definition validate_config (config : value)
  : V (bool * list string * list string) :=
  modify (fun _ => Validator [] []) ;;;
  (* Validate MySQL databases *)
  mysql_dbs <~ lift (get config "mysql_databases" (VList [])) ;;
  dbs <~ lift (iterate mysql_dbs) ;;
  validate_all dbs "mysql" 0 ;;;
  (* Validate PostgreSQL databases *)
  postgres_dbs <~ lift (get config "postgresql_databases" (VList [])) ;;
  dbs <~ lift (iterate postgres_dbs) ;;
  validate_all dbs "postgresql" 0 ;;;
  (* Check for duplicate service names *)
  _check_duplicate_names config ;;;
  self <~ get_state ;;
  ret (match errors self with [] => true | _ => false end, errors self, warnings self).

(** [validate_yaml_config]: a fresh validator, whose result is returned. *)
Definition validate_yaml_config (config : value)
  : result (bool * list string * list string) :=
  fst (validate_config config (Validator [] [])).

End WithRuntime.
End Validation.

(** ** The process around the scripts *)

(** Calls that leave the process. *)
Inductive call :=
| GetSecretValue (secret_id : value)
| GetParameter (name : value)
| Connect (engine : string) (args : dict)
| Execute (engine : string) (query : string) (params : list value).

Record file := File { content : string; mode : Z }.

Record process := Process {
  stdout : list string;
  stderr : list string;
  files : gmap string file;
  calls : list call
}.

(** A cursor of an open database connection: what [execute] followed by a
    fetch of all rows gives for a query. *)
Definition cursor := string -> list value -> result (list (list value)).

(** What a script asks of the file system. *)
Inductive access :=
| OpenRead (path : string)
| OpenWrite (path : string)
| Chmod (path : string)
| Rename (src dst : string).

(** The collaborators: the process environment, the two AWS clients, the
    two database drivers and the operating system.  [files] of a process
    holds the files it can read; [refuses] tells which other requests the
    system turns down, and with which exception: opening for writing where
    the directory is missing or may not be written, changing the mode or the
    name of a file the process does not own, and, for a path that is not
    among the files, an error other than [FileNotFoundError] (a directory, a
    file without read permission). *)
Record world := World {
  environ : gmap string string;
  get_secret_value : value -> result value;
  get_parameter : value -> result value;
  mysql_connect : dict -> result cursor;
  postgres_connect : dict -> result cursor;
  refuses : access -> option exn
}.

Definition nl : string := String (ascii_of_nat 10) EmptyString.

(** [print(text)] *)
Definition print (text : string) : M process unit :=
  modify (fun p => Process (stdout p ++ [text +:+ nl]) (stderr p) (files p) (calls p)).

(** [print(text, end=' ')] *)
Definition print_end (text : string) (e : string) : M process unit :=
  modify (fun p => Process (stdout p ++ [text +:+ e]) (stderr p) (files p) (calls p)).

(** [print(text, file=sys.stderr)] *)
Definition eprint (text : string) : M process unit :=
  modify (fun p => Process (stdout p) (stderr p ++ [text +:+ nl]) (files p) (calls p)).

Definition record_call (c : call) : M process unit :=
  modify (fun p => Process (stdout p) (stderr p) (files p) (calls p ++ [c])).

(** [os.environ.get(name, default)]: the key must be a string. *)
Definition environ_get (W : world) (name : value) (default : string) : result value :=
  match name with
  | VStr n => Returns (VStr (match environ W !! n with Some x => x | None => default end))
  | _ => Raises (Exn TypeError "str expected")
  end.

(** The [FileNotFoundError] of [open], [os.chmod] and [os.rename], with the
    text [str(e)] gives. *)
Definition no_such_file (R : runtime) (path : string) : exn :=
  Exn FileNotFoundError ("[Errno 2] No such file or directory: " +:+ repr_str R path).

Definition no_such_files (R : runtime) (src dst : string) : exn :=
  Exn FileNotFoundError
    ("[Errno 2] No such file or directory: " +:+ repr_str R src +:+ " -> "
       +:+ repr_str R dst).

(** [with open(path, 'r') as f: ...]: the text of the file. *)
Definition read_file (R : runtime) (W : world) (path : string) : M process string :=
  p <~ get_state ;;
  match files p !! path with
  | Some f => ret (content f)
  | None =>
      raise (match refuses W (OpenRead path) with
             | Some e => e
             | None => no_such_file R path
             end)
  end.

Definition ends_with (s suffix : string) : bool :=
  let n := String.length s in
  let m := String.length suffix in
  (m <=? n)%nat && String.eqb (String.substring (n - m) m s) suffix.

(** [with open(path, 'w') as f: f.write(text)]: when the system lets the
    file be opened, an existing file keeps its mode and a new one gets
    [default_mode]. *)
Definition open_write (W : world) (path text : string) (default_mode : Z)
  : M process unit :=
  match refuses W (OpenWrite path) with
  | Some e => raise e
  | None =>
      modify (fun p =>
                Process (stdout p) (stderr p)
                  (<[path := File text (match files p !! path with
                                        | Some f => mode f
                                        | None => default_mode
                                        end)]> (files p))
                  (calls p))
  end.

(** [os.chmod(path, m)] *)
Definition chmod (R : runtime) (W : world) (path : string) (m : Z) : M process unit :=
  match refuses W (Chmod path) with
  | Some e => raise e
  | None =>
      p <~ get_state ;;
      match files p !! path with
      | Some f =>
          modify (fun p => Process (stdout p) (stderr p)
                             (<[path := File (content f) m]> (files p)) (calls p))
      | None => raise (no_such_file R path)
      end
  end.

(** [os.rename(src, dst)] *)
Definition rename (R : runtime) (W : world) (src dst : string) : M process unit :=
  match refuses W (Rename src dst) with
  | Some e => raise e
  | None =>
      p <~ get_state ;;
      match files p !! src with
      | Some f =>
          modify (fun p => Process (stdout p) (stderr p)
                             (<[dst := f]> (delete src (files p))) (calls p))
      | None => raise (no_such_files R src dst)
      end
  end.

(** ** scripts/transform-config.py *)

Module Transform.

Section WithWorld.
Variable R : runtime.
Variable W : world.

Definition P := M process.

Definition secret_diagnostic : string :=
  "Error fetching secret: Failed to retrieve credentials".
Definition parameter_diagnostic : string :=
  "Error fetching SSM parameter: Failed to retrieve credentials".

(** [ConfigTransformer.fetch_secret] *)
Definition fetch_secret (secret_id : value) : P value :=
  try_except
    (record_call (GetSecretValue secret_id) ;;;
     response <~ lift (get_secret_value W secret_id) ;;
     lift (subscript response "SecretString"))
    (fun e =>
       (* Log error without exposing secret ID details *)
       eprint secret_diagnostic ;;;
       ret (VStr "ERROR_FETCHING_SECRET")).

(** [ConfigTransformer.fetch_ssm_parameter] *)
Definition fetch_ssm_parameter (parameter_name : value) : P value :=
  try_except
    (record_call (GetParameter parameter_name) ;;;
     response <~ lift (get_parameter W parameter_name) ;;
     parameter <~ lift (subscript response "Parameter") ;;
     lift (subscript parameter "Value"))
    (fun e =>
       (* Log error without exposing parameter name *)
       eprint parameter_diagnostic ;;;
       ret (VStr "ERROR_FETCHING_PARAMETER")).

(** [ConfigTransformer.resolve_credentials] *)
Definition resolve_credentials (credentials : value) : P value :=
  let resolved : dict := [] in
  (* Username *)
  user <~ lift (get credentials "username" (VStr "newrelic")) ;;
  let resolved := dict_set resolved "user" user in
  (* Password resolution *)
  password_source <~ lift (get credentials "password_source" (VStr "plain")) ;;
  password <~
    (if py_eq password_source (VStr "aws_secrets_manager") then
       password_key <~ lift (get credentials "password_key" VNone) ;;
       if truthy password_key then fetch_secret password_key
       else ret (VStr "MISSING_PASSWORD_KEY")
     else if py_eq password_source (VStr "aws_ssm_parameter") then
       password_key <~ lift (get credentials "password_key" VNone) ;;
       if truthy password_key then fetch_ssm_parameter password_key
       else ret (VStr "MISSING_PASSWORD_KEY")
     else if py_eq password_source (VStr "env_var") then
       env_var <~ lift (get credentials "password_env" VNone) ;;
       if truthy env_var then lift (environ_get W env_var "ENV_VAR_NOT_SET")
       else ret (VStr "MISSING_PASSWORD_ENV")
     else (* plain text *)
       lift (get credentials "password" (VStr "MISSING_PASSWORD"))) ;;
  let resolved := dict_set resolved "password" password in
  ret (VDict resolved).

(** [db.get(section, {}).get(key, default)] *)
Definition section_get (db : value) (section key : string) (default : value)
  : result value :=
  sec <- get db section (VDict []) ;; get sec key default.

(** The loop that copies every label except [environment]. *)
Definition custom_labels (labels : dict) : dict :=
  fold_left (fun acc kv =>
               if negb (String.eqb (fst kv) "environment")
               then dict_set acc (fst kv) (snd kv) else acc)
            labels [].

(** [d.items()] *)
Definition items (v : value) : result dict :=
  match v with
  | VDict d => Returns d
  | _ => Raises (Exn AttributeError "object has no attribute 'items'")
  end.

(** The dict that [transform_database] builds for an entry once its
    credentials [creds] are resolved; none of it touches the process. *)
Definition flat_entry (db creds : value) : result value :=
  (* Base configuration *)
  host <- section_get db "connection" "host" VNone ;;
  host <- (if truthy host then Returns host else
             endpoint <- section_get db "connection" "endpoint" VNone ;;
             if truthy endpoint then Returns endpoint else
               section_get db "connection" "cluster_endpoint" VNone) ;;
  connection <- get db "connection" (VDict []) ;;
  _ <- (match connection with
        | VDict _ => Returns tt
        | _ => Raises AttributeError_get
        end) ;;
  ty <- subscript db "type" ;;
  port <- get connection "port"
            (if py_eq ty (VStr "mysql") then VInt 3306 else VInt 5432) ;;
  user <- subscript creds "user" ;;
  password <- subscript creds "password" ;;
  service_name <- get db "name" VNone ;;
  environment <- section_get db "labels" "environment" (VStr "production") ;;
  let ansible_db : dict :=
    [ ("host", host); ("port", port); ("user", user); ("password", password);
      ("service_name", service_name); ("environment", environment) ] in
  (* Add database-specific fields *)
  ty <- subscript db "type" ;;
  ansible_db <-
    (if py_eq ty (VStr "postgresql") then
       database <- section_get db "connection" "database" (VStr "postgres") ;;
       sslmode <- section_get db "connection" "ssl_mode" (VStr "require") ;;
       Returns (dict_set (dict_set ansible_db "database" database) "sslmode" sslmode)
     else Returns ansible_db) ;;
  (* Monitoring settings *)
  monitoring <- get db "monitoring" (VDict []) ;;
  v <- get monitoring "extended_metrics" (VBool true) ;;
  let ansible_db := dict_set ansible_db "extended_metrics" v in
  v <- get monitoring "interval" (VStr "30s") ;;
  let ansible_db := dict_set ansible_db "interval" v in
  (* Query monitoring *)
  v <- get monitoring "enable_query_monitoring" (VBool true) ;;
  let ansible_db := dict_set ansible_db "enable_query_monitoring" v in
  v <- get monitoring "query_metrics_interval" (VStr "60s") ;;
  let ansible_db := dict_set ansible_db "query_metrics_interval" v in
  v <- get monitoring "max_sql_query_length" (VInt 1000) ;;
  let ansible_db := dict_set ansible_db "max_sql_query_length" v in
  v <- get monitoring "gather_query_samples" (VBool true) ;;
  let ansible_db := dict_set ansible_db "gather_query_samples" v in
  (* PostgreSQL specific *)
  ty <- subscript db "type" ;;
  ansible_db <-
    (if py_eq ty (VStr "postgresql") then
       bloat <- get monitoring "collect_bloat_metrics" (VBool true) ;;
       locks <- get monitoring "collect_db_lock_metrics" (VBool true) ;;
       Returns (dict_set (dict_set ansible_db "collect_bloat_metrics" bloat)
                  "collect_db_lock_metrics" locks)
     else Returns ansible_db) ;;
  (* TLS settings *)
  tls_enabled <- section_get db "tls" "enabled" VNone ;;
  ansible_db <-
    (if truthy tls_enabled then
       let ansible_db := dict_set ansible_db "tls_enabled" (VBool true) in
       ca <- section_get db "tls" "ca_bundle_file" VNone ;;
       if truthy ca then
         tls <- subscript db "tls" ;;
         ca <- subscript tls "ca_bundle_file" ;;
         Returns (dict_set ansible_db "tls_ca" ca)
       else Returns ansible_db
     else Returns ansible_db) ;;
  (* Custom labels *)
  labels <- get db "labels" (VDict []) ;;
  labels <- items labels ;;
  let ansible_db := dict_set ansible_db "custom_labels" (VDict (custom_labels labels)) in
  Returns (VDict ansible_db).

(** [ConfigTransformer.transform_database]; [VNone] for a skipped entry. *)
Definition transform_database (db : value) : P value :=
  (* Skip if disabled *)
  enabled <~ lift (get db "enabled" (VBool true)) ;;
  if negb (truthy enabled) then ret VNone else
  (* Resolve credentials *)
  credentials <~ lift (get db "credentials" (VDict [])) ;;
  creds <~ resolve_credentials credentials ;;
  lift (flat_entry db creds).

(** One turn of a loop of [transform_config]: [out] is the list the loop
    appends to. *)
Definition keep_transformed (out : list value) (db : value) : P (list value) :=
  transformed <~ transform_database db ;;
  if truthy transformed then ret (out ++ [transformed]) else ret out.

(** The loop of [transform_config] over one list of databases. *)
Definition transform_all (dbs : list value) : P (list value) :=
  for_fold dbs [] keep_transformed.

Definition environ_default (name default : string) : value :=
  VStr (match environ W !! name with Some x => x | None => default end).

(** [ConfigTransformer.transform_config] *)
Definition transform_config (input_config : value) : P value :=
  let output_config : dict :=
    [ ("newrelic_license_key", environ_default "NEWRELIC_LICENSE_KEY" "YOUR_LICENSE_KEY");
      ("newrelic_account_id", environ_default "NEWRELIC_ACCOUNT_ID" "YOUR_ACCOUNT_ID") ] in
  (* Transform MySQL databases *)
  dbs <~ lift (rbind (get input_config "mysql_databases" (VList [])) iterate) ;;
  mysql_dbs <~ transform_all dbs ;;
  let output_config :=
    if truthy (VList mysql_dbs)
    then dict_set output_config "mysql_databases" (VList mysql_dbs)
    else output_config in
  (* Transform PostgreSQL databases *)
  dbs <~ lift (rbind (get input_config "postgresql_databases" (VList [])) iterate) ;;
  postgres_dbs <~ transform_all dbs ;;
  let output_config :=
    if truthy (VList postgres_dbs)
    then dict_set output_config "postgresql_databases" (VList postgres_dbs)
    else output_config in
  ret (VDict output_config).

(** [json.load(f)] or [yaml.safe_load(f)], by the extension of the name. *)
Definition load_config (input_file : string) : P value :=
  text <~ read_file R W input_file ;;
  if ends_with input_file ".json" then lift (json_load R text)
  else lift (yaml_safe_load R text).

(** Permission bits [stat.S_IRUSR | stat.S_IWUSR]. *)
Definition owner_read_write : Z := Z.lor 256 128.

(** The loop that counts and reports the entries whose password holds
    [ERROR]. *)
Definition report_errors (db_list : value) (error_count : Z) : P Z :=
  dbs <~ lift (iterate db_list) ;;
  for_fold dbs error_count (fun n db =>
    password <~ lift (get db "password" (VStr "")) ;;
    failed <~ lift (contains "ERROR" password) ;;
    if failed then
      name <~ lift (get db "service_name" (VStr "unknown")) ;;
      print (nl +:+ "WARNING: Failed to resolve credentials for database: "
               +:+ py_str R name) ;;;
      ret (n + 1)
    else ret n).

(** [ConfigTransformer.process_file]; [default_mode] is the mode a newly
    created file gets from the process's umask. *)
Definition process_file (default_mode : Z) (input_file output_file : string) : P unit :=
  print ("Reading configuration from " +:+ input_file +:+ "...") ;;;
  input_config <~ load_config input_file ;;
  (* Validate input configuration *)
  print "Validating configuration..." ;;;
  verdict <~ lift (Validation.validate_yaml_config R input_config) ;;
  let '(valid, errors, warnings) := verdict in
  (if negb valid then
     print (nl +:+ "Configuration validation failed:") ;;;
     for_each errors (fun error => print ("  ERROR: " +:+ error)) ;;;
     (match warnings with
      | [] => ret tt
      | _ =>
          print (nl +:+ "Warnings:") ;;;
          for_each warnings (fun warning => print ("  WARNING: " +:+ warning))
      end) ;;;
     raise (Exn ValueError "Invalid configuration")
   else ret tt) ;;;
  (match warnings with
   | [] => ret tt
   | _ =>
       print (nl +:+ "Configuration warnings:") ;;;
       for_each warnings (fun warning => print ("  WARNING: " +:+ warning))
   end) ;;;
  print "Transforming configuration..." ;;;
  output_config <~ transform_config input_config ;;
  print ("Writing transformed configuration to " +:+ output_file +:+ "...") ;;;
  (* Write to temporary file first *)
  let temp_file := output_file +:+ ".tmp" in
  open_write W temp_file (yaml_dump R output_config) default_mode ;;;
  (* Set secure permissions (owner read/write only) *)
  chmod R W temp_file owner_read_write ;;;
  (* Move to final location *)
  rename R W temp_file output_file ;;;
  (* Summary *)
  mysql_dbs <~ lift (get output_config "mysql_databases" (VList [])) ;;
  mysql_count <~ lift (len mysql_dbs) ;;
  postgres_dbs <~ lift (get output_config "postgresql_databases" (VList [])) ;;
  postgres_count <~ lift (len postgres_dbs) ;;
  print (nl +:+ "Transformation complete:") ;;;
  print ("  MySQL databases: " +:+ string_of_Z mysql_count) ;;;
  print ("  PostgreSQL databases: " +:+ string_of_Z postgres_count) ;;;
  (* Check for errors without exposing passwords *)
  error_count <~ report_errors mysql_dbs 0 ;;
  error_count <~ report_errors postgres_dbs error_count ;;
  if 0 <? error_count then
    print (nl +:+ "Total credential resolution errors: " +:+ string_of_Z error_count) ;;;
    print "Please check your AWS credentials and ensure the secrets/parameters exist."
  else ret tt.

End WithWorld.
End Transform.

(** ** scripts/validate-credentials.py *)

Module Probe.

(** The [CredentialValidator] object together with the process it runs in. *)
Record session := Session {
  errors : list string;
  warnings : list string;
  io : process
}.

Definition C := M session.

(** A computation of the process, run inside the session. *)
Definition in_process {A} (m : M process A) : C A :=
  fun s => match m (io s) with
           | (r, p) => (r, Session (errors s) (warnings s) p)
           end.

(** [self.errors.append(msg)] *)
Definition append_error (msg : string) : C unit :=
  modify (fun s => Session (errors s ++ [msg]) (warnings s) (io s)).

(** [self.warnings.append(msg)] *)
Definition append_warning (msg : string) : C unit :=
  modify (fun s => Session (errors s) (warnings s ++ [msg]) (io s)).

Section WithWorld.
Variable R : runtime.
Variable W : world.

(** [cursor.execute(query, params)] and the rows it leaves to fetch. *)
Definition execute (engine : string) (cur : cursor) (query : string)
    (params : list value) : C (list (list value)) :=
  in_process (record_call (Execute engine query params)) ;;;
  lift (cur query params).

(** [cursor.fetchone()[0]] *)
Definition fetchone_0 (rows : list (list value)) : result value :=
  match rows with
  | [] => Raises (Exn TypeError "'NoneType' object is not subscriptable")
  | [] :: _ => Raises (Exn IndexError "tuple index out of range")
  | (v :: _) :: _ => Returns v
  end.

(** [[row[0] for row in cursor.fetchall()]] *)
Fixpoint first_column (rows : list (list value)) : result (list value) :=
  match rows with
  | [] => Returns []
  | [] :: _ => Raises (Exn IndexError "tuple index out of range")
  | (v :: _) :: rows' => vs <- first_column rows' ;; Returns (v :: vs)
  end.

(** [sep.join(items)]: every item must be a string. *)
Definition strings_of (items : list value) : result (list string) :=
  match all_strings items with
  | Some ss => Returns ss
  | None => Raises (Exn TypeError "sequence item: expected str instance")
  end.

Definition required_permissions : list string :=
  ["SELECT"; "PROCESS"; "REPLICATION CLIENT"].

Definition mysql_unreachable : string :=
  "Connection failed: Unable to connect to MySQL database".
Definition postgres_unreachable : string :=
  "Connection failed: Unable to connect to PostgreSQL database".
Definition insufficient_privileges : string :=
  "Permission error: Insufficient database privileges".
Definition generic_failure : string :=
  "Connection failed: Database connection error".

(** The message of the three [except] clauses shared by both probes: it
    depends on the class of the exception alone. *)
Definition failure_message (unreachable : string) (k : exn_class) : string :=
  match k with
  | OperationalError => unreachable
  | ProgrammingError => insufficient_privileges
  | _ => generic_failure
  end.

Definition classify (unreachable : string) (e : exn) : C (bool * string) :=
  ret (false, failure_message unreachable (exn_kind e)).

(** The keyword arguments of [pymysql.connect], in the order they are
    evaluated. *)
Definition mysql_arguments (db : value) : result dict :=
  (* SSL configuration *)
  ssl <- get db "ssl" (VBool false) ;;
  use_ssl <- (if truthy ssl then Returns ssl else get db "tls" (VBool false)) ;;
  let ssl_config :=
    if truthy use_ssl
    then VDict [("ssl", VDict [("ssl_disabled", VBool false)])]
    else VNone in
  host <- subscript db "host" ;;
  port <- get db "port" (VInt 3306) ;;
  user <- subscript db "user" ;;
  password <- subscript db "password" ;;
  database <- get db "database" (VStr "information_schema") ;;
  Returns [ ("host", host); ("port", port); ("user", user); ("password", password);
            ("database", database); ("connect_timeout", VInt 10);
            ("ssl", ssl_config) ].

(** The permissions of [required_permissions] that the grants lack. *)
Definition missing_permissions (grants : list string) : list string :=
  let grants_str := upper R (join " " grants) in
  List.filter (fun perm => negb (is_substring perm grants_str)) required_permissions.

(** What [test_mysql_connection] does with an open connection. *)
Definition mysql_session (cur : cursor) : C (bool * string) :=
  (* Test basic connectivity *)
  rows <~ execute "mysql" cur "SELECT VERSION()" [] ;;
  version <~ lift (fetchone_0 rows) ;;
  (* Test required permissions *)
  rows <~ execute "mysql" cur "SHOW GRANTS FOR CURRENT_USER()" [] ;;
  grants <~ lift (first_column rows) ;;
  (* Check for required permissions *)
  grants <~ lift (strings_of grants) ;;
  match missing_permissions grants with
  | _ :: _ =>
      ret (false, "Missing permissions: " +:+ join ", " (missing_permissions grants))
  | [] =>
      (* Check performance_schema access *)
      execute "mysql" cur
        "SELECT COUNT(*) FROM performance_schema.setup_consumers" [] ;;;
      ret (true, "Connected successfully (MySQL " +:+ py_str R version +:+ ")")
  end.

(** The [try] block of [test_mysql_connection]. *)
Definition mysql_probe (db : value) : C (bool * string) :=
  args <~ lift (mysql_arguments db) ;;
  in_process (record_call (Connect "mysql" args)) ;;;
  cur <~ lift (mysql_connect W args) ;;
  mysql_session cur.

(** [CredentialValidator.test_mysql_connection] *)
Definition test_mysql_connection (db : value) : C (bool * string) :=
  try_except (mysql_probe db) (classify mysql_unreachable).

Definition monitor_role_query : string :=
  "
                    SELECT pg_has_role(%s, 'pg_monitor', 'USAGE') OR
                           pg_has_role(%s, 'pg_read_all_stats', 'USAGE')
                ".

Definition table_privilege_query : string :=
  "
                        SELECT has_table_privilege(%s, 'pg_stat_database', 'SELECT')
                    ".

Definition extension_query : string :=
  "
                    SELECT COUNT(*) FROM pg_extension WHERE extname = 'pg_stat_statements'
                ".

(** [v > 0] *)
Definition positive (v : value) : result bool :=
  match as_num v with
  | Some n => Returns (num_lt (NInt 0) n)
  | None => Raises (Exn TypeError "'>' not supported")
  end.

(** The keyword arguments of [psycopg2.connect]. *)
Definition postgres_arguments (db : value) : result dict :=
  host <- subscript db "host" ;;
  port <- get db "port" (VInt 5432) ;;
  user <- subscript db "user" ;;
  password <- subscript db "password" ;;
  database <- get db "database" (VStr "postgres") ;;
  sslmode <- get db "sslmode" (VStr "require") ;;
  Returns [ ("host", host); ("port", port); ("user", user); ("password", password);
            ("database", database); ("connect_timeout", VInt 10);
            ("sslmode", sslmode) ].

(** What [test_postgresql_connection] does with an open connection. *)
Definition postgres_session (db : value) (cur : cursor) : C (bool * string) :=
  (* Test basic connectivity *)
  rows <~ execute "postgresql" cur "SELECT version()" [] ;;
  version <~ lift (fetchone_0 rows) ;;
  (* Check for pg_monitor role *)
  user1 <~ lift (subscript db "user") ;;
  user2 <~ lift (subscript db "user") ;;
  rows <~ execute "postgresql" cur monitor_role_query [user1; user2] ;;
  has_monitor_role <~ lift (fetchone_0 rows) ;;
  denied <~
    (if negb (truthy has_monitor_role) then
       (* Check individual permissions *)
       user <~ lift (subscript db "user") ;;
       rows <~ execute "postgresql" cur table_privilege_query [user] ;;
       has_basic_perms <~ lift (fetchone_0 rows) ;;
       ret (negb (truthy has_basic_perms))
     else ret false) ;;
  if denied : bool
  then ret (false, "Missing pg_monitor role or equivalent permissions")
  else
    (* Check pg_stat_statements extension *)
    rows <~ execute "postgresql" cur extension_query [] ;;
    n <~ lift (fetchone_0 rows) ;;
    has_pg_stat_statements <~ lift (positive n) ;;
    (if negb has_pg_stat_statements then
       host <~ lift (subscript db "host") ;;
       name <~ lift (get db "service_name" host) ;;
       append_warning
         (py_str R name +:+ ": "
            +:+ "pg_stat_statements extension not installed (query monitoring limited)")
     else ret tt) ;;;
    ret (true, "Connected successfully (PostgreSQL)").

(** The [try] block of [test_postgresql_connection]. *)
Definition postgres_probe (db : value) : C (bool * string) :=
  args <~ lift (postgres_arguments db) ;;
  in_process (record_call (Connect "postgresql" args)) ;;;
  cur <~ lift (postgres_connect W args) ;;
  postgres_session db cur.

(** [CredentialValidator.test_postgresql_connection] *)
Definition test_postgresql_connection (db : value) : C (bool * string) :=
  try_except (postgres_probe db) (classify postgres_unreachable).

(** [db.get('service_name', db['host'])]: the default is evaluated first. *)
Definition display_name (db : value) : result value :=
  _ <- get db "service_name" VNone ;;
  host <- subscript db "host" ;;
  get db "service_name" host.

(** One turn of either loop of [validate_credentials]; [all_valid] is the
    flag the loop updates. *)
Definition check_database (test_connection : value -> C (bool * string))
    (all_valid : bool) (db : value) : C bool :=
  name <~ lift (display_name db) ;;
  let name := py_str R name in
  in_process (print_end ("  Checking " +:+ name +:+ "...") " ") ;;;
  (* Check for credential errors *)
  password <~ lift (get db "password" (VStr "")) ;;
  unresolved <~ lift (contains "ERROR" password) ;;
  if unresolved then
    in_process (print "✗ Failed to resolve credentials") ;;;
    append_error (name +:+ ": Credential resolution failed") ;;;
    ret false
  else
    (* Test connection *)
    outcome <~ test_connection db ;;
    let '(success, message) := outcome in
    if success then
      in_process (print ("✓ " +:+ message)) ;;;
      ret all_valid
    else
      in_process (print ("✗ " +:+ message)) ;;;
      append_error (name +:+ ": " +:+ message) ;;;
      ret false.

(** The block [if dbs: print(...); for db in dbs: ...] for one engine. *)
Definition check_databases (label : string)
    (test_connection : value -> C (bool * string))
    (dbs : value) (all_valid : bool) : C bool :=
  if truthy dbs then
    n <~ lift (len dbs) ;;
    in_process (print (nl +:+ "Validating " +:+ string_of_Z n +:+ " " +:+ label
                         +:+ " database(s)...")) ;;;
    entries <~ lift (iterate dbs) ;;
    for_fold entries all_valid (check_database test_connection)
  else ret all_valid.

(** [CredentialValidator.load_config] *)
Definition load_config (config_file : string) : C value :=
  text <~ in_process (read_file R W config_file) ;;
  if ends_with config_file ".json" then lift (json_load R text)
  else lift (yaml_safe_load R text).

(** [CredentialValidator.validate_credentials] *)
Definition validate_credentials (config_file : string) : C bool :=
  in_process (print "Loading configuration...") ;;;
  loaded <~ try_except
              (config <~ load_config config_file ;; ret (Some config))
              (fun e =>
                 in_process (print ("ERROR: Failed to load configuration: "
                                      +:+ exn_text e)) ;;;
                 ret None) ;;
  match loaded with
  | None => ret false
  | Some config =>
      let all_valid := true in
      (* Validate New Relic credentials *)
      nr_key <~ lift (get config "newrelic_license_key" (VStr "")) ;;
      all_valid <~
        (if negb (truthy nr_key) || py_eq nr_key (VStr "YOUR_LICENSE_KEY") then
           append_error "New Relic license key not configured" ;;;
           ret false
         else
           in_process (print "✓ New Relic license key configured") ;;;
           ret all_valid) ;;
      (* Validate MySQL databases *)
      mysql_dbs <~ lift (get config "mysql_databases" (VList [])) ;;
      all_valid <~ check_databases "MySQL" test_mysql_connection mysql_dbs all_valid ;;
      (* Validate PostgreSQL databases *)
      postgres_dbs <~ lift (get config "postgresql_databases" (VList [])) ;;
      all_valid <~ check_databases "PostgreSQL" test_postgresql_connection
                     postgres_dbs all_valid ;;
      ret all_valid
  end.

(** [error.split(':')[0]] *)
Definition db_name_of (error : string) : string :=
  match split ":" error with
  | name :: _ => name
  | [] => EmptyString
  end.

(** The lines [generate_fix_script] appends for one error. *)
Definition fixes_for (error : string) : result (list string) :=
  if is_substring "Credential resolution failed" error then
    let db_name := db_name_of error in
    Returns
      [ "# Fix credential resolution for: " +:+ db_name;
        "# Check AWS credentials and ensure secrets/parameters exist";
        "# Example commands:";
        "# aws secretsmanager create-secret --name db-password --secret-string 'YOUR_PASSWORD'";
        "# aws ssm put-parameter --name /db/password --value 'YOUR_PASSWORD' --type SecureString";
        "" ]
  else if is_substring "Missing permissions" error then
    let db_name := db_name_of error in
    match split "Missing permissions: " error with
    | _ :: permissions :: _ =>
        Returns
          [ "# Fix permissions for " +:+ db_name;
            "# MySQL: GRANT " +:+ permissions +:+ " ON *.* TO 'newrelic'@'%';";
            "" ]
    | _ => Raises (Exn IndexError "list index out of range")
    end
  else if is_substring "Missing pg_monitor role" error then
    let db_name := db_name_of error in
    Returns
      [ "# Fix permissions for " +:+ db_name;
        "# PostgreSQL: GRANT pg_monitor TO newrelic;";
        "" ]
  else Returns [].

(** The loop of [generate_fix_script] over the errors, from the lines
    [fixes] already there. *)
Fixpoint fixes_of (errors : list string) (fixes : list string)
  : result (list string) :=
  match errors with
  | [] => Returns fixes
  | error :: errors' =>
      more <- fixes_for error ;;
      fixes_of errors' (fixes ++ more)
  end.

(** The text [generate_fix_script] returns for the recorded [errors]; [now]
    is the text of [datetime.now().isoformat()]. *)
Definition fix_script (now : string) (errors : list string) : result string :=
  fixes <- fixes_of errors
             [ "#!/bin/bash";
               "# Script to fix credential issues";
               "# Generated: " +:+ now;
               "" ] ;;
  Returns (join nl fixes).

(** [CredentialValidator.generate_fix_script] *)
Definition generate_fix_script (now : string) : C string :=
  self <~ get_state ;;
  lift (fix_script now (errors self)).

(** ["=" * 60] *)
Definition rule : string := repeat_string "=" 60.

Definition fix_file : string := "fix-credentials.sh".

(** [CredentialValidator.run]; [fix_errors] is the [--fix] flag, [now] the
    text of the clock and [default_mode] the mode a newly created file
    gets. *)
Definition run (now : string) (default_mode : Z) (config_file : string)
    (fix_errors : bool) : C Z :=
  in_process (print rule) ;;;
  in_process (print "Database Credential Validation") ;;;
  in_process (print rule) ;;;
  valid <~ validate_credentials config_file ;;
  (* Print summary *)
  in_process (print (nl +:+ rule)) ;;;
  in_process (print "VALIDATION SUMMARY") ;;;
  in_process (print rule) ;;;
  self <~ get_state ;;
  (match warnings self with
   | [] => ret tt
   | _ =>
       in_process (print (nl +:+ "Warnings ("
                            +:+ string_of_Z (Z.of_nat (length (warnings self)))
                            +:+ "):")) ;;;
       for_each (warnings self)
         (fun warning => in_process (print ("  ⚠ " +:+ warning)))
   end) ;;;
  (match errors self with
   | [] => in_process (print (nl +:+ "✓ All credentials validated successfully!"))
   | _ =>
       in_process (print (nl +:+ "Errors ("
                            +:+ string_of_Z (Z.of_nat (length (errors self)))
                            +:+ "):")) ;;;
       for_each (errors self) (fun error => in_process (print ("  ✗ " +:+ error))) ;;;
       if fix_errors then
         in_process (print (nl +:+ "Generating fix script...")) ;;;
         fix_script <~ generate_fix_script now ;;
         in_process (open_write W fix_file fix_script default_mode) ;;;
         (* Secure permissions - owner read/write only *)
         in_process (chmod R W fix_file 384) ;;;
         in_process (print ("Fix script written to: " +:+ fix_file))
       else ret tt
   end) ;;;
  ret (if valid : bool then 0 else 1).

End WithWorld.
End Probe.

(** ** Shapes of inputs *)

(** The section [k] of an entry [d]: a dict when present, and the empty
    dict that [d.get(k, {})] supplies when absent. *)
Definition section_of (d : dict) (k : string) : option dict :=
  match dict_lookup d k with
  | None => Some []
  | Some (VDict x) => Some x
  | Some _ => None
  end.

Definition has_section (d : dict) (k : string) : bool :=
  match section_of d k with Some _ => true | None => false end.

(** An environment-variable reference that is used is a string. *)
Definition credentials_ok (c : dict) : bool :=
  if py_eq (dict_get c "password_source" (VStr "plain")) (VStr "env_var")
     && truthy (dict_get c "password_env" VNone)
  then match dict_get c "password_env" VNone with VStr _ => true | _ => false end
  else true.

(** An enhanced entry as the transformer expects it: a dict with a [type],
    whose sections, where present, are dicts. *)
Definition well_formed_entry (db : value) : bool :=
  match db with
  | VDict d =>
      has_section d "connection" && has_section d "monitoring"
      && has_section d "tls" && has_section d "labels"
      && match section_of d "credentials" with
         | Some c => credentials_ok c
         | None => false
         end
      && match dict_lookup d "type" with Some _ => true | None => false end
  | _ => false
  end.

(** [enabled] is present and false-like. *)
Definition disabled (db : value) : bool :=
  match db with
  | VDict d => negb (truthy (dict_get d "enabled" (VBool true)))
  | _ => false
  end.

(** The databases of one engine, as the loops of the scripts see them. *)
Definition databases (config : dict) (key : string) : result (list value) :=
  iterate (dict_get config key (VList [])).

Definition engine_keys : list string := ["mysql_databases"; "postgresql_databases"].

(** How many entries of a list the transformer keeps. *)
Definition enabled_count (dbs : list value) : nat :=
  length (List.filter (fun db => negb (disabled db)) dbs).

(** A configuration without its disabled entries. *)
Definition without_disabled (config : dict) : dict :=
  map (fun kv =>
         match snd kv with
         | VList l =>
             if String.eqb (fst kv) "mysql_databases"
                || String.eqb (fst kv) "postgresql_databases"
             then (fst kv, VList (List.filter (fun db => negb (disabled db)) l))
             else kv
         | _ => kv
         end) config.

(** A list of databases whose enabled entries are well formed. *)
Definition well_formed_databases (v : value) : bool :=
  match v with
  | VList l => forallb (fun db => disabled db || well_formed_entry db) l
  | _ => false
  end.

Definition well_formed_config (config : dict) : bool :=
  well_formed_databases (dict_get config "mysql_databases" (VList []))
  && well_formed_databases (dict_get config "postgresql_databases" (VList [])).

(** The host the transformer selects: [host or endpoint or cluster_endpoint]. *)
Definition first_host (conn : dict) : value :=
  py_or (dict_get conn "host" VNone)
    (py_or (dict_get conn "endpoint" VNone) (dict_get conn "cluster_endpoint" VNone)).

(** What the validator needs of a configuration to run to its end: the
    values it hands to a regular expression are strings. *)
Definition is_str_or_falsy (v : value) : bool :=
  match v with VStr _ => true | _ => negb (truthy v) end.

Definition validator_ready_connection (conn : value) : bool :=
  match conn with
  | VDict c =>
      forallb (fun k => is_str_or_falsy (dict_get c k VNone))
        ["host"; "endpoint"; "cluster_endpoint"]
  | _ => negb (truthy conn)
  end.

Definition validator_ready_credentials (creds : value) : bool :=
  match creds with
  | VDict c => is_str_or_falsy (dict_get c "password_key" (VStr ""))
  | _ => negb (truthy creds)
  end.

Definition validator_ready_monitoring (monitoring : value) : bool :=
  match monitoring with
  | VDict c => is_str_or_falsy (dict_get c "interval" VNone)
  | _ => negb (truthy monitoring)
  end.

Definition validator_ready_entry (db : value) : bool :=
  match db with
  | VDict d =>
      match dict_lookup d "name" with
      | None | Some (VStr _) => true
      | Some _ => false
      end
      && validator_ready_connection (dict_get d "connection" (VDict []))
      && validator_ready_credentials (dict_get d "credentials" (VDict []))
      && validator_ready_monitoring (dict_get d "monitoring" (VDict []))
  | _ => false
  end.

Definition validator_ready_databases (v : value) : bool :=
  match v with
  | VList l => forallb validator_ready_entry l
  | _ => false
  end.

Definition validator_ready (config : value) : bool :=
  match config with
  | VDict c =>
      validator_ready_databases (dict_get c "mysql_databases" (VList []))
      && validator_ready_databases (dict_get c "postgresql_databases" (VList []))
  | _ => false
  end.

(** A validator computation that runs to its end from every state, only
    appends to the two accumulators, and appends only errors that satisfy
    [P]. *)
Definition runs {A} (P : string -> Prop) (m : Validation.V A) : Prop :=
  forall s, exists a es ws,
    m s = (Returns a,
           Validation.Validator (Validation.errors s ++ es)
             (Validation.warnings s ++ ws))
    /\ Forall P es.

(** How often a name occurs among the names of a configuration. *)
Definition occurrences (n : string) (names : list string) : nat :=
  length (List.filter (String.eqb n) names).

(** The names that occur more than once, with their repetitions. *)
Definition repeated (names : list string) : list string :=
  List.filter (fun n => (1 <? occurrences n names)%nat) names.

(** What the duplicate check appends for the names of a configuration. *)
Definition duplicate_report (R : runtime) (names : list string) : list string :=
  match repeated names with
  | [] => []
  | _ => [Validation.duplicate_prefix +:+ join ", " (set_order R (repeated names))]
  end.

(** The name of an entry, when the entry is a dict whose [name] is a
    string. *)
Definition name_of (db : value) : option string :=
  match db with
  | VDict d =>
      match dict_lookup d "name" with
      | Some (VStr n) => Some n
      | _ => None
      end
  | _ => None
  end.

Fixpoint names_in (dbs : list value) : list string :=
  match dbs with
  | [] => []
  | db :: dbs' =>
      match name_of db with
      | Some n => n :: names_in dbs'
      | None => names_in dbs'
      end
  end.

(** The entries of one engine, as a list. *)
Definition entries (config : value) (key : string) : list value :=
  match config with
  | VDict c =>
      match databases c key with
      | Returns l => l
      | Raises _ => []
      end
  | _ => []
  end.

(** The names of the entries of [mysql_databases] followed by those of
    [postgresql_databases]. *)
Definition combined_names (config : value) : list string :=
  names_in (entries config "mysql_databases" ++ entries config "postgresql_databases").




(** The username as the specification words it (4.3, 4.4): resolved like
    the password, from [user_source] and its companion field [user],
    [user_key] or [user_env]. *)
Definition spec_resolve_username (W : world) (credentials : value)
  : M process value :=
  user_source <~ lift (get credentials "user_source" (VStr "plain")) ;;
  if py_eq user_source (VStr "aws_secrets_manager") then
    user_key <~ lift (get credentials "user_key" VNone) ;;
    if truthy user_key then Transform.fetch_secret W user_key
    else ret (VStr "MISSING_USER_KEY")
  else if py_eq user_source (VStr "aws_ssm_parameter") then
    user_key <~ lift (get credentials "user_key" VNone) ;;
    if truthy user_key then Transform.fetch_ssm_parameter W user_key
    else ret (VStr "MISSING_USER_KEY")
  else if py_eq user_source (VStr "env_var") then
    user_env <~ lift (get credentials "user_env" VNone) ;;
    if truthy user_env then lift (environ_get W user_env "ENV_VAR_NOT_SET")
    else ret (VStr "MISSING_USER_ENV")
  else lift (get credentials "user" (VStr "MISSING_USER")).

(** The capitals of a text, byte by byte. *)
Fixpoint capitals (s : string) : string :=
  match s with
  | EmptyString => EmptyString
  | String c s' => String (upper_ascii c) (capitals s')
  end.

(** Two characters that are equal, or the capital and the small form of
    one letter of ASCII. *)
Definition same_letter (a b : ascii) : bool :=
  let x := nat_of_ascii a in
  let y := nat_of_ascii b in
  ((x =? y) || ((65 <=? x) && (x <=? 90) && (y =? x + 32))
   || ((65 <=? y) && (y <=? 90) && (x =? y + 32)))%nat.

(** [hay] begins with [needle], whatever the case of the letters. *)
Fixpoint starts_ignoring_case (needle hay : string) : bool :=
  match needle, hay with
  | EmptyString, _ => true
  | String a needle', String b hay' =>
      same_letter a b && starts_ignoring_case needle' hay'
  | String _ _, EmptyString => false
  end.

(** [needle] occurs in [hay] whatever the case of the letters. *)
Fixpoint occurs_ignoring_case (needle hay : string) : bool :=
  starts_ignoring_case needle hay ||
  match hay with
  | EmptyString => false
  | String _ hay' => occurs_ignoring_case needle hay'
  end.


(** The session after the calls [cs] have left the process. *)
Definition called (cs : list call) (s : Probe.session) : Probe.session :=
  Probe.Session (Probe.errors s) (Probe.warnings s)
    (Process (stdout (Probe.io s)) (stderr (Probe.io s)) (files (Probe.io s))
       (calls (Probe.io s) ++ cs)).

(** The three queries of the MySQL probe, as calls. *)
Definition version_query : call := Execute "mysql" "SELECT VERSION()" [].
Definition grants_query : call := Execute "mysql" "SHOW GRANTS FOR CURRENT_USER()" [].
Definition consumers_query : call :=
  Execute "mysql" "SELECT COUNT(*) FROM performance_schema.setup_consumers" [].

(** The connection attempts among the calls of a process. *)
Definition is_connect (c : call) : bool :=
  match c with Connect _ _ => true | _ => false end.

Definition connects (s : Probe.session) : list call :=
  List.filter is_connect (calls (Probe.io s)).

(** A probe computation that leaves the recorded errors alone and attempts
    no connection, whether it returns or raises. *)
Definition quiet {A} (m : Probe.C A) : Prop :=
  forall s, Probe.errors (snd (m s)) = Probe.errors s
            /\ connects (snd (m s)) = connects s.

(** A flat entry as the probe script needs it to check it: a dict with a
    [host], whose [password], when present, is a string. *)
Definition probe_ready (db : value) : bool :=
  match db with
  | VDict d =>
      match dict_lookup d "host" with Some _ => true | None => false end
      && match dict_lookup d "password" with
         | None | Some (VStr _) => true
         | Some _ => false
         end
  | _ => false
  end.

Definition probe_ready_databases (v : value) : bool :=
  match v with
  | VList l => forallb probe_ready l
  | _ => false
  end.

Definition probe_ready_config (config : dict) : bool :=
  probe_ready_databases (dict_get config "mysql_databases" (VList []))
  && probe_ready_databases (dict_get config "postgresql_databases" (VList [])).

(** The password of a flat entry carries the text [ERROR]. *)
Definition unresolved (db : value) : bool :=
  match db with
  | VDict d =>
      match dict_lookup d "password" with
      | Some (VStr p) => is_substring "ERROR" p
      | _ => false
      end
  | _ => false
  end.

(** The name under which the probe script reports an entry. *)
Definition entry_name (R : runtime) (db : value) : string :=
  match Probe.display_name db with
  | Returns name => py_str R name
  | Raises _ => ""
  end.

(** The connection the probe of an entry attempts: none when the arguments
    of the driver cannot be put together. *)
Definition attempt (engine : string) (arguments : value -> result dict)
    (db : value) : list call :=
  match arguments db with
  | Returns args => [Connect engine args]
  | Raises _ => []
  end.


(** What a probe is to the loops of [validate_credentials]: it returns,
    leaves the recorded errors alone, and attempts the one connection of the
    entry. *)
Definition probes (engine : string) (arguments : value -> result dict)
    (test_connection : value -> Probe.C (bool * string)) : Prop :=
  forall db s, exists ok message s',
    test_connection db s = (Returns (ok, message), s')
    /\ Probe.errors s' = Probe.errors s
    /\ connects s' = connects s ++ attempt engine arguments db.

(** The error the probe script records for an entry it does not probe. *)
Definition resolution_failure (R : runtime) (db : value) : string :=
  entry_name R db +:+ ": Credential resolution failed".

(** A call that fetches a credential. *)
Definition is_fetch (c : call) : bool :=
  match c with GetSecretValue _ | GetParameter _ => true | _ => false end.

(** The fetch that the resolution of a credentials section makes. *)
Definition fetches (credentials : dict) : list call :=
  let source := dict_get credentials "password_source" (VStr "plain") in
  let key := dict_get credentials "password_key" VNone in
  if py_eq source (VStr "aws_secrets_manager")
  then (if truthy key then [GetSecretValue key] else [])
  else if py_eq source (VStr "aws_ssm_parameter")
  then (if truthy key then [GetParameter key] else [])
  else [].

(** The fetch made for an entry of the configuration. *)
Definition entry_fetches (db : value) : list call :=
  match db with
  | VDict d =>
      if disabled db then []
      else match section_of d "credentials" with
           | Some c => fetches c
           | None => []
           end
  | _ => []
  end.

(** A computation of the transformer that, returning or raising, leaves
    standard output and the files alone, and whose calls are fetches, each
    with at most one diagnostic. *)
Definition fetches_only {A} (m : M process A) : Prop :=
  forall s, exists cs ds,
    snd (m s) = Process (stdout s) (stderr s ++ ds) (files s) (calls s ++ cs)
    /\ forallb is_fetch cs = true
    /\ (length ds <= length cs)%nat.

(** A computation that, returning or raising, leaves the files as they
    are. *)
Definition keeps_files {A} (m : M process A) : Prop :=
  forall s, files (snd (m s)) = files s.

Definition keeps_session_files {A} (m : Probe.C A) : Prop :=
  forall s, files (Probe.io (snd (m s))) = files (Probe.io s).

(** The session after the lines [lines] are printed. *)
Definition printed (lines : list string) (s : Probe.session) : Probe.session :=
  Probe.Session (Probe.errors s) (Probe.warnings s)
    (Process (stdout (Probe.io s) ++ map (fun line => line +:+ nl) lines)
       (stderr (Probe.io s)) (files (Probe.io s)) (calls (Probe.io s))).

(** A validator computation that runs to its end from every state and
    appends the error [msg] on the way. *)
Definition reports {A} (msg : string) (m : Validation.V A) : Prop :=
  forall s, exists a es ws,
    m s = (Returns a,
           Validation.Validator (Validation.errors s ++ es)
             (Validation.warnings s ++ ws))
    /\ In msg es.

Definition any_error (msg : string) : Prop := True.

(** Characters of the class [p], and then nothing or one final newline. *)
Fixpoint run_of (p : ascii -> bool) (s : string) : bool :=
  match s with
  | EmptyString => true
  | String c s' =>
      if p c then run_of p s'
      else Ascii.eqb Regex.newline c && String.eqb s' EmptyString
  end.

(** A service name as [^[a-zA-Z0-9][a-zA-Z0-9_-]*$] reads it. *)
Definition well_formed_name (s : string) : bool :=
  match s with
  | EmptyString => false
  | String c s' => Regex.is_alnum c && run_of Validation.name_char s'
  end.

Definition secret_char (c : ascii) : bool :=
  Regex.is_alnum c || Regex.one_of "/_-+=.@" c.
Definition parameter_char (c : ascii) : bool :=
  Regex.is_alnum c || Regex.one_of "/_-." c.

(** A secret name as [^[a-zA-Z0-9/_\-+=.@]+$] reads it. *)
Definition well_formed_secret_name (s : string) : bool :=
  match s with
  | EmptyString => false
  | String c s' => secret_char c && run_of secret_char s'
  end.

(** An SSM parameter name as [^/[a-zA-Z0-9/_\-.]+$] reads it. *)
Definition well_formed_parameter_name (s : string) : bool :=
  match s with
  | String "/" (String c s') => parameter_char c && run_of parameter_char s'
  | _ => false
  end.

(** The character [c] does not occur in [s]. *)
Fixpoint lacks (c : ascii) (s : string) : bool :=
  match s with
  | EmptyString => true
  | String x s' => negb (Ascii.eqb c x) && lacks c s'
  end.

(** A line a shell passes over: empty, or a comment. *)
Definition inert (line : string) : bool :=
  String.eqb line EmptyString || String.prefix "#" line.

(** A port the validator lets pass: none, or an integer from 1 to 65535
    ([True] counts as the integer 1). *)
Definition acceptable_port (port : value) : bool :=
  match port with
  | VNone => true
  | VBool b => b
  | VInt z => (1 <=? z) && (z <=? 65535)
  | _ => false
  end.

(** The error the validator records for a port it does not let pass. *)
Definition port_error (R : runtime) (prefix : string) (port : value) : string :=
  prefix +:+ ".connection: Invalid port '" +:+ py_str R port
    +:+ "' - must be 1-65535".


(** ** Example inputs *)

Module Examples.

Definition runtime0 : runtime :=
  Runtime (fun _ => "0.0") (fun _ => "[]") (fun _ => false) remove_dups
    (fun _ => Returns (VDict [])) (fun _ => Returns (VDict [])) (fun _ => "")
    (fun wide => wide) (fun _ => false) (fun s => s).

(** A world in which nothing can be reached. *)
Definition unreachable : exn := Exn OperationalError "connection refused".
Definition offline : world :=
  World ∅ (fun _ => Raises (Exn OtherError "ResourceNotFoundException"))
    (fun _ => Raises (Exn OtherError "ParameterNotFound"))
    (fun _ => Raises unreachable) (fun _ => Raises unreachable) (fun _ => None).

(** The same world, in a directory the process may not write to. *)
Definition permission_denied : exn :=
  Exn PermissionError "[Errno 13] Permission denied".
Definition read_only : world :=
  World ∅ (fun _ => Raises (Exn OtherError "ResourceNotFoundException"))
    (fun _ => Raises (Exn OtherError "ParameterNotFound"))
    (fun _ => Raises unreachable) (fun _ => Raises unreachable)
    (fun a => match a with OpenRead _ => None | _ => Some permission_denied end).

Definition idle : process := Process [] [] ∅ [].

Definition vault_credentials : dict :=
  [("password_source", VStr "vault"); ("password", VStr "hunter2")].

Definition secret_credentials : dict :=
  [("username", VStr "monitor"); ("password_source", VStr "aws_secrets_manager");
   ("password_key", VStr "prod/db/password")].

(** An entry that names its user the way the validator asks for it. *)
Definition admin_entry : dict :=
  [("name", VStr "db1"); ("type", VStr "mysql");
   ("connection", VDict [("host", VStr "h"); ("port", VInt 3306)]);
   ("credentials", VDict [("user_source", VStr "plain"); ("user", VStr "admin");
                          ("password", VStr "p")])].

Definition rds_entry : dict :=
  [("name", VStr "orders"); ("type", VStr "mysql"); ("provider", VStr "rds");
   ("connection", VDict [("endpoint", VStr "a.b.com"); ("port", VInt 3306)]);
   ("credentials", VDict [("password_source", VStr "plain");
                          ("password", VStr "secret1")])].

Definition retired_entry : dict :=
  [("name", VStr "old"); ("enabled", VBool false); ("type", VStr "postgresql")].

Definition mixed_config : dict :=
  [("mysql_databases", VList [VDict rds_entry]);
   ("postgresql_databases", VList [VDict retired_entry])].

(** The scenario of the specification: one MySQL database with a plain
    user and password. *)
Definition scenario_entry : dict :=
  [("name", VStr "db1"); ("type", VStr "mysql");
   ("connection", VDict [("host", VStr "h"); ("port", VInt 3306)]);
   ("credentials", VDict [("user", VStr "u"); ("password", VStr "p")])].

Definition scenario_config : value :=
  VDict [("mysql_databases", VList [VDict scenario_entry])].

(** Two MySQL entries that share the name [db1]. *)
Definition twin_config : value :=
  VDict [("mysql_databases", VList [VDict scenario_entry; VDict scenario_entry])].

(** Two MySQL entries that share the name [db1]; the interval of the second
    is written as a number. *)
Definition unitless_entry : dict :=
  [("name", VStr "db1"); ("type", VStr "mysql");
   ("connection", VDict [("host", VStr "h"); ("port", VInt 3306)]);
   ("credentials", VDict [("user", VStr "u"); ("password", VStr "p")]);
   ("monitoring", VDict [("interval", VInt 30)])].

Definition unitless_config : value :=
  VDict [("mysql_databases",
          VList [VDict scenario_entry; VDict unitless_entry])].

(** A configuration the validator rejects, and a runtime that reads it. *)
Definition broken_config : value :=
  VDict [("mysql_databases", VList [VDict [("name", VStr "db1")]])].

Definition reading (config : value) : runtime :=
  Runtime (fun _ => "0.0") (fun _ => "[]") (fun _ => false) remove_dups
    (fun _ => Returns config) (fun _ => Returns config) (fun _ => "")
    (fun wide => wide) (fun _ => false) (fun s => s).

Definition inbox : process :=
  Process [] [] {["in.json" := File "{}" 420]} [].

(** A MySQL server that accepts every connection and answers with the
    given grants. *)
Definition granting (grants : list string) : cursor :=
  fun query _ =>
    if String.eqb query "SELECT VERSION()" then Returns [[VStr "8.0.36"]]
    else if String.eqb query "SHOW GRANTS FOR CURRENT_USER()"
    then Returns (map (fun g => [VStr g]) grants)
    else Returns [[VInt 6]].

Definition welcoming (grants : list string) : world :=
  World ∅ (fun _ => Raises (Exn OtherError "ResourceNotFoundException"))
    (fun _ => Raises (Exn OtherError "ParameterNotFound"))
    (fun _ => Returns (granting grants)) (fun _ => Raises unreachable)
    (fun _ => None).

Definition all_grants : list string :=
  ["GRANT SELECT, PROCESS, REPLICATION CLIENT ON *.* TO `newrelic`@`%`"].

(** A flat entry as the transformer writes it, with the given password. *)
Definition probed_entry (password : string) : dict :=
  [("host", VStr "db.internal"); ("port", VInt 3306); ("user", VStr "newrelic");
   ("password", VStr password); ("service_name", VStr "orders")].

Definition probed_arguments (password : string) : dict :=
  [("host", VStr "db.internal"); ("port", VInt 3306); ("user", VStr "newrelic");
   ("password", VStr password); ("database", VStr "information_schema");
   ("connect_timeout", VInt 10); ("ssl", VNone)].

Definition probed_config (password : string) : dict :=
  [("newrelic_license_key", VStr "abc123");
   ("mysql_databases", VList [VDict (probed_entry password)])].

(** A session of the probe script with its configuration file in place. *)
Definition desk : Probe.session :=
  Probe.Session [] [] (Process [] [] {["flat.yml" := File "" 384]} []).

(** The probe script run on [probed_config], against a server that accepts
    the connection and grants everything. *)
Definition sentinel_run (password : string) : result bool * Probe.session :=
  Probe.validate_credentials (reading (VDict (probed_config password)))
    (welcoming all_grants) "flat.yml" desk.

(** A secret store and a parameter store that hold one password each, and
    an environment with one variable. *)
Definition vault : world :=
  World {["DB_PASSWORD" := "from-env"]}
    (fun _ => Returns (VDict [("SecretString", VStr "s3cret")]))
    (fun _ => Returns (VDict [("Parameter", VDict [("Value", VStr "p4ram")])]))
    (fun _ => Raises unreachable) (fun _ => Raises unreachable) (fun _ => None).

Definition parameter_credentials : dict :=
  [("password_source", VStr "aws_ssm_parameter");
   ("password_key", VStr "/prod/db/password")].

Definition environment_credentials : dict :=
  [("password_source", VStr "env_var"); ("password_env", VStr "DB_PASSWORD")].

(** An entry whose password is kept in the secret store, next to a retired
    one. *)
Definition managed_entry : dict :=
  [("name", VStr "billing"); ("type", VStr "mysql");
   ("connection", VDict [("host", VStr "billing.internal")]);
   ("credentials", VDict secret_credentials)].

Definition managed_config : dict :=
  [("mysql_databases", VList [VDict managed_entry]);
   ("postgresql_databases", VList [VDict retired_entry])].


(** A PostgreSQL server: whether the user has a monitoring role, whether it
    may read [pg_stat_database], and how many [pg_stat_statements]
    extensions are installed. *)
Definition postgres_server (role privilege : bool) (extensions : Z) : cursor :=
  fun query _ =>
    if String.eqb query "SELECT version()" then Returns [[VStr "PostgreSQL 15.4"]]
    else if String.eqb query Probe.monitor_role_query then Returns [[VBool role]]
    else if String.eqb query Probe.table_privilege_query
    then Returns [[VBool privilege]]
    else Returns [[VInt extensions]].

Definition postgres_world (role privilege : bool) (extensions : Z) : world :=
  World ∅ (fun _ => Raises (Exn OtherError "ResourceNotFoundException"))
    (fun _ => Raises (Exn OtherError "ParameterNotFound"))
    (fun _ => Raises unreachable)
    (fun _ => Returns (postgres_server role privilege extensions))
    (fun _ => None).

Definition postgres_arguments (password : string) : dict :=
  [("host", VStr "db.internal"); ("port", VInt 3306); ("user", VStr "newrelic");
   ("password", VStr password); ("database", VStr "postgres");
   ("connect_timeout", VInt 10); ("sslmode", VStr "require")].

(** A session of the probe script in a directory without files. *)
Definition bare : Probe.session := Probe.Session [] [] idle.

(** A configuration with a disabled entry that has no connection. *)
Definition retired_config : dict :=
  [("postgresql_databases", VList [VDict retired_entry])].


(** A PostgreSQL entry with labels. *)
Definition reporting_entry : dict :=
  [("name", VStr "reporting"); ("type", VStr "postgresql");
   ("connection", VDict [("endpoint", VStr "reports.internal");
                         ("database", VStr "reports")]);
   ("credentials", VDict [("username", VStr "monitor");
                          ("password", VStr "s3cret")]);
   ("labels", VDict [("environment", VStr "staging"); ("team", VStr "data")])].

(** An entry whose password is to come from the parameter store, with no
    key to fetch it by. *)
Definition keyless_entry : dict :=
  [("name", VStr "ledger"); ("type", VStr "mysql");
   ("connection", VDict [("host", VStr "ledger.internal")]);
   ("credentials", VDict [("password_source", VStr "aws_ssm_parameter")])].

(** A connection whose port is written as a string. *)
Definition quoted_port : dict :=
  [("host", VStr "db.internal"); ("port", VStr "3306")].

End Examples.

(** * Properties *)

(** ** Values *)

Lemma py_eq_str (v : value) (s : string) : py_eq v (VStr s) = true <-> v = VStr s.
Proof.
  destruct v; simpl; try (split; [discriminate | discriminate]).
  rewrite String.eqb_eq. split; congruence.
Qed.

Lemma py_eq_str_ne (v : value) (s : string) : v <> VStr s -> py_eq v (VStr s) = false.
Proof.
  intros H. destruct (py_eq v (VStr s)) eqn:E; [|reflexivity].
  apply py_eq_str in E. contradiction.
Qed.

Lemma section_of_get (d : dict) (k : string) (x : dict) :
  section_of d k = Some x -> dict_get d k (VDict []) = VDict x.
Proof.
  unfold section_of, dict_get. destruct (dict_lookup d k) as [[]|]; congruence.
Qed.

Lemma has_section_inv (d : dict) (k : string) :
  has_section d k = true -> exists x, section_of d k = Some x.
Proof. unfold has_section. destruct (section_of d k); [eauto | discriminate]. Qed.

Lemma dict_set_truthy (d : dict) (k : string) (v : value) :
  truthy (VDict (dict_set d k v)) = true.
Proof.
  destruct d as [|[k' v'] d]; simpl; [reflexivity|].
  destruct (String.eqb k' k); reflexivity.
Qed.

Lemma for_fold_cons {S A B} (x : A) (l : list A) (acc : B)
    (body : B -> A -> M S B) (s : S) :
  for_fold (x :: l) acc body s
  = match body acc x s with
    | (Returns acc', s') => for_fold l acc' body s'
    | (Raises e, s') => (Raises e, s')
    end.
Proof. reflexivity. Qed.

(** ** The transformer *)

Section TransformFacts.
Import Transform.
Variable W : world.

(** The flat entry of a well-formed entry, field by field. *)
Lemma flat_entry_returns (d : dict) (u p : value) (conn mon tls labels : dict)
    (ty : value) :
  section_of d "connection" = Some conn ->
  section_of d "monitoring" = Some mon ->
  section_of d "tls" = Some tls ->
  section_of d "labels" = Some labels ->
  dict_lookup d "type" = Some ty ->
  exists flat,
    flat_entry (VDict d) (VDict [("user", u); ("password", p)]) = Returns (VDict flat)
    /\ dict_lookup flat "host" = Some (first_host conn)
    /\ dict_lookup flat "port"
       = Some (dict_get conn "port"
                 (if py_eq ty (VStr "mysql") then VInt 3306 else VInt 5432))
    /\ dict_lookup flat "user" = Some u
    /\ dict_lookup flat "password" = Some p.
Proof.
  intros Hc Hm Ht Hl Hty.
  unfold flat_entry, section_get, subscript, get, first_host, py_or.
  rewrite (section_of_get _ _ _ Hc), (section_of_get _ _ _ Hm),
    (section_of_get _ _ _ Ht), (section_of_get _ _ _ Hl), Hty.
  cbn [rbind items].
  destruct (truthy (dict_get conn "host" VNone));
    [| cbn [rbind]; destruct (truthy (dict_get conn "endpoint" VNone)) ];
    cbn [rbind].
  all: destruct (py_eq ty (VStr "postgresql")); cbn [rbind].
  all: destruct (truthy (dict_get tls "enabled" VNone)) eqn:Hen; cbn [rbind].
  all: try (destruct (truthy (dict_get tls "ca_bundle_file" VNone)) eqn:Hca;
            cbn [rbind]).
  all: try (unfold section_of in Ht; unfold dict_get in Hca;
            destruct (dict_lookup d "tls") as [x|]; [destruct x|];
            try discriminate Ht;
            [ injection Ht as ->; simpl;
              destruct (dict_lookup tls "ca_bundle_file"); [| discriminate Hca]
            | injection Ht as <-; discriminate Hca ]).
  all: simpl; eexists; split; [reflexivity|]; repeat split; reflexivity.
Qed.

(** Whatever [flat_entry] returns is a non-empty dict. *)
Lemma flat_entry_truthy (db creds v : value) :
  flat_entry db creds = Returns v -> exists flat, v = VDict flat /\ truthy v = true.
Proof.
  unfold flat_entry. intros H.
  repeat match type of H with
         | rbind ?r _ = Returns _ =>
             destruct r; cbn beta iota delta [rbind] in H; [|discriminate H]
         end.
  injection H as <-. eexists; split; [reflexivity | apply dict_set_truthy].
Qed.

(** Neither fetch lets an exception out. *)
Lemma fetch_secret_returns (key : value) (s : process) :
  exists v s', fetch_secret W key s = (Returns v, s').
Proof.
  unfold fetch_secret, try_except, bind, lift, record_call, modify, eprint, ret.
  destruct (get_secret_value W key) as [response|e]; [|eauto].
  destruct (subscript response "SecretString"); eauto.
Qed.

Lemma fetch_ssm_parameter_returns (key : value) (s : process) :
  exists v s', fetch_ssm_parameter W key s = (Returns v, s').
Proof.
  unfold fetch_ssm_parameter, try_except, bind, lift, record_call, modify, eprint, ret.
  destruct (get_parameter W key) as [response|e]; [|eauto].
  destruct (subscript response "Parameter") as [parameter|]; [|eauto].
  destruct (subscript parameter "Value"); eauto.
Qed.

Lemma resolve_credentials_returns (c : dict) (s : process) :
  credentials_ok c = true ->
  exists password s',
    resolve_credentials W (VDict c) s
    = (Returns (VDict [("user", dict_get c "username" (VStr "newrelic"));
                       ("password", password)]), s').
Proof.
  unfold credentials_ok, resolve_credentials, bind, lift, ret, get.
  intros Hok.
  destruct (py_eq _ (VStr "aws_secrets_manager")).
  { destruct (truthy (dict_get c "password_key" VNone)); [|eauto].
    destruct (fetch_secret_returns (dict_get c "password_key" VNone) s)
      as (v & s' & ->).
    eauto. }
  destruct (py_eq _ (VStr "aws_ssm_parameter")).
  { destruct (truthy (dict_get c "password_key" VNone)); [|eauto].
    destruct (fetch_ssm_parameter_returns (dict_get c "password_key" VNone) s)
      as (v & s' & ->).
    eauto. }
  destruct (py_eq _ (VStr "env_var")); [|eauto].
  destruct (truthy (dict_get c "password_env" VNone)); [|eauto]. simpl in Hok.
  destruct (dict_get c "password_env" VNone); try discriminate Hok.
  simpl. eauto.
Qed.

Lemma transform_database_disabled (db : value) (s : process) :
  disabled db = true -> transform_database W db s = (Returns VNone, s).
Proof.
  destruct db; try discriminate. simpl. intros H.
  unfold transform_database, bind, lift, get, ret. rewrite H. reflexivity.
Qed.

(** An enabled, well-formed entry is transformed; its host, port, user and
    password are the ones of [flat_entry]. *)
Lemma transform_database_enabled (d : dict) (s : process) :
  well_formed_entry (VDict d) = true ->
  disabled (VDict d) = false ->
  exists conn creds ty flat password s',
    section_of d "connection" = Some conn
    /\ section_of d "credentials" = Some creds
    /\ dict_lookup d "type" = Some ty
    /\ resolve_credentials W (VDict creds) s
       = (Returns (VDict [("user", dict_get creds "username" (VStr "newrelic"));
                          ("password", password)]), s')
    /\ transform_database W (VDict d) s = (Returns (VDict flat), s')
    /\ dict_lookup flat "host" = Some (first_host conn)
    /\ dict_lookup flat "port"
       = Some (dict_get conn "port"
                 (if py_eq ty (VStr "mysql") then VInt 3306 else VInt 5432))
    /\ dict_lookup flat "user" = Some (dict_get creds "username" (VStr "newrelic"))
    /\ dict_lookup flat "password" = Some password.
Proof.
  intros Hwf Hen. simpl in Hwf, Hen.
  repeat (apply andb_prop in Hwf as [Hwf ?]).
  apply has_section_inv in Hwf as [conn Hconn].
  match goal with H : has_section d "monitoring" = true |- _ =>
    apply has_section_inv in H as [mon Hmon] end.
  match goal with H : has_section d "tls" = true |- _ =>
    apply has_section_inv in H as [tls Htls] end.
  match goal with H : has_section d "labels" = true |- _ =>
    apply has_section_inv in H as [labels Hlabels] end.
  destruct (section_of d "credentials") as [creds|] eqn:Hcreds; [|discriminate].
  destruct (dict_lookup d "type") as [ty|] eqn:Hty; [|discriminate].
  destruct (resolve_credentials_returns creds s) as (password & s' & Hres);
    [assumption|].
  destruct (flat_entry_returns d (dict_get creds "username" (VStr "newrelic"))
              password conn mon tls labels ty Hconn Hmon Htls Hlabels Hty)
    as (flat & Hflat & Hhost & Hport & Huser & Hpw).
  exists conn, creds, ty, flat, password, s'.
  repeat split; try assumption.
  unfold transform_database, bind, lift, ret, get.
  apply negb_false_iff in Hen. rewrite Hen. cbn [negb].
  rewrite (section_of_get _ _ _ Hcreds), Hres, Hflat. reflexivity.
Qed.

Lemma transform_database_truthy (db : value) (s : process) (v : value) (s' : process) :
  transform_database W db s = (Returns v, s') -> truthy v = negb (disabled db).
Proof.
  unfold transform_database, bind, lift, ret.
  destruct db; simpl; try discriminate.
  destruct (truthy (dict_get d "enabled" (VBool true))); simpl.
  { destruct (resolve_credentials W _ s) as [[creds|e] s1]; [|discriminate].
    destruct (flat_entry (VDict d) creds) eqn:E; [|discriminate].
    intros [= <- <-]. apply flat_entry_truthy in E as (flat & _ & ->). reflexivity. }
  intros [= <- <-]. reflexivity.
Qed.

Lemma keep_transformed_eq (acc : list value) (db : value) (s : process) :
  keep_transformed W acc db s
  = match transform_database W db s with
    | (Returns v, s') => (Returns (if truthy v then acc ++ [v] else acc), s')
    | (Raises e, s') => (Raises e, s')
    end.
Proof.
  unfold keep_transformed, bind, ret.
  destruct (transform_database W db s) as [[v|e] s']; [|reflexivity].
  destruct (truthy v); reflexivity.
Qed.

Lemma keep_transformed_filter (dbs acc : list value) (s : process) :
  for_fold dbs acc (keep_transformed W) s
  = for_fold (List.filter (fun db => negb (disabled db)) dbs) acc
      (keep_transformed W) s.
Proof.
  revert acc s.
  induction dbs as [|db dbs IH]; intros acc s; [reflexivity|].
  cbn [List.filter]. destruct (disabled db) eqn:D; cbn [negb];
    rewrite !for_fold_cons, !keep_transformed_eq.
  - rewrite (transform_database_disabled _ _ D). cbn [truthy]. apply IH.
  - destruct (transform_database W db s) as [[v|e] s1]; [|reflexivity]. apply IH.
Qed.

Lemma keep_transformed_length (dbs acc : list value) (s : process)
    (out : list value) (s' : process) :
  for_fold dbs acc (keep_transformed W) s = (Returns out, s') ->
  length out
  = (length acc + length (List.filter (fun db => negb (disabled db)) dbs))%nat.
Proof.
  revert acc s.
  induction dbs as [|db dbs IH]; intros acc s.
  - cbn. intros [= <- <-]. lia.
  - rewrite for_fold_cons, keep_transformed_eq. cbn [List.filter].
    destruct (transform_database W db s) as [[v|e] s1] eqn:E; [|discriminate].
    apply transform_database_truthy in E. rewrite E.
    destruct (disabled db); cbn [negb]; intros H; apply IH in H.
    + exact H.
    + rewrite H, length_app. cbn. lia.
Qed.

Lemma keep_transformed_returns (dbs acc : list value) (s : process) :
  forallb (fun db => disabled db || well_formed_entry db) dbs = true ->
  exists out s', for_fold dbs acc (keep_transformed W) s = (Returns out, s').
Proof.
  revert acc s.
  induction dbs as [|db dbs IH]; intros acc s Hwf.
  - cbn. unfold ret. eauto.
  - cbn [forallb] in Hwf. apply andb_prop in Hwf as [Hdb Hwf].
    rewrite for_fold_cons, keep_transformed_eq.
    destruct (disabled db) eqn:D.
    + rewrite (transform_database_disabled _ _ D). apply IH, Hwf.
    + cbn [orb] in Hdb. destruct db; try discriminate Hdb.
      destruct (transform_database_enabled d s Hdb D)
        as (? & ? & ? & flat & ? & s' & _ & _ & _ & _ & -> & _).
      apply IH, Hwf.
Qed.

End TransformFacts.

Section TransformConfigFacts.
Import Transform.
Variable W : world.

Lemma without_disabled_lookup (config : dict) (key : string) :
  In key engine_keys ->
  dict_lookup (without_disabled config) key
  = match dict_lookup config key with
    | Some (VList l) => Some (VList (List.filter (fun db => negb (disabled db)) l))
    | other => other
    end.
Proof.
  intros Hkey. induction config as [|[k v] config IH]; [reflexivity|].
  cbn [without_disabled map fst snd dict_lookup].
  assert (Hk : String.eqb k key = true ->
               String.eqb k "mysql_databases" || String.eqb k "postgresql_databases"
               = true).
  { intros E. apply String.eqb_eq in E. subst k.
    destruct Hkey as [<-|[<-|[]]]; reflexivity. }
  destruct v; cbn [fst snd dict_lookup];
    try (destruct (String.eqb k key); [reflexivity | exact IH]).
  destruct (String.eqb k key) eqn:E.
  - rewrite (Hk eq_refl). cbn [fst snd dict_lookup]. rewrite E. reflexivity.
  - destruct (String.eqb k "mysql_databases" || String.eqb k "postgresql_databases");
      cbn [fst snd dict_lookup]; rewrite E; exact IH.
Qed.

(** Over a configuration without its disabled entries the loop of an engine
    runs exactly as over the configuration itself. *)
Lemma databases_without_disabled (config : dict) (key : string) :
  In key engine_keys ->
  match databases config key with
  | Returns dbs =>
      exists dbs', databases (without_disabled config) key = Returns dbs'
                   /\ forall s, transform_all W dbs s = transform_all W dbs' s
  | Raises e => databases (without_disabled config) key = Raises e
  end.
Proof.
  intros Hkey. unfold databases, dict_get.
  rewrite (without_disabled_lookup _ _ Hkey).
  destruct (dict_lookup config key) as [v|]; [|cbn; eauto].
  destruct v; cbn [iterate]; eauto.
  eexists; split; [reflexivity|]. intros s. apply keep_transformed_filter.
Qed.

Lemma transform_config_eq (config : dict) (s : process) :
  transform_config W (VDict config) s
  = match databases config "mysql_databases" with
    | Raises e => (Raises e, s)
    | Returns dbs1 =>
        match transform_all W dbs1 s with
        | (Raises e, s1) => (Raises e, s1)
        | (Returns mysql_dbs, s1) =>
            match databases config "postgresql_databases" with
            | Raises e => (Raises e, s1)
            | Returns dbs2 =>
                match transform_all W dbs2 s1 with
                | (Raises e, s2) => (Raises e, s2)
                | (Returns postgres_dbs, s2) =>
                    let base : dict :=
                      [ ("newrelic_license_key",
                         environ_default W "NEWRELIC_LICENSE_KEY" "YOUR_LICENSE_KEY");
                        ("newrelic_account_id",
                         environ_default W "NEWRELIC_ACCOUNT_ID" "YOUR_ACCOUNT_ID") ] in
                    let with_mysql :=
                      if truthy (VList mysql_dbs)
                      then dict_set base "mysql_databases" (VList mysql_dbs)
                      else base in
                    (Returns
                       (VDict (if truthy (VList postgres_dbs)
                               then dict_set with_mysql "postgresql_databases"
                                      (VList postgres_dbs)
                               else with_mysql)), s2)
                end
            end
        end
    end.
Proof.
  unfold transform_config, databases, bind, lift, ret, get. cbn [rbind].
  destruct (iterate (dict_get config "mysql_databases" (VList []))); [|reflexivity].
  destruct (transform_all W a s) as [[mysql_dbs|e] s1]; [|reflexivity].
  destruct (iterate (dict_get config "postgresql_databases" (VList [])));
    [|reflexivity].
  destruct (transform_all W a0 s1) as [[postgres_dbs|e] s2]; reflexivity.
Qed.

End TransformConfigFacts.

(** ** Credential resolution *)

(** C1: when [password_source] is [aws_secrets_manager], the key is non-empty
    and the fetch from the secret store raises an exception [e], credential
    resolution returns (it raises nothing) with the password
    [ERROR_FETCHING_SECRET]; the one fetch is recorded, nothing is printed on
    standard output, and the only diagnostic is the fixed line
    "Error fetching secret: Failed to retrieve credentials", the same for
    every key and every exception: a text occurs in a diagnostic only if it
    occurs in that fixed wording. *)
Theorem secret_fetch_failure_yields_sentinel (W : world) (creds : dict)
    (key : value) (e : exn) (s : process) :
  dict_lookup creds "password_source" = Some (VStr "aws_secrets_manager") ->
  dict_lookup creds "password_key" = Some key ->
  truthy key = true ->
  get_secret_value W key = Raises e ->
  let diagnostic := "Error fetching secret: Failed to retrieve credentials" +:+ nl in
  Transform.resolve_credentials W (VDict creds) s
  = (Returns (VDict [("user", dict_get creds "username" (VStr "newrelic"));
                     ("password", VStr "ERROR_FETCHING_SECRET")]),
     Process (stdout s) (stderr s ++ [diagnostic]) (files s)
       (calls s ++ [GetSecretValue key]))
  /\ forall text printed s',
       Transform.resolve_credentials W (VDict creds) s = (printed, s') ->
       is_substring text diagnostic = false ->
       stdout s' = stdout s
       /\ exists emitted, stderr s' = stderr s ++ emitted
                          /\ Forall (fun line => is_substring text line = false) emitted.
Proof.
  intros Hsrc Hkey Htrue Hfail diagnostic.
  assert (Hrun : Transform.resolve_credentials W (VDict creds) s
                 = (Returns (VDict [("user", dict_get creds "username" (VStr "newrelic"));
                                    ("password", VStr "ERROR_FETCHING_SECRET")]),
                    Process (stdout s) (stderr s ++ [diagnostic]) (files s)
                      (calls s ++ [GetSecretValue key]))).
  { unfold Transform.resolve_credentials, bind, lift, ret, get, dict_get.
    rewrite Hsrc, Hkey. simpl. rewrite Htrue.
    unfold Transform.fetch_secret, try_except, bind, lift, record_call, modify. simpl.
    rewrite Hfail. reflexivity. }
  split; [exact Hrun|].
  intros text printed s' Hrun' Hfree. rewrite Hrun in Hrun'.
  injection Hrun' as _ <-. cbn [stdout stderr]. split; [reflexivity|].
  exists [diagnostic]. split; [reflexivity|]. constructor; [exact Hfree | constructor].
Qed.

Lemma secret_fetch_failure_yields_sentinel_witness :
  Transform.resolve_credentials Examples.offline (VDict Examples.secret_credentials)
    Examples.idle
  = (Returns (VDict [("user", VStr "monitor");
                     ("password", VStr "ERROR_FETCHING_SECRET")]),
     Process []
       ["Error fetching secret: Failed to retrieve credentials" +:+ nl] ∅
       [GetSecretValue (VStr "prod/db/password")]).
Proof.
  apply (secret_fetch_failure_yields_sentinel Examples.offline
           Examples.secret_credentials (VStr "prod/db/password")
           (Exn OtherError "ResourceNotFoundException") Examples.idle);
    reflexivity.
Defined.

(** C10: when [password_source] is absent, or is any value other than
    [aws_secrets_manager], [aws_ssm_parameter] and [env_var] (an invalid
    source name included), credential resolution takes the plain-text
    branch: the password is the [password] field when present and
    [MISSING_PASSWORD] when absent, and the process is left as it was, so no
    fetch is made. *)
Theorem unknown_password_source_is_plain (W : world) (creds : dict) (s : process) :
  let source := dict_get creds "password_source" (VStr "plain") in
  source <> VStr "aws_secrets_manager" ->
  source <> VStr "aws_ssm_parameter" ->
  source <> VStr "env_var" ->
  Transform.resolve_credentials W (VDict creds) s
  = (Returns (VDict [("user", dict_get creds "username" (VStr "newrelic"));
                     ("password",
                      match dict_lookup creds "password" with
                      | Some p => p
                      | None => VStr "MISSING_PASSWORD"
                      end)]), s).
Proof.
  intros source H1 H2 H3.
  unfold Transform.resolve_credentials, bind, lift, ret, get.
  fold source.
  rewrite (py_eq_str_ne _ _ H1), (py_eq_str_ne _ _ H2), (py_eq_str_ne _ _ H3).
  reflexivity.
Qed.

Lemma unknown_password_source_is_plain_witness :
  Transform.resolve_credentials Examples.offline (VDict Examples.vault_credentials)
    Examples.idle
  = (Returns (VDict [("user", VStr "newrelic"); ("password", VStr "hunter2")]),
     Examples.idle).
Proof.
  apply (unknown_password_source_is_plain Examples.offline
           Examples.vault_credentials Examples.idle);
    cbn; discriminate.
Defined.

(** ** Transformation of one entry *)

(** C3, as the claim states it, fails: for an entry whose credentials say
    [user_source = plain] and [user = admin], the resolver the specification
    describes gives [admin], while the flat entry's [user] is [newrelic]. *)
Lemma username_is_not_resolved :
  fst (spec_resolve_username Examples.offline
         (dict_get Examples.admin_entry "credentials" VNone) Examples.idle)
  = Returns (VStr "admin")
  /\ (flat <- fst (Transform.transform_database Examples.offline
                     (VDict Examples.admin_entry) Examples.idle) ;;
      subscript flat "user")
     = Returns (VStr "newrelic").
Proof. split; reflexivity. Qed.

(** C3, amended: for every enabled, well-formed entry the transformer
    returns a flat entry whose [user] is the literal [username] field of the
    credentials, and [newrelic] when that field is absent; [user_source],
    [user], [user_key] and [user_env] are not consulted. *)
Theorem username_is_literal_field (W : world) (d : dict) (s : process) :
  well_formed_entry (VDict d) = true ->
  disabled (VDict d) = false ->
  exists creds flat s',
    section_of d "credentials" = Some creds
    /\ Transform.transform_database W (VDict d) s = (Returns (VDict flat), s')
    /\ dict_lookup flat "user"
       = Some (match dict_lookup creds "username" with
               | Some u => u
               | None => VStr "newrelic"
               end).
Proof.
  intros Hwf Hen.
  destruct (transform_database_enabled W d s Hwf Hen)
    as (conn & creds & ty & flat & password & s' & _ & Hcreds & _ & _ & Hrun
        & _ & _ & Huser & _).
  exists creds, flat, s'. repeat split; assumption.
Qed.

Lemma username_is_literal_field_witness :
  exists creds flat s',
    section_of Examples.admin_entry "credentials" = Some creds
    /\ Transform.transform_database Examples.offline (VDict Examples.admin_entry)
         Examples.idle = (Returns (VDict flat), s')
    /\ dict_lookup flat "user"
       = Some (match dict_lookup creds "username" with
               | Some u => u
               | None => VStr "newrelic"
               end).
Proof.
  apply (username_is_literal_field Examples.offline Examples.admin_entry
           Examples.idle); reflexivity.
Defined.

(** C7: the endpoint, the port and the plain password of an entry pass
    through the transformation unchanged, and the endpoint is the host when
    there is no host.  For every well-formed, enabled entry, whatever its
    provider, whose connection has no [host] (or an empty one), a non-empty
    [endpoint] and a [port], and whose credentials have the password source
    [plain] (given or by default) and a [password], the flat entry has that
    endpoint as [host], that port as [port] and that password as
    [password]; the process is left as it was.  The entry of the claim, with
    provider [rds], endpoint [a.b.com], port 3306 and password [secret1], is
    the instance of the witness. *)
Theorem rds_endpoint_round_trip (W : world) (d conn creds : dict)
    (endpoint port password : value) (s : process) :
  well_formed_entry (VDict d) = true ->
  disabled (VDict d) = false ->
  dict_lookup d "connection" = Some (VDict conn) ->
  truthy (dict_get conn "host" VNone) = false ->
  dict_lookup conn "endpoint" = Some endpoint ->
  truthy endpoint = true ->
  dict_lookup conn "port" = Some port ->
  dict_lookup d "credentials" = Some (VDict creds) ->
  dict_get creds "password_source" (VStr "plain") = VStr "plain" ->
  dict_lookup creds "password" = Some password ->
  exists flat,
    Transform.transform_database W (VDict d) s = (Returns (VDict flat), s)
    /\ dict_lookup flat "host" = Some endpoint
    /\ dict_lookup flat "port" = Some port
    /\ dict_lookup flat "password" = Some password.
Proof.
  intros Hwf Hen Hconn Hhost Hend Htruthy Hport Hcreds Hsrc Hpw.
  destruct (transform_database_enabled W d s Hwf Hen)
    as (conn' & creds' & ty & flat & password' & s' & Hc & Hcr & _ & Hres & Hrun
        & Hh & Hp & _ & Hpassword).
  unfold section_of in Hc, Hcr. rewrite Hconn in Hc. rewrite Hcreds in Hcr.
  injection Hc as <-. injection Hcr as <-.
  unfold Transform.resolve_credentials, bind, lift, ret, get in Hres.
  rewrite Hsrc in Hres. unfold dict_get in Hres. rewrite Hpw in Hres.
  cbn in Hres. injection Hres as <- <-.
  exists flat. split; [exact Hrun|].
  unfold first_host, py_or in Hh. rewrite Hhost in Hh.
  unfold dict_get in Hh. rewrite Hend, Htruthy in Hh.
  unfold dict_get in Hp. rewrite Hport in Hp.
  repeat split; assumption.
Qed.

Lemma rds_endpoint_round_trip_witness :
  exists flat,
    Transform.transform_database Examples.offline (VDict Examples.rds_entry)
      Examples.idle = (Returns (VDict flat), Examples.idle)
    /\ dict_lookup flat "host" = Some (VStr "a.b.com")
    /\ dict_lookup flat "port" = Some (VInt 3306)
    /\ dict_lookup flat "password" = Some (VStr "secret1").
Proof.
  apply (rds_endpoint_round_trip Examples.offline Examples.rds_entry
           [("endpoint", VStr "a.b.com"); ("port", VInt 3306)]
           [("password_source", VStr "plain"); ("password", VStr "secret1")]
           (VStr "a.b.com") (VInt 3306) (VStr "secret1")
           Examples.idle); reflexivity.
Defined.

(** ** Transformation of a configuration *)

(** C6: a disabled entry is absent from the transform output: the
    transformation of a configuration is the transformation of the
    configuration without its disabled entries (same output, same effects);
    in the output an engine's key is bound to a non-empty list with one flat
    entry per enabled entry of that engine, and is absent, not bound to an
    empty list, when no entry of the engine survives; and the transformation
    of a well-formed configuration returns. *)
Theorem disabled_entries_and_empty_buckets (W : world) (config : dict) (s : process) :
  Transform.transform_config W (VDict config) s
  = Transform.transform_config W (VDict (without_disabled config)) s
  /\ (forall out s',
        Transform.transform_config W (VDict config) s = (Returns out, s') ->
        exists o, out = VDict o
          /\ forall key, In key engine_keys ->
               exists dbs, databases config key = Returns dbs
                 /\ match dict_lookup o key with
                    | None => enabled_count dbs = 0%nat
                    | Some (VList survivors) =>
                        survivors <> []
                        /\ length survivors = enabled_count dbs
                    | Some _ => False
                    end)
  /\ (well_formed_config config = true ->
      exists out s',
        Transform.transform_config W (VDict config) s = (Returns out, s')).
Proof.
  split; [|split].
  - rewrite !transform_config_eq.
    pose proof (databases_without_disabled W config "mysql_databases") as H1.
    pose proof (databases_without_disabled W config "postgresql_databases") as H2.
    destruct (databases config "mysql_databases") as [dbs1|e].
    2:{ rewrite H1; [reflexivity | left; reflexivity]. }
    destruct H1 as (dbs1' & -> & Hrun1); [left; reflexivity|].
    rewrite <- Hrun1.
    destruct (Transform.transform_all W dbs1 s) as [[m|e] s1]; [|reflexivity].
    destruct (databases config "postgresql_databases") as [dbs2|e].
    2:{ rewrite H2; [reflexivity | right; left; reflexivity]. }
    destruct H2 as (dbs2' & -> & Hrun2); [right; left; reflexivity|].
    rewrite <- Hrun2. reflexivity.
  - intros out s'. rewrite transform_config_eq.
    destruct (databases config "mysql_databases") as [dbs1|e] eqn:D1;
      [|discriminate].
    destruct (Transform.transform_all W dbs1 s) as [[m|e] s1] eqn:E1; [|discriminate].
    destruct (databases config "postgresql_databases") as [dbs2|e] eqn:D2;
      [|discriminate].
    destruct (Transform.transform_all W dbs2 s1) as [[pg|e] s2] eqn:E2; [|discriminate].
    apply keep_transformed_length in E1, E2. cbn [length Nat.add] in E1, E2.
    intros [= <- <-]. eexists; split; [reflexivity|].
    intros key [<-|[<-|[]]]; eexists; (split; [eassumption|]);
      unfold enabled_count; destruct m, pg; cbn in *;
      try (split; [discriminate|]); congruence.
  - unfold well_formed_config, well_formed_databases. intros Hwf.
    apply andb_prop in Hwf as [Hm Hp].
    rewrite transform_config_eq. unfold databases.
    destruct (dict_get config "mysql_databases" (VList [])); try discriminate Hm.
    destruct (dict_get config "postgresql_databases" (VList []));
      try discriminate Hp.
    cbn [iterate].
    destruct (keep_transformed_returns W l [] s Hm) as (m & s1 & E1).
    unfold Transform.transform_all. rewrite E1.
    destruct (keep_transformed_returns W l0 [] s1 Hp) as (pg & s2 & E2).
    rewrite E2. eauto.
Qed.

Lemma disabled_entries_and_empty_buckets_witness :
  exists out s',
    Transform.transform_config Examples.offline (VDict Examples.mixed_config)
      Examples.idle = (Returns out, s').
Proof.
  apply (disabled_entries_and_empty_buckets Examples.offline Examples.mixed_config
           Examples.idle).
  reflexivity.
Defined.

(** ** The validation gate of the pipeline *)

Lemma print_each (prefix : string) (lines : list string) (s : process) :
  for_each lines (fun line => print (prefix +:+ line)) s
  = (Returns tt,
     Process (stdout s ++ map (fun line => (prefix +:+ line) +:+ nl) lines)
       (stderr s) (files s) (calls s)).
Proof.
  revert s. induction lines as [|line lines IH]; intros s.
  - cbn. unfold ret. rewrite app_nil_r. destruct s; reflexivity.
  - cbn [for_each map]. unfold bind, print at 1, modify. rewrite IH.
    cbn [stdout stderr files calls]. rewrite <- app_assoc. reflexivity.
Qed.

(** The verdict of the validator is [true] exactly when it found no error. *)
Lemma validate_verdict (R : runtime) (config : value) (valid : bool)
    (errors warnings : list string) :
  Validation.validate_yaml_config R config = Returns (valid, errors, warnings) ->
  valid = match errors with [] => true | _ => false end.
Proof.
  unfold Validation.validate_yaml_config, Validation.validate_config.
  unfold bind at 1. unfold modify at 1.
  unfold bind at 1. destruct (lift _ _) as [[?|?] ?]; [|discriminate].
  unfold bind at 1. destruct (lift _ _) as [[?|?] ?]; [|discriminate].
  unfold bind at 1. destruct (Validation.validate_all _ _ _ _ _) as [[?|?] ?];
    [|discriminate].
  unfold bind at 1. destruct (lift _ _) as [[?|?] ?]; [|discriminate].
  unfold bind at 1. destruct (lift _ _) as [[?|?] ?]; [|discriminate].
  unfold bind at 1. destruct (Validation.validate_all _ _ _ _ _) as [[?|?] ?];
    [|discriminate].
  unfold bind at 1. destruct (Validation._check_duplicate_names _ _ _) as [[?|?] ?];
    [|discriminate].
  unfold bind, get_state, ret. cbn. intros [= <- <- <-]. reflexivity.
Qed.

(** C8: when the validator judges the loaded configuration invalid (its
    error list is not empty), [process_file] raises [ValueError] after
    printing every validation error (and every warning); the transformation
    does not run (no call leaves the process, nothing is written to the
    diagnostic stream, and the "Transforming" line is never printed), and
    the file system, the output path included, is left as it was. *)
Theorem invalid_configuration_blocks_pipeline (R : runtime) (W : world)
    (default_mode : Z) (input_file output_file : string) (s : process)
    (f : file) (config : value) (valid : bool) (errors warnings : list string) :
  files s !! input_file = Some f ->
  (if ends_with input_file ".json" then json_load R (content f)
   else yaml_safe_load R (content f)) = Returns config ->
  Validation.validate_yaml_config R config = Returns (valid, errors, warnings) ->
  errors <> [] ->
  exists s',
    Transform.process_file R W default_mode input_file output_file s
    = (Raises (Exn ValueError "Invalid configuration"), s')
    /\ files s' = files s
    /\ calls s' = calls s
    /\ stderr s' = stderr s
    /\ stdout s'
       = stdout s
         ++ [ ("Reading configuration from " +:+ input_file +:+ "...") +:+ nl;
              "Validating configuration..." +:+ nl;
              (nl +:+ "Configuration validation failed:") +:+ nl ]
         ++ map (fun error => ("  ERROR: " +:+ error) +:+ nl) errors
         ++ match warnings with
            | [] => []
            | _ => ((nl +:+ "Warnings:") +:+ nl)
                   :: map (fun warning => ("  WARNING: " +:+ warning) +:+ nl) warnings
            end.
Proof.
  intros Hfile Hload Hvalid Herrors.
  pose proof (validate_verdict _ _ _ _ _ Hvalid) as Hverdict.
  destruct errors as [|error errors]; [contradiction|]. subst valid.
  unfold Transform.process_file.
  unfold bind at 1. unfold print at 1, modify at 1.
  unfold bind at 1. unfold Transform.load_config, bind at 1, read_file, bind at 1,
    get_state. cbn [files]. rewrite Hfile. unfold ret at 1.
  destruct (ends_with input_file ".json"); unfold lift at 1; rewrite Hload.
  all: unfold bind at 1; unfold print at 1, modify at 1.
  all: unfold bind at 1; unfold lift at 1; rewrite Hvalid; cbn [negb].
  all: unfold bind at 1, bind at 1, bind at 1; unfold print at 1, modify at 1.
  all: unfold bind at 1; rewrite print_each.
  all: destruct warnings as [|warning warnings].
  all: try (unfold bind at 1, ret at 1, raise).
  all: try (unfold bind at 1, bind at 1; unfold print at 1, modify at 1;
            rewrite print_each; unfold raise).
  all: eexists; split; [reflexivity|]; cbn [stdout stderr files calls];
    repeat split; try reflexivity.
  all: rewrite <- ?app_assoc; cbn [app map]; rewrite ?app_nil_r; reflexivity.
Qed.

Lemma invalid_configuration_blocks_pipeline_witness :
  exists s',
    Transform.process_file (Examples.reading Examples.broken_config) Examples.offline
      420 "in.json" "out.yml" Examples.inbox
    = (Raises (Exn ValueError "Invalid configuration"), s')
    /\ files s' = files Examples.inbox
    /\ calls s' = []
    /\ stderr s' = []
    /\ stdout s'
       = [ "Reading configuration from in.json..." +:+ nl;
           "Validating configuration..." +:+ nl;
           (nl +:+ "Configuration validation failed:") +:+ nl;
           "  ERROR: mysql[0]: Missing required field 'type'" +:+ nl;
           "  ERROR: mysql[0]: Missing 'connection' section" +:+ nl;
           "  ERROR: mysql[0]: Missing 'credentials' section" +:+ nl ].
Proof.
  apply (invalid_configuration_blocks_pipeline
           (Examples.reading Examples.broken_config) Examples.offline 420
           "in.json" "out.yml" Examples.inbox (File "{}" 420) Examples.broken_config
           false
           [ "mysql[0]: Missing required field 'type'";
             "mysql[0]: Missing 'connection' section";
             "mysql[0]: Missing 'credentials' section" ] []);
    [reflexivity | reflexivity | reflexivity | discriminate].
Defined.

(** ** The monad *)

Lemma bind_lift {S A B} (r : result A) (k : A -> M S B) (s : S) :
  bind (lift r) k s
  = match r with Returns a => k a s | Raises e => (Raises e, s) end.
Proof. unfold bind, lift. destruct r; reflexivity. Qed.


Lemma prefix_of_append (a b : string) : String.prefix a (a +:+ b) = true.
Proof.
  induction a as [|c a IH]; [destruct b; reflexivity|].
  change (String c a +:+ b) with (String c (a +:+ b)). cbn [String.prefix].
  destruct (ascii_dec c c); [exact IH | contradiction].
Qed.

(** ** The validator *)

Section ValidationFacts.
Import Validation.
Variable R : runtime.

Section Runs.
Context {A B : Type} (P : string -> Prop).

Lemma runs_ret (a : A) : runs P (ret a).
Proof.
  intros [es ws]. exists a, [], []. cbn. rewrite !app_nil_r. split; [reflexivity|].
  constructor.
Qed.

Lemma runs_lift (a : A) : runs P (lift (Returns a)).
Proof. apply runs_ret. Qed.

Lemma runs_bind (m : V A) (k : A -> V B) :
  runs P m -> (forall a, runs P (k a)) -> runs P (bind m k).
Proof.
  intros Hm Hk s. destruct (Hm s) as (a & es & ws & E & HP).
  destruct (Hk a (Validator (errors s ++ es) (warnings s ++ ws)))
    as (b & es' & ws' & E' & HP').
  exists b, (es ++ es'), (ws ++ ws'). unfold bind. rewrite E, E'. cbn.
  rewrite !app_assoc. split; [reflexivity|]. apply Forall_app; split; assumption.
Qed.

Lemma runs_bind_lift (a : A) (k : A -> V B) :
  runs P (k a) -> runs P (bind (lift (Returns a)) k).
Proof. intros Hk s. unfold bind, lift. apply Hk. Qed.

End Runs.

Lemma runs_error (P : string -> Prop) (msg : string) :
  P msg -> runs P (append_error msg).
Proof.
  intros HP s. exists tt, [msg], []. cbn. rewrite app_nil_r. split; [reflexivity|].
  constructor; [exact HP | constructor].
Qed.

Lemma runs_warning (P : string -> Prop) (msg : string) : runs P (append_warning msg).
Proof.
  intros s. exists tt, [], [msg]. cbn. rewrite app_nil_r. split; [reflexivity|].
  constructor.
Qed.

Lemma runs_for_each {A} (P : string -> Prop) (l : list A) (body : A -> V unit) :
  (forall x, runs P (body x)) -> runs P (for_each l body).
Proof.
  intros Hbody. induction l as [|x l IH]; cbn [for_each].
  - apply runs_ret.
  - apply runs_bind; [apply Hbody | intros _; exact IH].
Qed.

Lemma str_of_truthy (v : value) :
  is_str_or_falsy v = true -> truthy v = true -> exists s, v = VStr s.
Proof.
  intros H1 H2. destruct v; eauto; cbn [is_str_or_falsy] in H1;
    rewrite H2 in H1; discriminate H1.
Qed.

Ltac runs_step :=
  match goal with
  | |- runs _ (ret _) => apply runs_ret
  | |- runs _ (lift (Returns _)) => apply runs_lift
  | |- runs _ (append_warning _) => apply runs_warning
  | |- runs _ (append_error _) => apply runs_error; solve [auto]
  | |- runs _ (bind (lift (Returns _)) _) => apply runs_bind_lift
  | |- runs _ (bind (lift (get (VDict _) _ _)) _) => apply runs_bind_lift
  | H1 : is_str_or_falsy ?v = true, H2 : truthy ?v = true
    |- runs _ (bind (lift (_ ?v)) _) =>
      destruct (str_of_truthy v H1 H2) as [? ->]; apply runs_bind_lift
  | |- runs _ (lift _) => apply runs_lift
  | |- runs _ (bind (lift _) _) => apply runs_bind_lift
  | |- runs _ (if ?b then _ else _) => destruct b eqn:?
  | |- runs _ (match ?x with _ => _ end) => destruct x eqn:?
  | |- runs _ (bind _ _) => apply runs_bind; [|intros []]
  end.

Section Entry.
Variable P : string -> Prop.
Variable prefix : string.
Hypothesis prefix_ok : forall rest, P (prefix +:+ rest).

Lemma _validate_host_returns (s : string) : exists b, _validate_host R (VStr s) = Returns b.
Proof. unfold _validate_host. destruct (ip_address_ok R (VStr s)); cbn; eauto. Qed.

Lemma _validate_connection_runs (conn : value) :
  validator_ready_connection conn = true ->
  truthy conn = true ->
  runs P (_validate_connection R conn prefix).
Proof.
  intros Hready Htruthy.
  destruct conn; cbn [validator_ready_connection forallb] in Hready;
    try (rewrite Htruthy in Hready; discriminate Hready).
  clear Htruthy. rewrite !andb_true_iff in Hready.
  destruct Hready as (Hh & He & Hc & _).
  unfold _validate_connection.
  do 3 runs_step.
  apply runs_bind.
  { cbn [List.filter].
    destruct (truthy (dict_get d "host" VNone)) eqn:Th;
      destruct (truthy (dict_get d "endpoint" VNone)) eqn:Te;
      destruct (truthy (dict_get d "cluster_endpoint" VNone)) eqn:Tc;
      try apply runs_warning; try (apply runs_error; apply prefix_ok).
    - destruct (str_of_truthy _ Hh Th) as [h ->].
      destruct (_validate_host_returns h) as [b ->].
      apply runs_bind_lift. destruct b; [apply runs_ret | apply runs_error, prefix_ok].
    - destruct (str_of_truthy _ He Te) as [h ->].
      destruct (_validate_host_returns h) as [b ->].
      apply runs_bind_lift. destruct b; [apply runs_ret | apply runs_error, prefix_ok].
    - destruct (str_of_truthy _ Hc Tc) as [h ->].
      destruct (_validate_host_returns h) as [b ->].
      apply runs_bind_lift. destruct b; [apply runs_ret | apply runs_error, prefix_ok]. }
  intros _. runs_step.
  apply runs_bind.
  { destruct (dict_get d "port" VNone); try apply runs_ret;
      match goal with |- runs _ (if ?b then _ else _) => destruct b end;
      try apply runs_ret; apply runs_error, prefix_ok. }
  intros _. runs_step.
  match goal with |- runs _ (if ?b then _ else _) => destruct b end;
    [apply runs_error, prefix_ok | apply runs_ret].
Qed.

Lemma _validate_credentials_runs (creds : value) :
  validator_ready_credentials creds = true ->
  truthy creds = true ->
  runs P (_validate_credentials R creds prefix).
Proof.
  intros Hready Htruthy.
  destruct creds; cbn [validator_ready_credentials] in Hready;
    try (rewrite Htruthy in Hready; discriminate Hready).
  clear Htruthy. unfold _validate_credentials.
  repeat runs_step.
Qed.

Lemma _validate_monitoring_runs (monitoring : value) :
  validator_ready_monitoring monitoring = true ->
  truthy monitoring = true ->
  runs P (_validate_monitoring R monitoring prefix).
Proof.
  intros Hready Htruthy.
  destruct monitoring; cbn [validator_ready_monitoring] in Hready;
    try (rewrite Htruthy in Hready; discriminate Hready).
  clear Htruthy. unfold _validate_monitoring.
  repeat runs_step.
  apply runs_for_each. intros [[field [min_val min_text]] [max_val max_text]].
  repeat runs_step.
Qed.

End Entry.
Lemma _validate_database_runs (P : string -> Prop) (db : value) (db_type : string)
    (index : nat) :
  (forall rest,
     P ((db_type +:+ "[" +:+ string_of_Z (Z.of_nat index) +:+ "]") +:+ rest)) ->
  validator_ready_entry db = true ->
  runs P (_validate_database R db db_type index).
Proof.
  intros HP Hready. destruct db; try discriminate Hready.
  cbn [validator_ready_entry] in Hready. rewrite !andb_true_iff in Hready.
  destruct Hready as (((Hname & Hconn) & Hcreds) & Hmon).
  unfold _validate_database. cbv zeta. cbn [contains subscript].
  runs_step. apply runs_bind.
  { destruct (dict_lookup d "name") as [name|]; cbn [negb]; [|repeat runs_step].
    destruct name; try discriminate Hname. repeat runs_step. }
  intros _. runs_step. apply runs_bind.
  { destruct (dict_lookup d "type") as [ty|]; cbn [negb]; repeat runs_step. }
  intros _. runs_step. apply runs_bind.
  { destruct (truthy (dict_get d "connection" (VDict []))) eqn:T; cbn [negb].
    - apply _validate_connection_runs; assumption.
    - runs_step. }
  intros _. runs_step. apply runs_bind.
  { destruct (truthy (dict_get d "credentials" (VDict []))) eqn:T; cbn [negb].
    - apply _validate_credentials_runs; assumption.
    - runs_step. }
  intros _. runs_step.
  destruct (truthy (dict_get d "monitoring" (VDict []))) eqn:T.
  - apply _validate_monitoring_runs; assumption.
  - runs_step.
Qed.

Lemma append_assoc (a b c : string) : (a +:+ b) +:+ c = a +:+ (b +:+ c).
Proof.
  induction a as [|x a IH]; [reflexivity|].
  change (String x ((a +:+ b) +:+ c) = String x (a +:+ b +:+ c)).
  f_equal. exact IH.
Qed.

Lemma validate_all_runs (P : string -> Prop) (dbs : list value) (db_type : string)
    (index : nat) :
  (forall rest, P (db_type +:+ "[" +:+ rest)) ->
  forallb validator_ready_entry dbs = true ->
  runs P (validate_all R dbs db_type index).
Proof.
  intros HP. revert index. induction dbs as [|db dbs IH]; intros index Hready.
  - apply runs_ret.
  - cbn [forallb] in Hready. apply andb_prop in Hready as [Hdb Hdbs].
    cbn [validate_all]. apply runs_bind.
    + apply _validate_database_runs; [|exact Hdb].
      intros rest. rewrite !append_assoc. apply HP.
    + intros _. apply IH, Hdbs.
Qed.

Lemma collect_names_ready (dbs : list value) (acc : list string) :
  forallb validator_ready_entry dbs = true ->
  exists names,
    collect_names (VList dbs) (map VStr acc) = Returns (map VStr (acc ++ names)).
Proof.
  unfold collect_names. cbn [iterate rbind].
  revert acc. induction dbs as [|db dbs IH]; intros acc Hready.
  - exists []. rewrite app_nil_r. reflexivity.
  - cbn [forallb] in Hready. apply andb_prop in Hready as [Hdb Hdbs].
    destruct db; try discriminate Hdb. cbn [validator_ready_entry] in Hdb.
    rewrite !andb_true_iff in Hdb. destruct Hdb as (((Hname & _) & _) & _).
    cbn [fold_left rbind contains subscript].
    destruct (dict_lookup d "name") as [name|].
    + destruct name; try discriminate Hname. cbn [rbind].
      destruct (IH (acc ++ [s]) Hdbs) as (names & E).
      exists (s :: names). rewrite map_app in E. cbn [map] in E. rewrite E.
      rewrite <- app_assoc. reflexivity.
    + cbn [rbind]. apply IH, Hdbs.
Qed.

Lemma service_names_ready (config : value) :
  validator_ready config = true ->
  exists names, service_names config = Returns (map VStr names).
Proof.
  destruct config; try discriminate. cbn [validator_ready]. intros Hready.
  apply andb_prop in Hready as [H1 H2]. unfold service_names. cbn [get rbind].
  destruct (dict_get d "mysql_databases" (VList [])); try discriminate H1.
  destruct (dict_get d "postgresql_databases" (VList [])); try discriminate H2.
  destruct (collect_names_ready l [] H1) as (names1 & E1).
  cbn [map app] in E1. rewrite E1. cbn [rbind].
  destruct (collect_names_ready l0 names1 H2) as (names2 & E2).
  rewrite E2. eauto.
Qed.

Lemma count_strings (n : string) (names : list string) :
  count (VStr n) (map VStr names) = occurrences n names.
Proof.
  unfold count, occurrences. induction names as [|m names IH]; [reflexivity|].
  simpl. destruct (String.eqb n m); simpl; [f_equal|]; exact IH.
Qed.

Lemma filter_strings (f : value -> bool) (names : list string) :
  List.filter f (map VStr names) = map VStr (List.filter (fun n => f (VStr n)) names).
Proof.
  induction names as [|n names IH]; [reflexivity|].
  cbn [map List.filter]. destruct (f (VStr n)); cbn [map]; congruence.
Qed.

Lemma all_strings_map (names : list string) : all_strings (map VStr names) = Some names.
Proof.
  induction names as [|n names IH]; [reflexivity|]. cbn [map all_strings].
  rewrite IH. reflexivity.
Qed.

Lemma hashable_strings (names : list string) :
  forallb hashable (map VStr names) = true.
Proof. induction names as [|n names IH]; [reflexivity | exact IH]. Qed.

Lemma _check_duplicate_names_ready (config : value) (names : list string)
    (s : validator) :
  service_names config = Returns (map VStr names) ->
  _check_duplicate_names R config s
  = (Returns tt, Validator (errors s ++ duplicate_report R names) (warnings s)).
Proof.
  intros Hnames. unfold _check_duplicate_names, bind, lift. rewrite Hnames.
  rewrite filter_strings.
  rewrite (filter_ext _ (fun n => (1 <? occurrences n names)%nat))
    by (intros n; rewrite count_strings; reflexivity).
  unfold duplicate_report, repeated.
  destruct (List.filter _ names) as [|n dups] eqn:E.
  - unfold ret. rewrite app_nil_r. destruct s; reflexivity.
  - rewrite <- E. cbn [map]. rewrite E. cbn [map].
    change (VStr n :: map VStr dups) with (map VStr (n :: dups)).
    rewrite hashable_strings, all_strings_map. reflexivity.
Qed.


End ValidationFacts.

Lemma map_VStr_inj (a b : list string) : map VStr a = map VStr b -> a = b.
Proof.
  revert b. induction a as [|x a IH]; intros [|y b] H; try discriminate H.
  - reflexivity.
  - injection H as -> H. f_equal. apply IH, H.
Qed.




(** ** Validation *)

(** C4, as the claim states it, fails: on the scenario of the specification
    the validator returns [true] and no error, but one warning, not an
    empty list of warnings. *)
Lemma scenario_has_a_warning :
  Validation.validate_yaml_config Examples.runtime0 Examples.scenario_config
  = Returns (true, [],
             ["mysql[0].credentials: Using plain text password is not recommended"]).
Proof. vm_compute. reflexivity. Qed.

(** C4, amended: on that input the validator returns [isValid = true], an
    empty list of errors, and the single warning that a plain-text password
    is in use, whatever the runtime. *)
Theorem scenario_is_valid_with_warning (R : runtime) :
  Validation.validate_yaml_config R Examples.scenario_config
  = Returns (true, [],
             ["mysql[0].credentials: Using plain text password is not recommended"]).
Proof.
  destruct R as [repr_float repr_container ip order jload yload ydump].
  vm_compute. destruct (ip (VStr "h")); reflexivity.
Qed.

(** *** What the validator has done when it returns *)



Section Steps.
Import Validation.
Variable R : runtime.












End Steps.


Section Duplicates.
Import Validation.
Variable R : runtime.


End Duplicates.



(** C5, as the claim states it, fails where the validator does not get as
    far as the check of the names: with two entries named [db1], the second
    of which gives its interval as the number 30, the validator raises
    [TypeError] and reports nothing. *)
Lemma repeated_name_unreported :
  (1 < occurrences "db1" (combined_names Examples.unitless_config))%nat
  /\ exists e,
       Validation.validate_yaml_config Examples.runtime0 Examples.unitless_config = Raises e
       /\ exn_kind e = TypeError.
Proof. split; [vm_compute; lia|]. eexists. split; [vm_compute|]; reflexivity. Qed.



(** The second scenario of the specification: two MySQL entries named
    [db1] give one error, the duplicate report for [db1]. *)
Example two_entries_named_db1 :
  Validation.validate_yaml_config Examples.runtime0 Examples.twin_config
  = Returns (false, ["Duplicate service names found: db1"],
             ["mysql[0].credentials: Using plain text password is not recommended";
              "mysql[1].credentials: Using plain text password is not recommended"]).
Proof. vm_compute. reflexivity. Qed.

(** ** Upper case and case-insensitive occurrence *)

Lemma nat_of_upper_ascii (c : ascii) :
  nat_of_ascii (upper_ascii c)
  = if ((97 <=? nat_of_ascii c) && (nat_of_ascii c <=? 122))%nat
    then (nat_of_ascii c - 32)%nat else nat_of_ascii c.
Proof.
  unfold upper_ascii.
  destruct ((97 <=? nat_of_ascii c) && (nat_of_ascii c <=? 122))%nat eqn:E;
    [|reflexivity].
  apply nat_ascii_embedding. pose proof (nat_ascii_bounded c). lia.
Qed.

Ltac nat_bools :=
  unfold Nat.ltb in *;
  repeat match goal with
    | H : context [(?x <=? ?y)%nat] |- _ => destruct (Nat.leb_spec x y)
    | |- context [(?x <=? ?y)%nat] => destruct (Nat.leb_spec x y)
    | H : context [(?x =? ?y)%nat] |- _ => destruct (Nat.eqb_spec x y)
    | |- context [(?x =? ?y)%nat] => destruct (Nat.eqb_spec x y)
    end;
  cbn in *; try discriminate; try reflexivity; try lia.

Lemma same_letter_upper (a b : ascii) :
  same_letter a b = true <-> upper_ascii a = upper_ascii b.
Proof.
  split.
  - intros H. rewrite <- (ascii_nat_embedding (upper_ascii a)),
      <- (ascii_nat_embedding (upper_ascii b)), !nat_of_upper_ascii.
    f_equal. unfold same_letter in H. nat_bools.
  - intros H. apply (f_equal nat_of_ascii) in H. rewrite !nat_of_upper_ascii in H.
    unfold same_letter. nat_bools.
Qed.

Lemma is_ascii_upper (c : ascii) : is_ascii (upper_ascii c) = is_ascii c.
Proof. unfold is_ascii. rewrite nat_of_upper_ascii. nat_bools. Qed.




Lemma is_substring_prefix (needle hay : string) :
  String.prefix needle hay = true -> is_substring needle hay = true.
Proof. intros H. destruct hay; cbn [is_substring]; rewrite H; reflexivity. Qed.

Lemma is_substring_cons (needle : string) (c : ascii) (hay : string) :
  is_substring needle hay = true -> is_substring needle (String c hay) = true.
Proof. intros H. cbn [is_substring]. rewrite H. apply orb_true_r. Qed.

Lemma is_substring_app (needle front hay : string) :
  is_substring needle hay = true -> is_substring needle (front +:+ hay) = true.
Proof.
  intros H. induction front as [|c front IH]; [exact H|].
  change (String c front +:+ hay) with (String c (front +:+ hay)).
  apply is_substring_cons, IH.
Qed.

Section Upper.
Variable R : runtime.

Lemma starts_in_upper (needle hay : string) :
  capitals needle = needle -> all_ascii needle = true ->
  starts_ignoring_case needle hay = true ->
  String.prefix needle (upper_from R EmptyString hay) = true.
Proof.
  revert hay. induction needle as [|a needle IH]; intros hay Hn Ha Hs.
  - destruct (upper_from R EmptyString hay); reflexivity.
  - cbn [capitals] in Hn. injection Hn as Hup Hn.
    unfold all_ascii in Ha. cbn [list_ascii_of_string forallb] in Ha.
    apply andb_prop in Ha as [Ha Hrest].
    destruct hay as [|b hay]; [discriminate Hs|].
    cbn [starts_ignoring_case] in Hs. apply andb_prop in Hs as [Hab Hs].
    apply same_letter_upper in Hab. rewrite Hup in Hab.
    assert (Hb : is_ascii b = true).
    { rewrite <- is_ascii_upper, <- Hab. exact Ha. }
    cbn [upper_from]. rewrite Hb. cbn [upper_run].
    change (EmptyString +:+ ?x) with x. cbn [String.prefix].
    destruct (ascii_dec a (upper_ascii b)); [|contradiction].
    apply IH; assumption.
Qed.

Lemma occurs_in_upper (needle hay wide : string) :
  capitals needle = needle -> all_ascii needle = true ->
  occurs_ignoring_case needle hay = true ->
  is_substring needle (upper_from R wide hay) = true.
Proof.
  intros Hn Ha. revert wide. induction hay as [|b hay IH]; intros wide Ho.
  - cbn [occurs_ignoring_case] in Ho. rewrite orb_false_r in Ho.
    destruct needle; [|discriminate Ho].
    destruct (upper_from R wide EmptyString); reflexivity.
  - cbn [occurs_ignoring_case] in Ho. cbn [upper_from].
    destruct (is_ascii b) eqn:Hb.
    + apply is_substring_app.
      apply orb_prop in Ho as [Hs|Ho].
      * apply is_substring_prefix.
        pose proof (starts_in_upper needle (String b hay) Hn Ha Hs) as H.
        cbn [upper_from] in H. rewrite Hb in H. exact H.
      * apply is_substring_cons, IH, Ho.
    + apply IH. apply orb_prop in Ho as [Hs|Ho]; [|exact Ho].
      destruct needle as [|a needle].
      * destruct hay; reflexivity.
      * exfalso. cbn [capitals] in Hn. injection Hn as Hup _.
        unfold all_ascii in Ha. cbn [list_ascii_of_string forallb] in Ha.
        apply andb_prop in Ha as [Ha _].
        cbn [starts_ignoring_case] in Hs. apply andb_prop in Hs as [Hab _].
        apply same_letter_upper in Hab. rewrite Hup in Hab.
        rewrite <- is_ascii_upper, <- Hab, Ha in Hb. discriminate Hb.
Qed.


End Upper.

Section ProbeFacts.
Variable R : runtime.
Variable W : world.

Lemma called_called (a b : list call) (s : Probe.session) :
  called b (called a s) = called (a ++ b) s.
Proof. unfold called. cbn. rewrite <- app_assoc. reflexivity. Qed.

Lemma execute_eq (engine : string) (cur : cursor) (q : string) (params : list value)
    (s : Probe.session) :
  Probe.execute engine cur q params s
  = (cur q params, called [Execute engine q params] s).
Proof. reflexivity. Qed.

Lemma bind_execute {B} (engine : string) (cur : cursor) (q : string)
    (params : list value) (k : list (list value) -> Probe.C B) (s : Probe.session) :
  bind (Probe.execute engine cur q params) k s
  = match cur q params with
    | Returns rows => k rows (called [Execute engine q params] s)
    | Raises e => (Raises e, called [Execute engine q params] s)
    end.
Proof. unfold bind. rewrite execute_eq. destruct (cur q params); reflexivity. Qed.

Lemma mysql_probe_eq (db : value) (s : Probe.session) :
  Probe.mysql_probe R W db s
  = match Probe.mysql_arguments db with
    | Raises e => (Raises e, s)
    | Returns args =>
        match mysql_connect W args with
        | Raises e => (Raises e, called [Connect "mysql" args] s)
        | Returns cur => Probe.mysql_session R cur (called [Connect "mysql" args] s)
        end
    end.
Proof.
  unfold Probe.mysql_probe. rewrite bind_lift.
  destruct (Probe.mysql_arguments db) as [args|e]; [|reflexivity].
  unfold bind at 1. cbn -[Probe.mysql_session bind].
  rewrite bind_lift. reflexivity.
Qed.


Lemma mysql_session_eq (cur : cursor) (s : Probe.session) :
  Probe.mysql_session R cur s
  = match cur "SELECT VERSION()" [] with
    | Raises e => (Raises e, called [version_query] s)
    | Returns vrows =>
    match Probe.fetchone_0 vrows with
    | Raises e => (Raises e, called [version_query] s)
    | Returns version =>
    match cur "SHOW GRANTS FOR CURRENT_USER()" [] with
    | Raises e => (Raises e, called [version_query; grants_query] s)
    | Returns rows =>
    match (column <- Probe.first_column rows ;; Probe.strings_of column) with
    | Raises e => (Raises e, called [version_query; grants_query] s)
    | Returns grants =>
    match Probe.missing_permissions R grants with
    | _ :: _ =>
        (Returns (false, "Missing permissions: "
                           +:+ join ", " (Probe.missing_permissions R grants)),
         called [version_query; grants_query] s)
    | [] =>
    match cur "SELECT COUNT(*) FROM performance_schema.setup_consumers" [] with
    | Raises e => (Raises e, called [version_query; grants_query; consumers_query] s)
    | Returns _ =>
        (Returns (true, "Connected successfully (MySQL " +:+ py_str R version +:+ ")"),
         called [version_query; grants_query; consumers_query] s)
    end end end end end end.
Proof.
  unfold Probe.mysql_session. rewrite bind_execute.
  destruct (cur "SELECT VERSION()" []) as [vrows|e]; [|reflexivity].
  rewrite bind_lift. destruct (Probe.fetchone_0 vrows) as [version|e]; [|reflexivity].
  rewrite bind_execute, called_called.
  destruct (cur "SHOW GRANTS FOR CURRENT_USER()" []) as [rows|e]; [|reflexivity].
  rewrite bind_lift. destruct (Probe.first_column rows) as [column|e]; [|reflexivity].
  rewrite bind_lift. cbn [rbind].
  destruct (Probe.strings_of column) as [grants|e]; [|reflexivity].
  destruct (Probe.missing_permissions R grants) as [|p ps]; [|reflexivity].
  rewrite bind_execute, called_called.
  destruct (cur _ []); reflexivity.
Qed.


Lemma try_except_classify (m : Probe.C (bool * string)) (unreachable : string)
    (s : Probe.session) :
  try_except m (Probe.classify unreachable) s
  = match m s with
    | (Returns a, s') => (Returns a, s')
    | (Raises e, s') =>
        (Returns (false, Probe.failure_message unreachable (exn_kind e)), s')
    end.
Proof. unfold try_except. destruct (m s) as [[a|e] s']; reflexivity. Qed.

End ProbeFacts.

(** ** The MySQL probe *)



Section CheckFacts.
Variable R : runtime.
Variable W : world.

Lemma connects_called (cs : list call) (s : Probe.session) :
  connects (called cs s) = connects s ++ List.filter is_connect cs.
Proof. unfold connects, called. cbn. apply List.filter_app. Qed.

Lemma quiet_ret {A} (a : A) : quiet (ret a).
Proof. intros s. split; reflexivity. Qed.

Lemma quiet_lift {A} (r : result A) : quiet (lift r).
Proof. intros s. split; reflexivity. Qed.

Lemma quiet_bind {A B} (m : Probe.C A) (k : A -> Probe.C B) :
  quiet m -> (forall a, quiet (k a)) -> quiet (bind m k).
Proof.
  intros Hm Hk s. unfold bind. specialize (Hm s).
  destruct (m s) as [[a|e] s']; cbn [snd] in Hm; [|exact Hm].
  destruct Hm as [He Hc]. destruct (Hk a s') as [He' Hc'].
  split; etransitivity; eassumption.
Qed.

Lemma quiet_execute (engine : string) (cur : cursor) (q : string) (params : list value) :
  quiet (Probe.execute engine cur q params).
Proof.
  intros s. rewrite execute_eq. cbn [snd]. split; [reflexivity|].
  rewrite connects_called. cbn. apply app_nil_r.
Qed.

Lemma quiet_warning (msg : string) : quiet (Probe.append_warning msg).
Proof. intros s. split; reflexivity. Qed.

Lemma mysql_session_quiet (cur : cursor) : quiet (Probe.mysql_session R cur).
Proof.
  unfold Probe.mysql_session.
  repeat first
    [ apply quiet_execute | apply quiet_lift | apply quiet_ret
    | apply quiet_bind; [|intros ?]
    | match goal with |- quiet (match ?x with _ => _ end) => destruct x end ].
Qed.

Lemma postgres_session_quiet (db : value) (cur : cursor) :
  quiet (Probe.postgres_session R db cur).
Proof.
  unfold Probe.postgres_session.
  repeat first
    [ apply quiet_execute | apply quiet_lift | apply quiet_ret | apply quiet_warning
    | apply quiet_bind; [|intros ?]
    | match goal with |- quiet (match ?x with _ => _ end) => destruct x end
    | match goal with |- quiet (if ?x then _ else _) => destruct x end ].
Qed.

Lemma probe_attempt (engine : string) (r : result dict)
    (connect : dict -> result cursor) (session : cursor -> Probe.C (bool * string))
    (unreachable : string) (s : Probe.session) :
  (forall cur, quiet (session cur)) ->
  exists ok message s',
    try_except
      (args <~ lift r ;;
       Probe.in_process (record_call (Connect engine args)) ;;;
       cur <~ lift (connect args) ;;
       session cur)
      (Probe.classify unreachable) s
    = (Returns (ok, message), s')
    /\ Probe.errors s' = Probe.errors s
    /\ connects s'
       = connects s ++ match r with
                       | Returns args => [Connect engine args]
                       | Raises _ => []
                       end.
Proof.
  intros Hquiet. rewrite try_except_classify, bind_lift.
  destruct r as [args|e].
  2:{ do 3 eexists. split; [reflexivity|]. split; [reflexivity|].
      symmetry. apply app_nil_r. }
  unfold bind at 1. cbn -[bind]. rewrite bind_lift.
  change (Probe.Session _ _ _) with (called [Connect engine args] s).
  destruct (connect args) as [cur|e].
  2:{ do 3 eexists. split; [reflexivity|]. split; [reflexivity|].
      apply connects_called. }
  destruct (Hquiet cur (called [Connect engine args] s)) as [He Hc].
  destruct (session cur (called [Connect engine args] s)) as [[[ok message]|e] s'];
    cbn [snd] in He, Hc; do 3 eexists; (split; [reflexivity|]);
    rewrite He, Hc, connects_called; split; reflexivity.
Qed.

Lemma test_mysql_connection_probes :
  probes "mysql" Probe.mysql_arguments (Probe.test_mysql_connection R W).
Proof. intros db s. apply probe_attempt, mysql_session_quiet. Qed.

Lemma test_postgresql_connection_probes :
  probes "postgresql" Probe.postgres_arguments (Probe.test_postgresql_connection R W).
Proof. intros db s. apply probe_attempt, postgres_session_quiet. Qed.

Ltac probe_branch :=
  unfold bind at 1;
  match goal with
  | Hprobe : probes _ _ ?t |- context [?t ?x ?st] =>
      destruct (Hprobe x st) as (ok & message & s' & Hrun & He & Hc);
      rewrite Hrun; destruct ok;
      do 3 eexists; (split; [reflexivity|]); cbn; rewrite He; cbn;
      (split; [first [reflexivity | symmetry; apply app_nil_r]|]);
      (split; [first [discriminate | auto]|]);
      (split; [discriminate|]); unfold connects in *; cbn in *; exact Hc
  end.

Lemma check_database_ready (engine : string) (arguments : value -> result dict)
    (test_connection : value -> Probe.C (bool * string))
    (all_valid : bool) (db : value) (s : Probe.session) :
  probes engine arguments test_connection ->
  probe_ready db = true ->
  exists v s' es,
    Probe.check_database R test_connection all_valid db s = (Returns v, s')
    /\ Probe.errors s' = Probe.errors s ++ es
    /\ (v = true -> all_valid = true)
    /\ (unresolved db = true -> v = false /\ In (resolution_failure R db) es)
    /\ connects s'
       = connects s ++ (if unresolved db then [] else attempt engine arguments db).
Proof.
  intros Hprobe Hready. destruct db as [| | | | |?|d]; try discriminate.
  cbn [probe_ready] in Hready. apply andb_prop in Hready as [Hhost Hpassword].
  destruct (dict_lookup d "host") as [host|] eqn:Hh; [clear Hhost|discriminate].
  assert (Hname : Probe.display_name (VDict d)
                  = Returns (dict_get d "service_name" host)).
  { unfold Probe.display_name, get, subscript. rewrite Hh. reflexivity. }
  unfold resolution_failure, entry_name. rewrite Hname.
  unfold Probe.check_database. rewrite bind_lift, Hname.
  unfold bind at 1. cbn -[bind]. rewrite bind_lift.
  unfold get, dict_get, unresolved.
  destruct (dict_lookup d "password") as [[| | | |p| |]|]; try discriminate;
    rewrite bind_lift; cbn [contains].
  - destruct (is_substring "ERROR" p) eqn:Hp.
    + cbv beta iota. do 3 eexists. split; [reflexivity|]. cbn.
      split; [reflexivity|]. split; [discriminate|].
      split; [intros _; split; [reflexivity|left; reflexivity]|].
      unfold connects. cbn. symmetry. apply app_nil_r.
    + cbv beta iota. probe_branch.
  - cbn [is_substring String.prefix orb]. cbv beta iota. probe_branch.
Qed.



Lemma load_config_eq (file : string) (s : Probe.session) :
  Probe.load_config R W file s
  = (match files (Probe.io s) !! file with
     | Some f => if ends_with file ".json" then json_load R (content f)
                 else yaml_safe_load R (content f)
     | None => Raises (match refuses W (OpenRead file) with
                       | Some e => e
                       | None => no_such_file R file
                       end)
     end, s).
Proof.
  unfold Probe.load_config, bind, Probe.in_process, read_file, get_state, ret, raise,
    lift.
  destruct s as [errors warnings io]. cbn.
  destruct (files io !! file); [destruct (ends_with file ".json")|]; reflexivity.
Qed.

Lemma load_config_printed (file text : string) (s : Probe.session) :
  Probe.load_config R W file
    (Probe.Session (Probe.errors s) (Probe.warnings s)
       (Process (stdout (Probe.io s) ++ [text]) (stderr (Probe.io s))
          (files (Probe.io s)) (calls (Probe.io s))))
  = (fst (Probe.load_config R W file s),
     Probe.Session (Probe.errors s) (Probe.warnings s)
       (Process (stdout (Probe.io s) ++ [text]) (stderr (Probe.io s))
          (files (Probe.io s)) (calls (Probe.io s)))).
Proof. rewrite !load_config_eq. reflexivity. Qed.

End CheckFacts.



(** ** The credential check of the probe script *)




Example error_sentinel_is_not_probed :
  fst (Examples.sentinel_run "ERROR_FETCHING_SECRET") = Returns false
  /\ Probe.errors (snd (Examples.sentinel_run "ERROR_FETCHING_SECRET"))
     = ["orders: Credential resolution failed"]
  /\ connects (snd (Examples.sentinel_run "ERROR_FETCHING_SECRET")) = [].
Proof. vm_compute. repeat split; reflexivity. Qed.

(** * Further properties of the three scripts *)

(** ** More on credential resolution *)

(** X1: when [password_source] is [aws_ssm_parameter], the key is non-empty
    and the parameter cannot be had (the store raises, or its answer lacks
    [Parameter] or [Value]), credential resolution returns with the password
    [ERROR_FETCHING_PARAMETER]; the one fetch is recorded, nothing is written
    to standard output, and the only diagnostic is the fixed line
    "Error fetching SSM parameter: Failed to retrieve credentials". *)
Theorem parameter_fetch_failure_yields_sentinel (W : world) (creds : dict)
    (key : value) (e : exn) (s : process) :
  dict_lookup creds "password_source" = Some (VStr "aws_ssm_parameter") ->
  dict_lookup creds "password_key" = Some key ->
  truthy key = true ->
  (response <- get_parameter W key ;;
   parameter <- subscript response "Parameter" ;;
   subscript parameter "Value") = Raises e ->
  Transform.resolve_credentials W (VDict creds) s
  = (Returns (VDict [("user", dict_get creds "username" (VStr "newrelic"));
                     ("password", VStr "ERROR_FETCHING_PARAMETER")]),
     Process (stdout s)
       (stderr s ++ ["Error fetching SSM parameter: Failed to retrieve credentials"
                       +:+ nl])
       (files s) (calls s ++ [GetParameter key])).
Proof.
  intros Hsrc Hkey Htrue Hfail.
  unfold Transform.resolve_credentials, bind, lift, ret, get, dict_get.
  rewrite Hsrc, Hkey. cbn. rewrite Htrue.
  unfold Transform.fetch_ssm_parameter, try_except, bind, lift, record_call, modify.
  cbn. destruct (get_parameter W key) as [response|e1]; [|reflexivity].
  cbn [rbind] in Hfail.
  destruct (subscript response "Parameter") as [parameter|e2]; [|reflexivity].
  cbn [rbind] in Hfail. rewrite Hfail. reflexivity.
Qed.

Lemma parameter_fetch_failure_yields_sentinel_witness :
  Transform.resolve_credentials Examples.offline
    (VDict Examples.parameter_credentials) Examples.idle
  = (Returns (VDict [("user", VStr "newrelic");
                     ("password", VStr "ERROR_FETCHING_PARAMETER")]),
     Process []
       ["Error fetching SSM parameter: Failed to retrieve credentials" +:+ nl] ∅
       [GetParameter (VStr "/prod/db/password")]).
Proof.
  apply (parameter_fetch_failure_yields_sentinel Examples.offline
           Examples.parameter_credentials (VStr "/prod/db/password")
           (Exn OtherError "ParameterNotFound") Examples.idle);
    reflexivity.
Defined.

(** X2: when [password_source] is [aws_secrets_manager], the key is non-empty
    and the secret store answers with a [SecretString], that value is the
    resolved password; the process gains the one recorded fetch and nothing
    else: no diagnostic, no output. *)
Theorem fetched_secret_is_the_password (W : world) (creds : dict)
    (key response secret : value) (s : process) :
  dict_lookup creds "password_source" = Some (VStr "aws_secrets_manager") ->
  dict_lookup creds "password_key" = Some key ->
  truthy key = true ->
  get_secret_value W key = Returns response ->
  subscript response "SecretString" = Returns secret ->
  Transform.resolve_credentials W (VDict creds) s
  = (Returns (VDict [("user", dict_get creds "username" (VStr "newrelic"));
                     ("password", secret)]),
     Process (stdout s) (stderr s) (files s) (calls s ++ [GetSecretValue key])).
Proof.
  intros Hsrc Hkey Htrue Hget Hsecret.
  unfold Transform.resolve_credentials, bind, lift, ret, get, dict_get.
  rewrite Hsrc, Hkey. cbn. rewrite Htrue.
  unfold Transform.fetch_secret, try_except, bind, lift, record_call, modify.
  cbn. rewrite Hget, Hsecret. reflexivity.
Qed.

Lemma fetched_secret_is_the_password_witness :
  Transform.resolve_credentials Examples.vault (VDict Examples.secret_credentials)
    Examples.idle
  = (Returns (VDict [("user", VStr "monitor"); ("password", VStr "s3cret")]),
     Process [] [] ∅ [GetSecretValue (VStr "prod/db/password")]).
Proof.
  apply (fetched_secret_is_the_password Examples.vault Examples.secret_credentials
           (VStr "prod/db/password") (VDict [("SecretString", VStr "s3cret")])
           (VStr "s3cret") Examples.idle);
    reflexivity.
Defined.

(** X3: when [password_source] is [env_var] and [password_env] names a
    variable, the resolved password is the value of that variable in the
    environment of the process, and [ENV_VAR_NOT_SET] when the variable is
    not set; the process is left as it was. *)
Theorem password_from_environment (W : world) (creds : dict) (name : string)
    (s : process) :
  dict_lookup creds "password_source" = Some (VStr "env_var") ->
  dict_lookup creds "password_env" = Some (VStr name) ->
  name <> EmptyString ->
  Transform.resolve_credentials W (VDict creds) s
  = (Returns (VDict [("user", dict_get creds "username" (VStr "newrelic"));
                     ("password",
                      VStr match environ W !! name with
                           | Some secret => secret
                           | None => "ENV_VAR_NOT_SET"
                           end)]), s).
Proof.
  intros Hsrc Henv Hname.
  unfold Transform.resolve_credentials, bind, lift, ret, get, dict_get.
  rewrite Hsrc, Henv. cbn.
  destruct (String.eqb name "") eqn:E; [apply String.eqb_eq in E; contradiction|].
  reflexivity.
Qed.

Lemma password_from_environment_witness :
  Transform.resolve_credentials Examples.vault
    (VDict Examples.environment_credentials) Examples.idle
  = (Returns (VDict [("user", VStr "newrelic"); ("password", VStr "from-env")]),
     Examples.idle).
Proof.
  apply (password_from_environment Examples.vault Examples.environment_credentials
           "DB_PASSWORD" Examples.idle);
    [reflexivity | reflexivity | discriminate].
Defined.

(** ** What the transformation touches *)

Section Frame.
Variable W : world.

Lemma fetches_only_ret {A} (a : A) : fetches_only (ret a : M process A).
Proof.
  intros s. exists [], []. rewrite !app_nil_r. destruct s. repeat split; auto.
Qed.

Lemma fetches_only_lift {A} (r : result A) : fetches_only (lift r : M process A).
Proof.
  intros s. exists [], []. rewrite !app_nil_r. destruct s. repeat split; auto.
Qed.

Lemma fetches_only_bind {A B} (m : M process A) (k : A -> M process B) :
  fetches_only m -> (forall a, fetches_only (k a)) -> fetches_only (bind m k).
Proof.
  intros Hm Hk s. unfold bind. destruct (Hm s) as (cs & ds & Hs & Hcs & Hds).
  destruct (m s) as [[a|e] s1]; cbn [snd] in Hs.
  2:{ exists cs, ds. auto. }
  destruct (Hk a s1) as (cs' & ds' & Hs' & Hcs' & Hds').
  exists (cs ++ cs'), (ds ++ ds'). rewrite Hs', Hs. cbn.
  rewrite !app_assoc, forallb_app, Hcs, Hcs', !length_app.
  split; [reflexivity|]. split; [reflexivity|lia].
Qed.

Lemma fetch_secret_eq (key : value) (s : process) :
  Transform.fetch_secret W key s
  = match (response <- get_secret_value W key ;; subscript response "SecretString") with
    | Returns secret =>
        (Returns secret,
         Process (stdout s) (stderr s) (files s) (calls s ++ [GetSecretValue key]))
    | Raises _ =>
        (Returns (VStr "ERROR_FETCHING_SECRET"),
         Process (stdout s) (stderr s ++ [Transform.secret_diagnostic +:+ nl]) (files s)
           (calls s ++ [GetSecretValue key]))
    end.
Proof.
  unfold Transform.fetch_secret, try_except, bind, lift, record_call, modify, eprint, ret.
  cbn. destruct (get_secret_value W key) as [response|e]; [|reflexivity].
  cbn. destruct (subscript response "SecretString"); reflexivity.
Qed.

Lemma fetch_ssm_parameter_eq (key : value) (s : process) :
  Transform.fetch_ssm_parameter W key s
  = match (response <- get_parameter W key ;;
           parameter <- subscript response "Parameter" ;;
           subscript parameter "Value") with
    | Returns secret =>
        (Returns secret,
         Process (stdout s) (stderr s) (files s) (calls s ++ [GetParameter key]))
    | Raises _ =>
        (Returns (VStr "ERROR_FETCHING_PARAMETER"),
         Process (stdout s) (stderr s ++ [Transform.parameter_diagnostic +:+ nl])
           (files s) (calls s ++ [GetParameter key]))
    end.
Proof.
  unfold Transform.fetch_ssm_parameter, try_except, bind, lift, record_call, modify,
    eprint, ret.
  cbn. destruct (get_parameter W key) as [response|e]; [|reflexivity].
  cbn. destruct (subscript response "Parameter") as [parameter|e]; [|reflexivity].
  cbn. destruct (subscript parameter "Value"); reflexivity.
Qed.

Lemma fetch_secret_fetches_only (key : value) :
  fetches_only (Transform.fetch_secret W key).
Proof.
  intros s. rewrite fetch_secret_eq.
  destruct (rbind _ _); cbn [snd].
  - exists [GetSecretValue key], []. rewrite app_nil_r. repeat split; cbn; lia.
  - exists [GetSecretValue key], [Transform.secret_diagnostic +:+ nl].
    repeat split; cbn; lia.
Qed.

Lemma fetch_ssm_parameter_fetches_only (key : value) :
  fetches_only (Transform.fetch_ssm_parameter W key).
Proof.
  intros s. rewrite fetch_ssm_parameter_eq.
  destruct (rbind _ _); cbn [snd].
  - exists [GetParameter key], []. rewrite app_nil_r. repeat split; cbn; lia.
  - exists [GetParameter key], [Transform.parameter_diagnostic +:+ nl].
    repeat split; cbn; lia.
Qed.

Ltac frame_step :=
  first
    [ apply fetches_only_ret | apply fetches_only_lift
    | apply fetch_secret_fetches_only | apply fetch_ssm_parameter_fetches_only
    | apply fetches_only_bind; [|intros ?]
    | match goal with |- fetches_only (if ?c then _ else _) => destruct c end ].

Lemma resolve_credentials_fetches_only (credentials : value) :
  fetches_only (Transform.resolve_credentials W credentials).
Proof. unfold Transform.resolve_credentials. repeat frame_step. Qed.

Lemma transform_database_fetches_only (db : value) :
  fetches_only (Transform.transform_database W db).
Proof.
  unfold Transform.transform_database.
  repeat first [ apply resolve_credentials_fetches_only | frame_step ].
Qed.

Lemma fetches_only_for_fold {A B} (l : list A) (body : B -> A -> M process B) :
  (forall acc x, fetches_only (body acc x)) ->
  forall acc, fetches_only (for_fold l acc body).
Proof.
  intros Hbody. induction l as [|x l IH]; intros acc; cbn [for_fold].
  - apply fetches_only_ret.
  - apply fetches_only_bind; [apply Hbody | intros acc'; apply IH].
Qed.

Lemma transform_config_fetches_only (input_config : value) :
  fetches_only (Transform.transform_config W input_config).
Proof.
  unfold Transform.transform_config, Transform.transform_all.
  repeat first
    [ apply fetches_only_for_fold; intros ? ?; unfold Transform.keep_transformed
    | apply transform_database_fetches_only | frame_step ].
Qed.

End Frame.

(** X4: whatever the input and whether it returns or raises,
    [transform_config] leaves standard output and the files as they were;
    the calls it adds are fetches from the secret store or the parameter
    store (it opens no database connection), and it writes at most one
    diagnostic for each fetch. *)
Theorem transformation_only_fetches (W : world) (input_config : value) (s : process) :
  exists fetched diagnostics,
    snd (Transform.transform_config W input_config s)
    = Process (stdout s) (stderr s ++ diagnostics) (files s) (calls s ++ fetched)
    /\ forallb is_fetch fetched = true
    /\ (length diagnostics <= length fetched)%nat.
Proof. apply transform_config_fetches_only. Qed.

Section Fetches.
Variable W : world.

Lemma resolve_credentials_calls (c : dict) (s : process) :
  calls (snd (Transform.resolve_credentials W (VDict c) s)) = calls s ++ fetches c.
Proof.
  unfold Transform.resolve_credentials, fetches, bind, lift, ret, get.
  destruct (py_eq _ (VStr "aws_secrets_manager")).
  { destruct (truthy (dict_get c "password_key" VNone)); [|symmetry; apply app_nil_r].
    rewrite fetch_secret_eq. destruct (rbind _ _); reflexivity. }
  destruct (py_eq _ (VStr "aws_ssm_parameter")).
  { destruct (truthy (dict_get c "password_key" VNone)); [|symmetry; apply app_nil_r].
    rewrite fetch_ssm_parameter_eq. destruct (rbind _ _); reflexivity. }
  destruct (py_eq _ (VStr "env_var")).
  { destruct (truthy (dict_get c "password_env" VNone)); [|symmetry; apply app_nil_r].
    unfold environ_get. destruct (dict_get c "password_env" VNone);
      symmetry; apply app_nil_r. }
  symmetry. apply app_nil_r.
Qed.

Lemma transform_all_calls (dbs acc : list value) (s : process) :
  forallb (fun db => disabled db || well_formed_entry db) dbs = true ->
  exists out s',
    for_fold dbs acc (Transform.keep_transformed W) s = (Returns out, s')
    /\ calls s' = calls s ++ flat_map entry_fetches dbs.
Proof.
  revert acc s. induction dbs as [|db dbs IH]; intros acc s Hwf.
  - exists acc, s. split; [reflexivity|]. symmetry. apply app_nil_r.
  - cbn [forallb] in Hwf. apply andb_prop in Hwf as [Hdb Hwf].
    rewrite for_fold_cons, keep_transformed_eq. cbn [flat_map].
    destruct (disabled db) eqn:D.
    + rewrite (transform_database_disabled _ _ _ D).
      destruct (IH (if truthy VNone then acc ++ [VNone] else acc) s Hwf)
        as (out & s' & Hrun & Hcalls).
      exists out, s'. split; [exact Hrun|]. rewrite Hcalls.
      unfold entry_fetches. rewrite D. destruct db; reflexivity.
    + cbn [orb] in Hdb. destruct db as [| | | | | |d]; try discriminate Hdb.
      destruct (transform_database_enabled W d s Hdb D)
        as (conn & creds & ty & flat & password & s1 & _ & Hcreds & _ & Hres & Hrun & _).
      rewrite Hrun.
      destruct (IH (if truthy (VDict flat) then acc ++ [VDict flat] else acc) s1 Hwf)
        as (out & s' & Hrun' & Hcalls).
      exists out, s'. split; [exact Hrun'|]. rewrite Hcalls.
      pose proof (resolve_credentials_calls creds s) as Hc. rewrite Hres in Hc.
      cbn [snd] in Hc. rewrite Hc. unfold entry_fetches. rewrite D, Hcreds.
      symmetry. apply app_assoc.
Qed.

End Fetches.

(** X5: for a well-formed configuration [transform_config] returns, and the
    fetches it makes are those of the enabled entries, MySQL first, in the
    order of the configuration: one for each enabled entry whose
    [password_source] is [aws_secrets_manager] or [aws_ssm_parameter] with a
    non-empty [password_key], and none for a disabled entry or any other
    source. *)
Theorem fetches_follow_enabled_entries (W : world) (config : dict) (s : process) :
  well_formed_config config = true ->
  exists mysql postgres output s',
    databases config "mysql_databases" = Returns mysql
    /\ databases config "postgresql_databases" = Returns postgres
    /\ Transform.transform_config W (VDict config) s = (Returns output, s')
    /\ calls s' = calls s ++ flat_map entry_fetches mysql
                    ++ flat_map entry_fetches postgres.
Proof.
  intros Hwf. unfold well_formed_config in Hwf.
  apply andb_prop in Hwf as [Hmysql Hpostgres].
  rewrite transform_config_eq. unfold databases.
  destruct (dict_get config "mysql_databases" (VList [])) as [| | | | |mysql|];
    try discriminate.
  destruct (dict_get config "postgresql_databases" (VList [])) as [| | | | |postgres|];
    try discriminate.
  cbn [iterate well_formed_databases] in *. unfold Transform.transform_all.
  destruct (transform_all_calls W mysql [] s Hmysql) as (out1 & s1 & -> & Hc1).
  destruct (transform_all_calls W postgres [] s1 Hpostgres) as (out2 & s2 & -> & Hc2).
  do 4 eexists. split; [reflexivity|]. split; [reflexivity|]. split; [reflexivity|].
  rewrite Hc2, Hc1. symmetry. apply app_assoc.
Qed.

Lemma fetches_follow_enabled_entries_witness :
  exists mysql postgres output s',
    databases Examples.managed_config "mysql_databases" = Returns mysql
    /\ databases Examples.managed_config "postgresql_databases" = Returns postgres
    /\ Transform.transform_config Examples.offline (VDict Examples.managed_config)
         Examples.idle = (Returns output, s')
    /\ calls s' = calls Examples.idle ++ flat_map entry_fetches mysql
                    ++ flat_map entry_fetches postgres.
Proof.
  apply (fetches_follow_enabled_entries Examples.offline Examples.managed_config
           Examples.idle).
  reflexivity.
Defined.

(** ** The files of the pipeline *)



Lemma keeps_files_print (text : string) : keeps_files (print text).
Proof. intros s. reflexivity. Qed.











(** The same run in a directory that may not be written: nothing is left
    behind. *)
Example read_only_directory_keeps_files :
  Transform.process_file (Examples.reading Examples.scenario_config)
    Examples.read_only 420 "in.json" "out.yml" Examples.inbox
  = (Raises Examples.permission_denied,
     Process
       [ "Reading configuration from in.json..." +:+ nl;
         "Validating configuration..." +:+ nl;
         (nl +:+ "Configuration warnings:") +:+ nl;
         "  WARNING: mysql[0].credentials: Using plain text password is not recommended"
           +:+ nl;
         "Transforming configuration..." +:+ nl;
         "Writing transformed configuration to out.yml..." +:+ nl ]
       [] (files Examples.inbox) []).
Proof. vm_compute. reflexivity. Qed.

(** X7: when the input cannot be loaded (the file is missing, or the JSON or
    YAML reader raises), [process_file] raises that same exception after
    the line that announces the reading: nothing is validated, fetched or
    written. *)
Theorem unreadable_input_stops_transformation (R : runtime) (W : world)
    (default_mode : Z) (input_file output_file : string) (e : exn) (s : process) :
  fst (Transform.load_config R W input_file s) = Raises e ->
  Transform.process_file R W default_mode input_file output_file s
  = (Raises e,
     Process (stdout s ++ [("Reading configuration from " +:+ input_file +:+ "...") +:+ nl])
       (stderr s) (files s) (calls s)).
Proof.
  unfold Transform.process_file, Transform.load_config.
  unfold bind at 1. unfold print at 1, modify at 1.
  unfold bind at 1, bind at 1, bind at 1. unfold read_file, bind, get_state.
  cbn [files]. destruct (files s !! input_file) as [f|]; unfold ret, raise.
  - destruct (ends_with input_file ".json"); unfold lift; cbn [fst];
      intros ->; reflexivity.
  - cbn [fst]. intros [= <-]. reflexivity.
Qed.

Lemma unreadable_input_stops_transformation_witness :
  Transform.process_file Examples.runtime0 Examples.offline 420 "in.json" "out.yml"
    Examples.idle
  = (Raises (Exn FileNotFoundError "[Errno 2] No such file or directory: 'in.json'"),
     Process ["Reading configuration from in.json..." +:+ nl] [] ∅ []).
Proof.
  apply (unreadable_input_stops_transformation Examples.runtime0 Examples.offline
           420 "in.json" "out.yml" (Exn FileNotFoundError "[Errno 2] No such file or directory: 'in.json'") Examples.idle).
  reflexivity.
Defined.


(** ** More on the probes *)

Lemma postgres_probe_eq (R : runtime) (W : world) (db : value) (s : Probe.session) :
  Probe.postgres_probe R W db s
  = match Probe.postgres_arguments db with
    | Raises e => (Raises e, s)
    | Returns args =>
        match postgres_connect W args with
        | Raises e => (Raises e, called [Connect "postgresql" args] s)
        | Returns cur =>
            Probe.postgres_session R db cur (called [Connect "postgresql" args] s)
        end
    end.
Proof.
  unfold Probe.postgres_probe. rewrite bind_lift.
  destruct (Probe.postgres_arguments db) as [args|e]; [|reflexivity].
  unfold bind at 1. cbn -[Probe.postgres_session bind].
  rewrite bind_lift. reflexivity.
Qed.

(** X8: when the connection opens, the version query and the grants query
    answer, every one of [SELECT], [PROCESS] and [REPLICATION CLIENT] occurs
    in the grants (whatever the case of the letters) and the query on
    [performance_schema.setup_consumers] answers, the MySQL probe returns
    [true] with "Connected successfully (MySQL <version>)"; it has made the
    connection and the three queries, in that order. *)
Theorem mysql_probe_succeeds (R : runtime) (W : world) (db : value)
    (s : Probe.session) (args : dict) (cur : cursor)
    (vrows rows consumers : list (list value)) (version : value)
    (column : list value) (grants : list string) :
  Probe.mysql_arguments db = Returns args ->
  mysql_connect W args = Returns cur ->
  cur "SELECT VERSION()" [] = Returns vrows ->
  Probe.fetchone_0 vrows = Returns version ->
  cur "SHOW GRANTS FOR CURRENT_USER()" [] = Returns rows ->
  Probe.first_column rows = Returns column ->
  all_strings column = Some grants ->
  forallb (fun perm => occurs_ignoring_case perm (join " " grants))
    ["SELECT"; "PROCESS"; "REPLICATION CLIENT"] = true ->
  cur "SELECT COUNT(*) FROM performance_schema.setup_consumers" [] = Returns consumers ->
  Probe.test_mysql_connection R W db s
  = (Returns (true, "Connected successfully (MySQL " +:+ py_str R version +:+ ")"),
     called [Connect "mysql" args; version_query; grants_query; consumers_query] s).
Proof.
  intros Hargs Hcon Hv Hversion Hg Hcol Hstr Hall Hc.
  assert (Hm : Probe.missing_permissions R grants = []).
  { cbn [forallb] in Hall.
    apply andb_prop in Hall as [H1 Hall]. apply andb_prop in Hall as [H2 Hall].
    apply andb_prop in Hall as [H3 _].
    unfold Probe.missing_permissions, Probe.required_permissions, upper.
    cbn [List.filter].
    rewrite !(occurs_in_upper R) by (reflexivity || assumption). reflexivity. }
  unfold Probe.test_mysql_connection.
  rewrite try_except_classify, (mysql_probe_eq R W), Hargs, Hcon, (mysql_session_eq R),
    Hv, Hversion, Hg, Hcol.
  cbn [rbind]. unfold Probe.strings_of. rewrite Hstr, Hm, Hc, !called_called.
  reflexivity.
Qed.

Lemma mysql_probe_succeeds_witness :
  Probe.test_mysql_connection Examples.runtime0
    (Examples.welcoming Examples.all_grants)
    (VDict (Examples.probed_entry "hunter2")) Examples.desk
  = (Returns (true, "Connected successfully (MySQL 8.0.36)"),
     called [Connect "mysql" (Examples.probed_arguments "hunter2");
             version_query; grants_query; consumers_query] Examples.desk).
Proof.
  apply (mysql_probe_succeeds Examples.runtime0
           (Examples.welcoming Examples.all_grants)
           (VDict (Examples.probed_entry "hunter2")) Examples.desk
           (Examples.probed_arguments "hunter2")
           (Examples.granting Examples.all_grants)
           [[VStr "8.0.36"]]
           [[VStr "GRANT SELECT, PROCESS, REPLICATION CLIENT ON *.* TO `newrelic`@`%`"]]
           [[VInt 6]] (VStr "8.0.36")
           [VStr "GRANT SELECT, PROCESS, REPLICATION CLIENT ON *.* TO `newrelic`@`%`"]
           Examples.all_grants);
    reflexivity.
Defined.

(** X9: when the connection opens and the user has neither of the roles
    [pg_monitor] and [pg_read_all_stats] nor the right to read
    [pg_stat_database], the PostgreSQL probe returns [false] with
    "Missing pg_monitor role or equivalent permissions"; it stops there: the
    query on [pg_extension] is not made and no warning is recorded. *)
Theorem postgres_probe_requires_monitoring_rights (R : runtime) (W : world)
    (db : value) (s : Probe.session) (args : dict) (cur : cursor)
    (vrows rrows prows : list (list value)) (version user role privilege : value) :
  Probe.postgres_arguments db = Returns args ->
  postgres_connect W args = Returns cur ->
  cur "SELECT version()" [] = Returns vrows ->
  Probe.fetchone_0 vrows = Returns version ->
  subscript db "user" = Returns user ->
  cur Probe.monitor_role_query [user; user] = Returns rrows ->
  Probe.fetchone_0 rrows = Returns role ->
  truthy role = false ->
  cur Probe.table_privilege_query [user] = Returns prows ->
  Probe.fetchone_0 prows = Returns privilege ->
  truthy privilege = false ->
  Probe.test_postgresql_connection R W db s
  = (Returns (false, "Missing pg_monitor role or equivalent permissions"),
     called [ Connect "postgresql" args;
              Execute "postgresql" "SELECT version()" [];
              Execute "postgresql" Probe.monitor_role_query [user; user];
              Execute "postgresql" Probe.table_privilege_query [user] ] s).
Proof.
  intros Hargs Hcon Hv Hversion Huser Hr Hrole Hno Hp Hpriv Hnone.
  unfold Probe.test_postgresql_connection.
  rewrite try_except_classify, postgres_probe_eq, Hargs, Hcon.
  unfold Probe.postgres_session.
  rewrite bind_execute, Hv. cbv beta iota. rewrite bind_lift, Hversion. cbv beta iota.
  rewrite bind_lift, Huser. cbv beta iota. rewrite bind_lift. cbv beta iota.
  rewrite bind_execute, Hr, called_called. cbv beta iota.
  rewrite bind_lift, Hrole, Hno. cbn [negb]. cbv beta iota.
  unfold bind at 1. rewrite bind_lift. cbv beta iota.
  rewrite bind_execute, Hp, called_called. cbv beta iota.
  rewrite bind_lift, Hpriv, Hnone. cbn [negb]. rewrite ?called_called. reflexivity.
Qed.

Lemma postgres_probe_requires_monitoring_rights_witness :
  Probe.test_postgresql_connection Examples.runtime0
    (Examples.postgres_world false false 1)
    (VDict (Examples.probed_entry "hunter2")) Examples.desk
  = (Returns (false, "Missing pg_monitor role or equivalent permissions"),
     called [ Connect "postgresql" (Examples.postgres_arguments "hunter2");
              Execute "postgresql" "SELECT version()" [];
              Execute "postgresql" Probe.monitor_role_query
                [VStr "newrelic"; VStr "newrelic"];
              Execute "postgresql" Probe.table_privilege_query [VStr "newrelic"] ]
       Examples.desk).
Proof.
  apply (postgres_probe_requires_monitoring_rights Examples.runtime0
           (Examples.postgres_world false false 1)
           (VDict (Examples.probed_entry "hunter2")) Examples.desk
           (Examples.postgres_arguments "hunter2")
           (Examples.postgres_server false false 1)
           [[VStr "PostgreSQL 15.4"]] [[VBool false]] [[VBool false]]
           (VStr "PostgreSQL 15.4") (VStr "newrelic") (VBool false) (VBool false));
    reflexivity.
Defined.

(** X10: when the connection opens and the user has a monitoring role, the
    PostgreSQL probe returns [true] with "Connected successfully
    (PostgreSQL)" whether or not [pg_stat_statements] is installed; when the
    count of that extension is not positive it records the warning
    "<name>: pg_stat_statements extension not installed (query monitoring
    limited)", and no error. The right to read [pg_stat_database] is not
    asked for. *)
Theorem postgres_probe_warns_without_statements (R : runtime) (W : world)
    (db : value) (s : Probe.session) (args : dict) (cur : cursor)
    (vrows rrows erows : list (list value))
    (version user role installed host : value) (present : bool) :
  Probe.postgres_arguments db = Returns args ->
  postgres_connect W args = Returns cur ->
  cur "SELECT version()" [] = Returns vrows ->
  Probe.fetchone_0 vrows = Returns version ->
  subscript db "user" = Returns user ->
  subscript db "host" = Returns host ->
  cur Probe.monitor_role_query [user; user] = Returns rrows ->
  Probe.fetchone_0 rrows = Returns role ->
  truthy role = true ->
  cur Probe.extension_query [] = Returns erows ->
  Probe.fetchone_0 erows = Returns installed ->
  Probe.positive installed = Returns present ->
  Probe.test_postgresql_connection R W db s
  = (Returns (true, "Connected successfully (PostgreSQL)"),
     called [ Connect "postgresql" args;
              Execute "postgresql" "SELECT version()" [];
              Execute "postgresql" Probe.monitor_role_query [user; user];
              Execute "postgresql" Probe.extension_query [] ]
       (Probe.Session (Probe.errors s)
          (Probe.warnings s
             ++ (if present then []
                 else [entry_name R db +:+ ": "
                         +:+ "pg_stat_statements extension not installed (query monitoring limited)"]))
          (Probe.io s))).
Proof.
  intros Hargs Hcon Hv Hversion Huser Hhost Hr Hrole Hyes He Hinst Hpos.
  unfold Probe.test_postgresql_connection.
  rewrite try_except_classify, postgres_probe_eq, Hargs, Hcon.
  unfold Probe.postgres_session.
  rewrite bind_execute, Hv. cbv beta iota. rewrite bind_lift, Hversion. cbv beta iota.
  rewrite bind_lift, Huser. cbv beta iota. rewrite bind_lift. cbv beta iota.
  rewrite bind_execute, Hr, called_called. cbv beta iota.
  rewrite bind_lift, Hrole, Hyes. cbn [negb]. cbv beta iota.
  unfold bind at 1. unfold ret at 1.
  rewrite bind_execute, He, called_called. cbv beta iota.
  rewrite bind_lift, Hinst. cbv beta iota. rewrite bind_lift, Hpos. cbv beta iota.
  destruct db as [| | | | | |d]; try discriminate Hhost.
  assert (Hname : entry_name R (VDict d) = py_str R (dict_get d "service_name" host)).
  { unfold entry_name, Probe.display_name, get. cbn [rbind]. rewrite Hhost. reflexivity. }
  destruct present; cbn [negb].
  - unfold bind at 1. unfold ret. rewrite app_nil_r, ?called_called.
    destruct s. reflexivity.
  - unfold bind at 1. rewrite bind_lift, Hhost. cbv beta iota.
    rewrite bind_lift. cbn [get]. rewrite Hname, ?called_called. reflexivity.
Qed.

Lemma postgres_probe_warns_without_statements_witness :
  Probe.test_postgresql_connection Examples.runtime0
    (Examples.postgres_world true false 0)
    (VDict (Examples.probed_entry "hunter2")) Examples.desk
  = (Returns (true, "Connected successfully (PostgreSQL)"),
     called [ Connect "postgresql" (Examples.postgres_arguments "hunter2");
              Execute "postgresql" "SELECT version()" [];
              Execute "postgresql" Probe.monitor_role_query
                [VStr "newrelic"; VStr "newrelic"];
              Execute "postgresql" Probe.extension_query [] ]
       (Probe.Session []
          ["orders: pg_stat_statements extension not installed (query monitoring limited)"]
          (Probe.io Examples.desk))).
Proof.
  apply (postgres_probe_warns_without_statements Examples.runtime0
           (Examples.postgres_world true false 0)
           (VDict (Examples.probed_entry "hunter2")) Examples.desk
           (Examples.postgres_arguments "hunter2")
           (Examples.postgres_server true false 0)
           [[VStr "PostgreSQL 15.4"]] [[VBool true]] [[VInt 0]]
           (VStr "PostgreSQL 15.4") (VStr "newrelic") (VBool true) (VInt 0)
           (VStr "db.internal") false);
    reflexivity.
Defined.

(** ** The verdict of the probe script *)

Ltac verdict_branch :=
  unfold bind at 1;
  match goal with
  | Hprobe : probes _ _ ?t |- context [?t ?x ?st] =>
      destruct (Hprobe x st) as (ok & message & s' & Hrun & He & Hc);
      rewrite Hrun; destruct ok;
      do 3 eexists; (split; [reflexivity|]); cbn; rewrite He; cbn;
      (split; [first [reflexivity | symmetry; apply app_nil_r]|]);
      first [ split; [intros ->; split; reflexivity | intros [? _]; assumption]
            | split; [discriminate | intros [_ ?]; discriminate] ]
  end.

Lemma check_database_verdict (R : runtime) (engine : string)
    (arguments : value -> result dict)
    (test_connection : value -> Probe.C (bool * string))
    (all_valid : bool) (db : value) (s : Probe.session) :
  probes engine arguments test_connection ->
  probe_ready db = true ->
  exists v s' es,
    Probe.check_database R test_connection all_valid db s = (Returns v, s')
    /\ Probe.errors s' = Probe.errors s ++ es
    /\ (v = true <-> all_valid = true /\ es = []).
Proof.
  intros Hprobe Hready. destruct db as [| | | | |?|d]; try discriminate.
  cbn [probe_ready] in Hready. apply andb_prop in Hready as [Hhost Hpassword].
  destruct (dict_lookup d "host") as [host|] eqn:Hh; [clear Hhost|discriminate].
  assert (Hname : Probe.display_name (VDict d)
                  = Returns (dict_get d "service_name" host)).
  { unfold Probe.display_name, get, subscript. rewrite Hh. reflexivity. }
  unfold Probe.check_database. rewrite bind_lift, Hname.
  unfold bind at 1. cbn -[bind]. rewrite bind_lift.
  unfold get, dict_get.
  destruct (dict_lookup d "password") as [[| | | |p| |]|]; try discriminate;
    rewrite bind_lift; cbn [contains].
  - destruct (is_substring "ERROR" p) eqn:Hp.
    + cbv beta iota. do 3 eexists. split; [reflexivity|]. cbn.
      split; [reflexivity|]. split; [discriminate|intros [_ ?]; discriminate].
    + cbv beta iota. verdict_branch.
  - cbn [is_substring String.prefix orb]. cbv beta iota. verdict_branch.
Qed.

Lemma check_loop_verdict (R : runtime) (engine : string)
    (arguments : value -> result dict)
    (test_connection : value -> Probe.C (bool * string)) (dbs : list value) :
  probes engine arguments test_connection ->
  forallb probe_ready dbs = true ->
  forall (all_valid : bool) (s : Probe.session),
  exists v s' es,
    for_fold dbs all_valid (Probe.check_database R test_connection) s = (Returns v, s')
    /\ Probe.errors s' = Probe.errors s ++ es
    /\ (v = true <-> all_valid = true /\ es = []).
Proof.
  intros Hprobe. induction dbs as [|db dbs IH]; intros Hready all_valid s.
  - exists all_valid, s, []. split; [reflexivity|].
    split; [symmetry; apply app_nil_r|]. tauto.
  - cbn [forallb] in Hready. apply andb_prop in Hready as [Hdb Hdbs].
    destruct (check_database_verdict R engine arguments test_connection all_valid db s
                Hprobe Hdb) as (v1 & s1 & es1 & Hrun1 & He1 & Hv1).
    destruct (IH Hdbs v1 s1) as (v & s' & es & Hrun & He & Hv).
    exists v, s', (es1 ++ es). rewrite for_fold_cons. unfold bind. rewrite Hrun1.
    split; [exact Hrun|]. split; [rewrite He, He1; symmetry; apply app_assoc|].
    rewrite Hv, Hv1. split.
    + intros [[-> ->] ->]. auto.
    + intros [-> H]. apply app_eq_nil in H as [-> ->]. auto.
Qed.

Lemma check_databases_verdict (R : runtime) (label engine : string)
    (arguments : value -> result dict)
    (test_connection : value -> Probe.C (bool * string)) (dbs : list value)
    (all_valid : bool) (s : Probe.session) :
  probes engine arguments test_connection ->
  forallb probe_ready dbs = true ->
  exists v s' es,
    Probe.check_databases R label test_connection (VList dbs) all_valid s
    = (Returns v, s')
    /\ Probe.errors s' = Probe.errors s ++ es
    /\ (v = true <-> all_valid = true /\ es = []).
Proof.
  intros Hprobe Hready. unfold Probe.check_databases.
  destruct dbs as [|db dbs].
  - exists all_valid, s, []. split; [reflexivity|].
    split; [symmetry; apply app_nil_r|]. tauto.
  - cbn [truthy]. rewrite bind_lift. cbn [len]. unfold bind at 1. cbn -[bind for_fold].
    rewrite bind_lift.
    match goal with
    | |- context [for_fold _ _ _ ?st] =>
        destruct (check_loop_verdict R engine arguments test_connection (db :: dbs)
                    Hprobe Hready all_valid st)
          as (v & s' & es & Hrun & He & Hv)
    end.
    exists v, s', es. split; [exact Hrun|]. auto.
Qed.

Lemma validate_credentials_verdict (R : runtime) (W : world) (file : string)
    (config : dict) (s : Probe.session) :
  fst (Probe.load_config R W file s) = Returns (VDict config) ->
  probe_ready_config config = true ->
  exists all_valid s' recorded,
    Probe.validate_credentials R W file s = (Returns all_valid, s')
    /\ Probe.errors s' = Probe.errors s ++ recorded
    /\ (all_valid = true <-> recorded = [])
    /\ (let nr_key := dict_get config "newrelic_license_key" (VStr "") in
        negb (truthy nr_key) || py_eq nr_key (VStr "YOUR_LICENSE_KEY") = true ->
        In "New Relic license key not configured" recorded).
Proof.
  intros Hload Hready. unfold probe_ready_config in Hready.
  apply andb_prop in Hready as [Hmysql Hpostgres].
  destruct (dict_get config "mysql_databases" (VList [])) as [| | | | |mysql|] eqn:Hm;
    try discriminate.
  destruct (dict_get config "postgresql_databases" (VList []))
    as [| | | | |postgres|] eqn:Hp; try discriminate.
  cbn [probe_ready_databases] in Hmysql, Hpostgres.
  unfold Probe.validate_credentials.
  unfold bind at 1. cbn -[bind Probe.load_config try_except].
  unfold bind at 1. unfold try_except, bind at 1.
  rewrite load_config_printed, Hload. cbn -[bind].
  rewrite bind_lift. cbn [get].
  set (nr_key := dict_get config "newrelic_license_key" (VStr "")).
  unfold bind at 1.
  match goal with
  | |- context [(if ?c then _ else _) ?st] =>
      assert (Hkey : exists v0 s0 es0,
                 (if c then
                    Probe.append_error "New Relic license key not configured" ;;;
                    ret false
                  else
                    Probe.in_process (print "✓ New Relic license key configured") ;;;
                    ret true) st = (Returns v0, s0)
                 /\ Probe.errors s0 = Probe.errors s ++ es0
                 /\ (v0 = true <-> es0 = [])
                 /\ (c = true -> In "New Relic license key not configured" es0))
  end.
  { destruct (negb (truthy nr_key) || py_eq nr_key (VStr "YOUR_LICENSE_KEY")).
    - do 3 eexists. split; [reflexivity|]. split; [reflexivity|].
      split; [split; discriminate|]. intros _. left. reflexivity.
    - exists true, (Probe.Session (Probe.errors s) (Probe.warnings s)
                      (Process
                         ((stdout (Probe.io s) ++ ["Loading configuration..." +:+ nl])
                            ++ ["✓ New Relic license key configured" +:+ nl])
                         (stderr (Probe.io s)) (files (Probe.io s))
                         (calls (Probe.io s)))), [].
      split; [reflexivity|]. split; [symmetry; apply app_nil_r|].
      split; [tauto | discriminate]. }
  destruct Hkey as (v0 & s0 & es0 & Hrun0 & He0 & Hv0 & Hk0). rewrite Hrun0.
  rewrite bind_lift. cbn [get]. rewrite Hm.
  destruct (check_databases_verdict R "MySQL" "mysql" Probe.mysql_arguments
              (Probe.test_mysql_connection R W) mysql v0 s0
              (test_mysql_connection_probes R W) Hmysql)
    as (v1 & s1 & es1 & Hrun1 & He1 & Hv1).
  unfold bind at 1. rewrite Hrun1. rewrite bind_lift. cbn [get]. rewrite Hp.
  destruct (check_databases_verdict R "PostgreSQL" "postgresql" Probe.postgres_arguments
              (Probe.test_postgresql_connection R W) postgres v1 s1
              (test_postgresql_connection_probes R W) Hpostgres)
    as (v2 & s2 & es2 & Hrun2 & He2 & Hv2).
  unfold bind at 1. rewrite Hrun2. exists v2, s2, ((es0 ++ es1) ++ es2).
  split; [reflexivity|]. split; [|split].
  - rewrite He2, He1, He0. rewrite <- !app_assoc. reflexivity.
  - rewrite Hv2, Hv1, Hv0. split.
    + intros [[-> ->] ->]. reflexivity.
    + intros H. apply app_eq_nil in H as [H ->]. apply app_eq_nil in H as [-> ->].
      auto.
  - cbv zeta. intros Hkey. apply in_or_app. left. apply in_or_app. left.
    apply Hk0. exact Hkey.
Qed.

(** X11: when the configuration loads as a dict whose entries are dicts with
    a [host] and a string [password], [validate_credentials] returns, it
    only appends to the recorded errors, and it returns [true] exactly when
    it has appended none: every failed check (the licence key, an
    unresolved credential, a failed probe) both records an error and makes
    the result [false]. *)
Theorem success_means_no_error (R : runtime) (W : world) (file : string)
    (config : dict) (s : Probe.session) :
  fst (Probe.load_config R W file s) = Returns (VDict config) ->
  probe_ready_config config = true ->
  exists all_valid s' recorded,
    Probe.validate_credentials R W file s = (Returns all_valid, s')
    /\ Probe.errors s' = Probe.errors s ++ recorded
    /\ (all_valid = true <-> recorded = []).
Proof.
  intros Hload Hready.
  destruct (validate_credentials_verdict R W file config s Hload Hready)
    as (all_valid & s' & recorded & Hrun & He & Hv & _).
  exists all_valid, s', recorded. auto.
Qed.

Lemma success_means_no_error_witness :
  exists all_valid s' recorded,
    Probe.validate_credentials
      (Examples.reading (VDict (Examples.probed_config "hunter2")))
      (Examples.welcoming Examples.all_grants) "flat.yml" Examples.desk
    = (Returns all_valid, s')
    /\ Probe.errors s' = Probe.errors Examples.desk ++ recorded
    /\ (all_valid = true <-> recorded = []).
Proof.
  apply (success_means_no_error
           (Examples.reading (VDict (Examples.probed_config "hunter2")))
           (Examples.welcoming Examples.all_grants) "flat.yml"
           (Examples.probed_config "hunter2") Examples.desk);
    reflexivity.
Defined.



Lemma session_files_ret {A} (a : A) : keeps_session_files (ret a : Probe.C A).
Proof. intros s. reflexivity. Qed.

Lemma session_files_lift {A} (r : result A) : keeps_session_files (lift r : Probe.C A).
Proof. intros s. reflexivity. Qed.

Lemma session_files_bind {A B} (m : Probe.C A) (k : A -> Probe.C B) :
  keeps_session_files m -> (forall a, keeps_session_files (k a)) ->
  keeps_session_files (bind m k).
Proof.
  intros Hm Hk s. unfold bind. specialize (Hm s).
  destruct (m s) as [[a|e] s1]; cbn [snd] in Hm; [|exact Hm].
  rewrite Hk. exact Hm.
Qed.

Lemma session_files_try {A} (m : Probe.C A) (h : exn -> Probe.C A) :
  keeps_session_files m -> (forall e, keeps_session_files (h e)) ->
  keeps_session_files (try_except m h).
Proof.
  intros Hm Hh s. unfold try_except. specialize (Hm s).
  destruct (m s) as [[a|e] s1]; cbn [snd] in Hm; [exact Hm|].
  rewrite Hh. exact Hm.
Qed.

Lemma session_files_in_process {A} (m : M process A) :
  keeps_files m -> keeps_session_files (Probe.in_process m).
Proof.
  intros Hm s. unfold Probe.in_process. specialize (Hm (Probe.io s)).
  destruct (m (Probe.io s)) as [r p]. exact Hm.
Qed.

Lemma session_files_for_fold {A B} (l : list A) (body : B -> A -> Probe.C B) :
  (forall acc x, keeps_session_files (body acc x)) ->
  forall acc, keeps_session_files (for_fold l acc body).
Proof.
  intros Hbody. induction l as [|x l IH]; intros acc; cbn [for_fold].
  - apply session_files_ret.
  - apply session_files_bind; [apply Hbody | intros acc'; apply IH].
Qed.

Lemma session_files_for_each {A} (l : list A) (body : A -> Probe.C unit) :
  (forall x, keeps_session_files (body x)) ->
  keeps_session_files (for_each l body).
Proof.
  intros Hbody. induction l as [|x l IH]; cbn [for_each].
  - apply session_files_ret.
  - apply session_files_bind; [apply Hbody | intros _; apply IH].
Qed.

Lemma keeps_files_record_call (c : call) : keeps_files (record_call c).
Proof. intros s. reflexivity. Qed.

Lemma keeps_files_print_end (text e : string) : keeps_files (print_end text e).
Proof. intros s. reflexivity. Qed.

Lemma keeps_files_read_file (R : runtime) (W : world) (path : string) :
  keeps_files (read_file R W path).
Proof.
  intros s. unfold read_file, bind, get_state. destruct (files s !! path); reflexivity.
Qed.

Lemma session_files_error (msg : string) : keeps_session_files (Probe.append_error msg).
Proof. intros s. reflexivity. Qed.

Lemma session_files_warning (msg : string) :
  keeps_session_files (Probe.append_warning msg).
Proof. intros s. reflexivity. Qed.

Lemma session_files_get_state : keeps_session_files (get_state : Probe.C Probe.session).
Proof. intros s. reflexivity. Qed.

Ltac session_files_step :=
  first
    [ apply session_files_ret | apply session_files_lift
    | apply session_files_error | apply session_files_warning
    | apply session_files_get_state
    | apply session_files_in_process;
      first [ apply keeps_files_print | apply keeps_files_record_call
            | apply keeps_files_print_end | apply keeps_files_read_file ]
    | apply session_files_for_fold; intros ? ?
    | apply session_files_for_each; intros ?
    | apply session_files_try; [|intros ?]
    | apply session_files_bind; [|intros ?]
    | match goal with
      | |- keeps_session_files (if ?c then _ else _) => destruct c
      | |- keeps_session_files (match ?x with _ => _ end) => destruct x
      end ].

Lemma test_mysql_connection_keeps_files (R : runtime) (W : world) (db : value) :
  keeps_session_files (Probe.test_mysql_connection R W db).
Proof.
  unfold Probe.test_mysql_connection, Probe.mysql_probe, Probe.mysql_session,
    Probe.classify, Probe.execute.
  repeat session_files_step.
Qed.

Lemma test_postgresql_connection_keeps_files (R : runtime) (W : world) (db : value) :
  keeps_session_files (Probe.test_postgresql_connection R W db).
Proof.
  unfold Probe.test_postgresql_connection, Probe.postgres_probe, Probe.postgres_session,
    Probe.classify, Probe.execute.
  repeat session_files_step.
Qed.

Lemma validate_credentials_keeps_files (R : runtime) (W : world) (file : string) :
  keeps_session_files (Probe.validate_credentials R W file).
Proof.
  unfold Probe.validate_credentials, Probe.check_databases, Probe.check_database,
    Probe.load_config.
  repeat first
    [ apply test_mysql_connection_keeps_files
    | apply test_postgresql_connection_keeps_files
    | session_files_step ].
Qed.

(** X13: whatever the configuration and the world, and whether it returns
    or raises, [validate_credentials] leaves every file as it was: it reads
    the configuration and writes nothing. *)
Theorem validation_never_touches_files (R : runtime) (W : world) (file : string)
    (s : Probe.session) :
  files (Probe.io (snd (Probe.validate_credentials R W file s))) = files (Probe.io s).
Proof. apply validate_credentials_keeps_files. Qed.

Lemma printed_printed (a b : list string) (s : Probe.session) :
  printed b (printed a s) = printed (a ++ b) s.
Proof. unfold printed. cbn. rewrite map_app, <- app_assoc. reflexivity. Qed.

Lemma bind_print {B} (text : string) (k : unit -> Probe.C B) (s : Probe.session) :
  bind (Probe.in_process (print text)) k s = k tt (printed [text] s).
Proof. reflexivity. Qed.


Lemma load_config_after_print (R : runtime) (W : world) (file : string)
    (lines : list string) (s : Probe.session) :
  fst (Probe.load_config R W file (printed lines s)) = fst (Probe.load_config R W file s).
Proof. rewrite !load_config_eq. reflexivity. Qed.




Lemma validate_credentials_unreadable (R : runtime) (W : world)
    (file : string) (e : exn) (s : Probe.session) :
  fst (Probe.load_config R W file s) = Raises e ->
  Probe.validate_credentials R W file s
  = (Returns false,
     printed [ "Loading configuration...";
               "ERROR: Failed to load configuration: " +:+ exn_text e ] s).
Proof.
  intros Hload. unfold Probe.validate_credentials.
  unfold bind at 1. cbn -[bind Probe.load_config try_except].
  unfold bind at 1. unfold try_except, bind at 1.
  rewrite load_config_printed, Hload. cbn -[bind].
  unfold bind, ret, Probe.in_process, print, modify, printed. cbn.
  rewrite <- app_assoc. reflexivity.
Qed.

(** X14: when the configuration cannot be loaded, [validate_credentials]
    returns [false] after printing "ERROR: Failed to load configuration: "
    followed by the text of the exception; it records no error and no
    warning, and makes no call. *)
Theorem unreadable_configuration_is_not_probed (R : runtime) (W : world)
    (file : string) (e : exn) (s : Probe.session) :
  fst (Probe.load_config R W file s) = Raises e ->
  Probe.validate_credentials R W file s
  = (Returns false,
     Probe.Session (Probe.errors s) (Probe.warnings s)
       (Process
          (stdout (Probe.io s)
             ++ [ "Loading configuration..." +:+ nl;
                  ("ERROR: Failed to load configuration: " +:+ exn_text e) +:+ nl ])
          (stderr (Probe.io s)) (files (Probe.io s)) (calls (Probe.io s)))).
Proof. apply validate_credentials_unreadable. Qed.

Lemma unreadable_configuration_is_not_probed_witness :
  Probe.validate_credentials Examples.runtime0 Examples.offline "flat.yml"
    Examples.bare
  = (Returns false,
     Probe.Session [] []
       (Process [ "Loading configuration..." +:+ nl;
                  "ERROR: Failed to load configuration: [Errno 2] No such file or directory: 'flat.yml'" +:+ nl ]
          [] ∅ [])).
Proof.
  apply (unreadable_configuration_is_not_probed Examples.runtime0 Examples.offline
           "flat.yml" (Exn FileNotFoundError "[Errno 2] No such file or directory: 'flat.yml'") Examples.bare).
  reflexivity.
Defined.

(** X16: when the configuration cannot be loaded, a fresh validator's [run]
    returns 1, and yet, no error having been recorded, the last line of its
    summary is "✓ All credentials validated successfully!"; with or without
    [--fix] it writes no file. *)
Theorem unreadable_configuration_ends_in_success_line (R : runtime) (W : world)
    (now : string) (default_mode : Z) (file : string) (fix_errors : bool)
    (e : exn) (s : Probe.session) :
  fst (Probe.load_config R W file s) = Raises e ->
  Probe.errors s = [] ->
  Probe.warnings s = [] ->
  Probe.run R W now default_mode file fix_errors s
  = (Returns 1,
     printed [ Probe.rule; "Database Credential Validation"; Probe.rule;
               "Loading configuration...";
               "ERROR: Failed to load configuration: " +:+ exn_text e;
               nl +:+ Probe.rule; "VALIDATION SUMMARY"; Probe.rule;
               nl +:+ "✓ All credentials validated successfully!" ] s).
Proof.
  intros Hload Herrors Hwarnings. unfold Probe.run.
  rewrite !bind_print, !printed_printed. unfold bind at 1.
  rewrite (validate_credentials_unreadable R W file e)
    by (rewrite load_config_after_print; exact Hload).
  rewrite !bind_print, !printed_printed. unfold bind at 1, get_state at 1.
  cbn [printed Probe.errors Probe.warnings]. rewrite Herrors, Hwarnings.
  unfold bind at 1, ret at 1. rewrite bind_print, printed_printed.
  unfold ret. cbn [printed Probe.errors Probe.warnings Probe.io stdout stderr files calls].
  unfold printed. cbn [app map]. rewrite <- ?app_assoc. reflexivity.
Qed.

Lemma unreadable_configuration_ends_in_success_line_witness :
  Probe.run Examples.runtime0 Examples.offline "2024-05-01T12:00:00" 420 "flat.yml"
    true Examples.bare
  = (Returns 1,
     printed [ Probe.rule; "Database Credential Validation"; Probe.rule;
               "Loading configuration...";
               "ERROR: Failed to load configuration: [Errno 2] No such file or directory: 'flat.yml'";
               nl +:+ Probe.rule; "VALIDATION SUMMARY"; Probe.rule;
               nl +:+ "✓ All credentials validated successfully!" ] Examples.bare).
Proof.
  apply (unreadable_configuration_ends_in_success_line Examples.runtime0
           Examples.offline "2024-05-01T12:00:00" 420 "flat.yml" true
           (Exn FileNotFoundError "[Errno 2] No such file or directory: 'flat.yml'") Examples.bare);
    reflexivity.
Defined.


(** ** The fix script *)

Lemma lacks_append (c : ascii) (a b : string) :
  lacks c (a +:+ b) = lacks c a && lacks c b.
Proof.
  induction a as [|x a IH]; [reflexivity|].
  change (String x a +:+ b) with (String x (a +:+ b)). cbn [lacks].
  rewrite IH, andb_assoc. reflexivity.
Qed.

Lemma split_from_lacks (c : ascii) (sep : string) (s : string) :
  lacks c s = true ->
  forall skip piece, lacks c piece = true ->
  forallb (lacks c) (split_from sep skip piece s) = true.
Proof.
  induction s as [|x s IH]; intros Hs skip piece Hpiece.
  - cbn. rewrite Hpiece. reflexivity.
  - cbn [lacks] in Hs. apply andb_prop in Hs as [Hx Hs]. cbn [split_from].
    destruct skip as [|k]; [|apply IH; assumption].
    destruct (String.prefix sep (String x s)).
    + cbn [forallb]. rewrite Hpiece. apply IH; [assumption|reflexivity].
    + apply IH; [assumption|]. rewrite lacks_append, Hpiece. cbn. rewrite Hx. reflexivity.
Qed.

Lemma db_name_of_lacks (c : ascii) (error : string) :
  lacks c error = true -> lacks c (Probe.db_name_of error) = true.
Proof.
  intros H. unfold Probe.db_name_of, split.
  pose proof (split_from_lacks c ":" error H 0%nat EmptyString eq_refl) as Hall.
  destruct (split_from ":" 0 EmptyString error) as [|name rest]; [reflexivity|].
  cbn [forallb] in Hall. apply andb_prop in Hall as [Hname _]. exact Hname.
Qed.

(** The lines added for an error are comments or empty, and hold no newline
    when the error holds none. *)
Lemma fixes_for_inert (error : string) (lines : list string) :
  lacks Regex.newline error = true ->
  Probe.fixes_for error = Returns lines ->
  forallb (fun line => inert line && lacks Regex.newline line) lines = true.
Proof.
  intros Herror. unfold Probe.fixes_for.
  pose proof (db_name_of_lacks Regex.newline error Herror) as Hname.
  destruct (is_substring "Credential resolution failed" error).
  { intros [= <-]. cbn [forallb]. rewrite lacks_append, Hname. reflexivity. }
  destruct (is_substring "Missing permissions" error).
  { pose proof (split_from_lacks Regex.newline "Missing permissions: " error Herror
                  0%nat EmptyString eq_refl) as Hall.
    fold (split "Missing permissions: " error) in Hall.
    destruct (split "Missing permissions: " error) as [|p0 [|permissions rest]];
      try discriminate.
    cbn [forallb] in Hall. apply andb_prop in Hall as [_ Hall].
    apply andb_prop in Hall as [Hperm _].
    intros [= <-]. cbn [forallb]. rewrite !lacks_append, Hname, Hperm. reflexivity. }
  destruct (is_substring "Missing pg_monitor role" error).
  { intros [= <-]. cbn [forallb]. rewrite lacks_append, Hname. reflexivity. }
  intros [= <-]. reflexivity.
Qed.

Lemma fixes_of_inert (errors fixes lines : list string) :
  forallb (lacks Regex.newline) errors = true ->
  forallb (fun line => inert line && lacks Regex.newline line) fixes = true ->
  Probe.fixes_of errors fixes = Returns lines ->
  forallb (fun line => inert line && lacks Regex.newline line) lines = true.
Proof.
  revert fixes. induction errors as [|error errors IH]; intros fixes Herrors Hfixes.
  - intros [= <-]. exact Hfixes.
  - cbn [forallb] in Herrors. apply andb_prop in Herrors as [Herror Herrors].
    cbn [Probe.fixes_of]. destruct (Probe.fixes_for error) as [more|e] eqn:Hmore; [|discriminate].
    cbn [rbind]. apply IH; [exact Herrors|].
    rewrite forallb_app, Hfixes. apply (fixes_for_inert error more Herror Hmore).
Qed.

(** Splitting at newlines undoes joining with newlines. *)
Lemma split_line (line rest piece : string) :
  lacks Regex.newline line = true ->
  split_from nl 0 piece (line +:+ rest) = split_from nl 0 (piece +:+ line) rest.
Proof.
  revert piece. induction line as [|x line IH]; intros piece Hline.
  - change (EmptyString +:+ rest) with rest. f_equal.
    clear. induction piece as [|y piece IH]; [reflexivity|].
    change (String y piece +:+ EmptyString) with (String y (piece +:+ EmptyString)).
    rewrite <- IH. reflexivity.
  - cbn [lacks] in Hline. apply andb_prop in Hline as [Hx Hline].
    change (String x line +:+ rest) with (String x (line +:+ rest)).
    cbn [split_from]. change nl with (String Regex.newline EmptyString) at 1. cbn [String.prefix].
    destruct (ascii_dec Regex.newline x) as [E|Hne].
    + rewrite <- E, Ascii.eqb_refl in Hx. discriminate Hx.
    + rewrite IH by exact Hline. f_equal. rewrite append_assoc. reflexivity.
Qed.

Lemma split_newline (piece rest : string) :
  split_from nl 0 piece (String Regex.newline rest)
  = piece :: split_from nl 0 EmptyString rest.
Proof.
  unfold nl. cbn [split_from String.prefix String.length Nat.sub].
  destruct (ascii_dec (ascii_of_nat 10) Regex.newline) as [_|Hne];
    [destruct rest; reflexivity | contradiction Hne; reflexivity].
Qed.

Lemma append_empty (s : string) : s +:+ EmptyString = s.
Proof.
  induction s as [|c s IH]; [reflexivity|].
  change (String c s +:+ EmptyString) with (String c (s +:+ EmptyString)).
  rewrite IH. reflexivity.
Qed.

Lemma split_join (lines : list string) (line : string) :
  forallb (lacks Regex.newline) (line :: lines) = true ->
  split nl (join nl (line :: lines)) = line :: lines.
Proof.
  unfold split. revert line. induction lines as [|next lines IH]; intros line Hall.
  - cbn [forallb] in Hall. apply andb_prop in Hall as [Hline _].
    cbn [join String.concat]. rewrite <- (append_empty line) at 1.
    rewrite split_line by exact Hline. reflexivity.
  - cbn [forallb] in Hall. apply andb_prop in Hall as [Hline Hall].
    change (join nl (line :: next :: lines))
      with (line +:+ String Regex.newline (join nl (next :: lines))).
    rewrite split_line by exact Hline. rewrite split_newline.
    f_equal. apply IH. exact Hall.
Qed.

(** X17: when neither the time stamp nor any recorded error holds a
    newline, every line of the fix script that [generate_fix_script]
    returns is empty or a comment: the names and permissions it takes from
    the errors stay inside comment lines, and the script, if run, does
    nothing. *)
Theorem fix_script_is_inert (now : string) (errors : list string) (script : string) :
  lacks Regex.newline now = true ->
  forallb (lacks Regex.newline) errors = true ->
  Probe.fix_script now errors = Returns script ->
  forallb inert (split nl script) = true.
Proof.
  intros Hnow Herrors. unfold Probe.fix_script.
  destruct (Probe.fixes_of errors _) as [lines|e] eqn:Hlines; [|discriminate].
  cbn [rbind]. intros [= <-].
  apply fixes_of_inert in Hlines; [|exact Herrors|].
  2:{ cbn [forallb]. rewrite lacks_append, Hnow. reflexivity. }
  destruct lines as [|line lines].
  - reflexivity.
  - rewrite split_join.
    + clear -Hlines. induction (line :: lines) as [|l ls IH]; [reflexivity|].
      cbn [forallb] in *. apply andb_prop in Hlines as [Hl Hls].
      apply andb_prop in Hl as [-> _]. apply IH, Hls.
    + clear -Hlines. induction (line :: lines) as [|l ls IH]; [reflexivity|].
      cbn [forallb] in *. apply andb_prop in Hlines as [Hl Hls].
      apply andb_prop in Hl as [_ ->]. apply IH, Hls.
Qed.

Lemma fix_script_is_inert_witness :
  forallb inert
    (split nl
       match Probe.fix_script "2024-05-01T12:00:00"
               [ "orders: Credential resolution failed";
                 "billing: Missing permissions: PROCESS, REPLICATION CLIENT";
                 "events: Missing pg_monitor role or equivalent permissions" ] with
       | Returns script => script
       | Raises _ => EmptyString
       end) = true.
Proof.
  apply (fix_script_is_inert "2024-05-01T12:00:00"
           [ "orders: Credential resolution failed";
             "billing: Missing permissions: PROCESS, REPLICATION CLIENT";
             "events: Missing pg_monitor role or equivalent permissions" ]);
    reflexivity.
Defined.

(** ** Names the validator accepts *)

Section RegexFacts.
Import Regex.

Lemma matches_Void (s : string) : matches Void s = false.
Proof. induction s; [reflexivity | exact IHs]. Qed.

Lemma matches_Eps (s : string) : matches Eps s = String.eqb s EmptyString.
Proof. destruct s; [reflexivity | apply matches_Void]. Qed.

Lemma run_of_matches (p : ascii -> bool) (s : string) :
  p newline = false ->
  matches (Cat (Star (Cls p)) (opt (Cls (Ascii.eqb newline)))) s = run_of p s.
Proof.
  intros Hp. induction s as [|c s IH]; [reflexivity|].
  cbn [matches run_of deriv nullable opt].
  destruct (p c) eqn:N.
  - assert (E : Ascii.eqb newline c = false).
    { destruct (Ascii.eqb newline c) eqn:E; [|reflexivity].
      apply Ascii.eqb_eq in E. subst c. congruence. }
    rewrite E. cbn. exact IH.
  - destruct (Ascii.eqb newline c); cbn; [apply matches_Eps | apply matches_Void].
Qed.

End RegexFacts.

(** X18: [_validate_name] accepts exactly the strings made of a letter or
    digit followed by letters, digits, [_] and [-], with nothing or one
    newline after them (so a name that ends in a newline passes); the empty
    string and a name that begins with [_] or [-] are refused; on a value
    that is not a string it raises [TypeError]. *)
Theorem service_name_shape (v : value) :
  match v with
  | VStr s => Validation._validate_name v = Returns (well_formed_name s)
  | _ => exists e, Validation._validate_name v = Raises e /\ exn_kind e = TypeError
  end.
Proof.
  destruct v as [| | | |s| |]; try (eexists; split; reflexivity).
  unfold Validation._validate_name, Validation.re_match, Regex.re_match_anchored.
  f_equal. destruct s as [|c s]; [reflexivity|].
  cbn [Regex.matches well_formed_name].
  unfold Validation.name_regex. cbn [Regex.deriv Regex.nullable].
  destruct (Regex.is_alnum c); cbn;
    [apply run_of_matches; reflexivity | apply matches_Void].
Qed.

(** X19: [_validate_aws_secret_name] accepts exactly the non-empty strings
    of letters, digits and [/_-+=.@], and [_validate_ssm_parameter_name]
    exactly the strings that begin with [/] and go on with at least one
    letter, digit or [/_-.]; either accepts one newline at the very end. *)
Theorem aws_key_shapes (s : string) :
  Validation._validate_aws_secret_name (VStr s) = Returns (well_formed_secret_name s)
  /\ Validation._validate_ssm_parameter_name (VStr s)
     = Returns (well_formed_parameter_name s).
Proof.
  unfold Validation._validate_aws_secret_name, Validation._validate_ssm_parameter_name,
    Validation.re_match, Regex.re_match_anchored.
  split; f_equal.
  - destruct s as [|c s]; [reflexivity|].
    cbn [Regex.matches well_formed_secret_name].
    unfold Validation.secret_name_regex, Regex.plus. cbn [Regex.deriv Regex.nullable].
    fold (secret_char c).
    destruct (secret_char c); cbn;
      [apply (run_of_matches secret_char); reflexivity | apply matches_Void].
  - destruct s as [|c0 s]; [reflexivity|].
    cbn [Regex.matches]. unfold Validation.ssm_name_regex, Regex.plus.
    change (fun c : ascii => Regex.is_alnum c || Regex.one_of "/_-." c)
      with parameter_char.
    cbn [Regex.deriv Regex.nullable andb].
    destruct (Ascii.eqb "/" c0) eqn:E0.
    + apply Ascii.eqb_eq in E0. subst c0.
      cbn [Regex.cat Regex.alt Regex.is_void Regex.opt orb].
      destruct s as [|c s]; [reflexivity|].
      cbn [Regex.matches Regex.deriv Regex.nullable Regex.cat Regex.alt
           Regex.is_void Regex.opt orb andb well_formed_parameter_name].
      destruct (parameter_char c);
        cbn [Regex.cat Regex.alt Regex.is_void Regex.opt orb andb];
        [apply (run_of_matches parameter_char); reflexivity | apply matches_Void].
    + cbn [Regex.cat Regex.alt Regex.is_void Regex.opt orb]. rewrite matches_Void.
      unfold well_formed_parameter_name.
      destruct c0 as [[] [] [] [] [] [] [] []]; try reflexivity; discriminate E0.
Qed.

(** ** Defects the validator reports *)

Section ReportFacts.
Import Validation.
Variable R : runtime.

Lemma reports_error (msg : string) : reports msg (append_error msg).
Proof.
  intros s. exists tt, [msg], []. cbn. rewrite app_nil_r.
  split; [reflexivity | left; reflexivity].
Qed.

Lemma reports_first {A B} (msg : string) (m : V A) (k : A -> V B) :
  reports msg m -> (forall a, runs any_error (k a)) -> reports msg (bind m k).
Proof.
  intros Hm Hk s. destruct (Hm s) as (a & es & ws & E & Hin).
  destruct (Hk a (Validator (errors s ++ es) (warnings s ++ ws)))
    as (b & es' & ws' & E' & _).
  exists b, (es ++ es'), (ws ++ ws'). unfold bind. rewrite E, E'. cbn.
  rewrite !app_assoc. split; [reflexivity|]. apply in_or_app. left. exact Hin.
Qed.

Lemma reports_later {A B} (msg : string) (m : V A) (k : A -> V B) :
  runs any_error m -> (forall a, reports msg (k a)) -> reports msg (bind m k).
Proof.
  intros Hm Hk s. destruct (Hm s) as (a & es & ws & E & _).
  destruct (Hk a (Validator (errors s ++ es) (warnings s ++ ws)))
    as (b & es' & ws' & E' & Hin).
  exists b, (es ++ es'), (ws ++ ws'). unfold bind. rewrite E, E'. cbn.
  rewrite !app_assoc. split; [reflexivity|]. apply in_or_app. right. exact Hin.
Qed.

Lemma any_error_holds : forall msg, any_error msg.
Proof. intros msg. exact I. Qed.

Lemma reports_bind_lift {A B} (msg : string) (a : A) (k : A -> V B) :
  reports msg (k a) -> reports msg (bind (lift (Returns a)) k).
Proof. intros Hk s. unfold bind, lift. apply Hk. Qed.

Lemma _validate_database_reports (d : dict) (db_type : string) (index : nat) :
  validator_ready_entry (VDict d) = true ->
  truthy (dict_get d "connection" (VDict [])) = false ->
  reports
    ((db_type +:+ "[" +:+ string_of_Z (Z.of_nat index) +:+ "]")
       +:+ ": Missing 'connection' section")
    (_validate_database R (VDict d) db_type index).
Proof.
  intros Hready Hconn.
  cbn [validator_ready_entry] in Hready. rewrite !andb_true_iff in Hready.
  destruct Hready as (((Hname & _) & Hcreds) & Hmon).
  unfold _validate_database. cbv zeta. cbn [contains subscript get].
  apply reports_bind_lift. apply reports_later.
  { destruct (dict_lookup d "name") as [name|]; cbn [negb].
    - destruct name; try discriminate Hname.
      apply runs_bind_lift. apply runs_bind_lift.
      destruct (Regex.re_match_anchored name_regex s);
        [apply runs_ret | apply runs_error, any_error_holds].
    - apply runs_error, any_error_holds. }
  intros _. apply reports_bind_lift. apply reports_later.
  { destruct (dict_lookup d "type") as [ty|]; cbn [negb].
    - apply runs_bind_lift. destruct (negb (py_eq ty (VStr db_type)));
        [apply runs_error, any_error_holds | apply runs_ret].
    - apply runs_error, any_error_holds. }
  intros _. apply reports_bind_lift. rewrite Hconn. cbn [negb].
  apply reports_first; [apply reports_error | intros _].
  apply runs_bind_lift. apply runs_bind.
  { destruct (truthy (dict_get d "credentials" (VDict []))) eqn:T; cbn [negb].
    - apply _validate_credentials_runs; [intros rest; exact I | assumption..].
    - apply runs_error, any_error_holds. }
  intros _. apply runs_bind_lift.
  destruct (truthy (dict_get d "monitoring" (VDict []))) eqn:T.
  - apply _validate_monitoring_runs; [intros rest; exact I | assumption..].
  - apply runs_ret.
Qed.

Lemma validate_all_reports (dbs : list value) (db_type : string) (first i : nat)
    (d : dict) :
  forallb validator_ready_entry dbs = true ->
  nth_error dbs i = Some (VDict d) ->
  truthy (dict_get d "connection" (VDict [])) = false ->
  reports
    ((db_type +:+ "[" +:+ string_of_Z (Z.of_nat (first + i)) +:+ "]")
       +:+ ": Missing 'connection' section")
    (validate_all R dbs db_type first).
Proof.
  revert first i. induction dbs as [|db dbs IH]; intros first i Hready Hnth Hconn.
  - destruct i; discriminate Hnth.
  - cbn [forallb] in Hready. apply andb_prop in Hready as [Hdb Hdbs].
    cbn [validate_all]. destruct i as [|i].
    + injection Hnth as ->. rewrite Nat.add_0_r.
      apply reports_first; [apply _validate_database_reports; assumption|].
      intros _. apply validate_all_runs; [intros rest; exact I | exact Hdbs].
    + cbn [nth_error] in Hnth. apply reports_later.
      * apply _validate_database_runs; [intros rest; exact I | exact Hdb].
      * intros _. replace (first + S i)%nat with (S first + i)%nat by lia.
        apply IH; assumption.
Qed.

End ReportFacts.

(** X20: for a configuration the validator can run on, an entry of either
    engine that has no [connection] section (or an empty one) makes
    validation fail with the error "<engine>[<index>]: Missing 'connection'
    section" among the errors; [enabled] is not looked at, so a disabled
    entry, which the transformer would skip, is rejected all the same. *)
Theorem entries_without_connection_are_rejected (R : runtime) (c : dict)
    (engine : string) (dbs : list value) (i : nat) (d : dict) :
  validator_ready (VDict c) = true ->
  In engine ["mysql"; "postgresql"] ->
  dict_get c (engine +:+ "_databases") (VList []) = VList dbs ->
  nth_error dbs i = Some (VDict d) ->
  truthy (dict_get d "connection" (VDict [])) = false ->
  exists errors warnings,
    Validation.validate_yaml_config R (VDict c) = Returns (false, errors, warnings)
    /\ In (engine +:+ "[" +:+ string_of_Z (Z.of_nat i)
             +:+ "]: Missing 'connection' section") errors.
Proof.
  intros Hready Hengine Hdbs Hnth Hconn.
  set (msg := engine +:+ "[" +:+ string_of_Z (Z.of_nat i)
                +:+ "]: Missing 'connection' section").
  assert (Hmsg : (engine +:+ "[" +:+ string_of_Z (Z.of_nat (0 + i)) +:+ "]")
                   +:+ ": Missing 'connection' section" = msg).
  { unfold msg. rewrite !append_assoc. reflexivity. }
  destruct (service_names_ready (VDict c) Hready) as (names & Hnames).
  cbn [validator_ready] in Hready. apply andb_prop in Hready as [H1 H2].
  assert (Hin : exists es1 ws1 es2 ws2,
             Validation.validate_all R
               match iterate (dict_get c "mysql_databases" (VList [])) with
               | Returns l => l | Raises _ => [] end "mysql" 0
               (Validation.Validator [] [])
             = (Returns tt, Validation.Validator es1 ws1)
             /\ Validation.validate_all R
                  match iterate (dict_get c "postgresql_databases" (VList [])) with
                  | Returns l => l | Raises _ => [] end "postgresql" 0
                  (Validation.Validator es1 ws1)
                = (Returns tt, Validation.Validator (es1 ++ es2) (ws1 ++ ws2))
             /\ In msg (es1 ++ es2)).
  { destruct Hengine as [<-|[<-|[]]].
    - change ("mysql" +:+ "_databases") with "mysql_databases" in Hdbs.
      rewrite Hdbs in *. cbn [iterate validator_ready_databases] in *.
      destruct (validate_all_reports R dbs "mysql" 0 i d H1 Hnth Hconn
                  (Validation.Validator [] []))
        as ([] & es1 & ws1 & E1 & Hin1).
      cbn [Validation.errors Validation.warnings app] in E1.
      destruct (dict_get c "postgresql_databases" (VList [])) as [| | | | |pg|];
        try discriminate H2.
      cbn [iterate validator_ready_databases] in *.
      destruct (validate_all_runs R any_error pg "postgresql" 0
                  ltac:(intros rest; exact I) H2 (Validation.Validator es1 ws1))
        as ([] & es2 & ws2 & E2 & _).
      exists es1, ws1, es2, ws2. rewrite <- Hmsg. repeat split; try assumption.
      apply in_or_app. left. exact Hin1.
    - change ("postgresql" +:+ "_databases") with "postgresql_databases" in Hdbs.
      rewrite Hdbs in *. cbn [iterate validator_ready_databases] in *.
      destruct (dict_get c "mysql_databases" (VList [])) as [| | | | |my|];
        try discriminate H1.
      cbn [iterate validator_ready_databases] in *.
      destruct (validate_all_runs R any_error my "mysql" 0
                  ltac:(intros rest; exact I) H1 (Validation.Validator [] []))
        as ([] & es1 & ws1 & E1 & _).
      cbn [Validation.errors Validation.warnings app] in E1.
      destruct (validate_all_reports R dbs "postgresql" 0 i d H2 Hnth Hconn
                  (Validation.Validator es1 ws1))
        as ([] & es2 & ws2 & E2 & Hin2).
      exists es1, ws1, es2, ws2. rewrite <- Hmsg. repeat split; try assumption.
      apply in_or_app. right. exact Hin2. }
  destruct Hin as (es1 & ws1 & es2 & ws2 & E1 & E2 & Hin).
  unfold Validation.validate_yaml_config, Validation.validate_config.
  unfold bind at 1, modify at 1. unfold bind at 1, lift at 1. cbn [get].
  unfold bind at 1, lift at 1.
  destruct (dict_get c "mysql_databases" (VList [])) as [| | | | |my|];
    try discriminate H1.
  destruct (dict_get c "postgresql_databases" (VList [])) as [| | | | |pg|];
    try discriminate H2.
  cbn [iterate] in *.
  unfold bind at 1. rewrite E1.
  unfold bind at 1, lift at 1. unfold bind at 1, lift at 1.
  cbn [iterate]. unfold bind at 1. rewrite E2.
  unfold bind at 1.
  rewrite (_check_duplicate_names_ready R _ names _ Hnames).
  unfold bind, get_state, ret. cbn [Validation.errors Validation.warnings fst].
  destruct ((es1 ++ es2) ++ duplicate_report R names) as [|e es] eqn:E.
  - apply app_eq_nil in E as [E _]. rewrite E in Hin. destruct Hin.
  - rewrite <- E. do 2 eexists. split; [reflexivity|].
    apply in_or_app. left. exact Hin.
Qed.

Lemma entries_without_connection_are_rejected_witness :
  exists errors warnings,
    Validation.validate_yaml_config Examples.runtime0 (VDict Examples.retired_config)
    = Returns (false, errors, warnings)
    /\ In ("postgresql" +:+ "[" +:+ string_of_Z (Z.of_nat 0)
             +:+ "]: Missing 'connection' section") errors.
Proof.
  apply (entries_without_connection_are_rejected Examples.runtime0
           Examples.retired_config "postgresql" [VDict Examples.retired_entry] 0
           Examples.retired_entry);
    [reflexivity | right; left; reflexivity | reflexivity | reflexivity | reflexivity].
Defined.

(** ** From a failed resolution to the probe *)

(** An entry whose password carries [ERROR] is not probed, whatever the
    probe is. *)
Lemma check_database_unresolved (R : runtime)
    (test_connection : value -> Probe.C (bool * string)) (all_valid : bool)
    (d : dict) (host : value) (p : string) (s : Probe.session) :
  dict_lookup d "host" = Some host ->
  dict_lookup d "password" = Some (VStr p) ->
  is_substring "ERROR" p = true ->
  Probe.check_database R test_connection all_valid (VDict d) s
  = (Returns false,
     Probe.Session
       (Probe.errors s ++ [resolution_failure R (VDict d)]) (Probe.warnings s)
       (Process
          (stdout (Probe.io s)
             ++ [ ("  Checking " +:+ entry_name R (VDict d) +:+ "...") +:+ " ";
                  "✗ Failed to resolve credentials" +:+ nl ])
          (stderr (Probe.io s)) (files (Probe.io s)) (calls (Probe.io s)))).
Proof.
  intros Hh Hp Herror.
  assert (Hname : Probe.display_name (VDict d)
                  = Returns (dict_get d "service_name" host)).
  { unfold Probe.display_name, get, subscript. rewrite Hh. reflexivity. }
  unfold resolution_failure, entry_name. rewrite Hname.
  unfold Probe.check_database. rewrite bind_lift, Hname.
  unfold bind at 1. cbn -[bind]. rewrite bind_lift.
  unfold get, dict_get. rewrite Hp. rewrite bind_lift. cbn [contains].
  rewrite Herror. cbn. rewrite <- app_assoc. reflexivity.
Qed.

(** X21: when the secret of an enabled, well-formed entry cannot be
    fetched, the flat entry the transformer makes of it carries the password
    [ERROR_FETCHING_SECRET], and the probe script, whatever its probe, fails
    that entry with "<name>: Credential resolution failed" and makes no call
    at all for it: no connection is attempted. *)
Theorem failed_fetch_is_never_probed (R : runtime) (W : world) (d creds : dict)
    (key : value) (e : exn) (s : process)
    (test_connection : value -> Probe.C (bool * string)) (all_valid : bool)
    (st : Probe.session) :
  well_formed_entry (VDict d) = true ->
  disabled (VDict d) = false ->
  dict_lookup d "credentials" = Some (VDict creds) ->
  dict_lookup creds "password_source" = Some (VStr "aws_secrets_manager") ->
  dict_lookup creds "password_key" = Some key ->
  truthy key = true ->
  get_secret_value W key = Raises e ->
  exists flat s' st',
    Transform.transform_database W (VDict d) s = (Returns (VDict flat), s')
    /\ dict_lookup flat "password" = Some (VStr "ERROR_FETCHING_SECRET")
    /\ Probe.check_database R test_connection all_valid (VDict flat) st
       = (Returns false, st')
    /\ Probe.errors st'
       = Probe.errors st
           ++ [entry_name R (VDict flat) +:+ ": Credential resolution failed"]
    /\ calls (Probe.io st') = calls (Probe.io st).
Proof.
  intros Hwf Hen Hcreds Hsrc Hkey Htrue Hfail.
  destruct (transform_database_enabled W d s Hwf Hen)
    as (conn & creds' & ty & flat & password & s' & _ & Hcr & _ & Hres & Hrun
        & Hh & _ & _ & Hpassword).
  unfold section_of in Hcr. rewrite Hcreds in Hcr. injection Hcr as <-.
  assert (password = VStr "ERROR_FETCHING_SECRET") as ->.
  { revert Hres.
    unfold Transform.resolve_credentials, bind, lift, ret, get, dict_get.
    rewrite Hsrc, Hkey. cbn. rewrite Htrue.
    unfold Transform.fetch_secret, try_except, bind, lift, record_call, modify.
    cbn. rewrite Hfail. cbn. intros [= <- _]. reflexivity. }
  exists flat, s'. eexists. split; [exact Hrun|]. split; [exact Hpassword|].
  rewrite (check_database_unresolved R test_connection all_valid flat _ _ st
             Hh Hpassword eq_refl).
  split; [reflexivity|]. split; reflexivity.
Qed.

Lemma failed_fetch_is_never_probed_witness :
  exists flat s' st',
    Transform.transform_database Examples.offline (VDict Examples.managed_entry)
      Examples.idle = (Returns (VDict flat), s')
    /\ dict_lookup flat "password" = Some (VStr "ERROR_FETCHING_SECRET")
    /\ Probe.check_database Examples.runtime0
         (Probe.test_mysql_connection Examples.runtime0
            (Examples.welcoming Examples.all_grants))
         true (VDict flat) Examples.desk
       = (Returns false, st')
    /\ Probe.errors st'
       = Probe.errors Examples.desk
           ++ [entry_name Examples.runtime0 (VDict flat)
                 +:+ ": Credential resolution failed"]
    /\ calls (Probe.io st') = calls (Probe.io Examples.desk).
Proof.
  apply (failed_fetch_is_never_probed Examples.runtime0 Examples.offline
           Examples.managed_entry Examples.secret_credentials
           (VStr "prod/db/password") (Exn OtherError "ResourceNotFoundException")
           Examples.idle
           (Probe.test_mysql_connection Examples.runtime0
              (Examples.welcoming Examples.all_grants))
           true Examples.desk);
    reflexivity.
Defined.

Lemma mysql_arguments_password (flat : dict) (host user password : value) :
  dict_lookup flat "host" = Some host ->
  dict_lookup flat "user" = Some user ->
  dict_lookup flat "password" = Some password ->
  exists args,
    Probe.mysql_arguments (VDict flat) = Returns args
    /\ dict_lookup args "password" = Some password.
Proof.
  intros Hh Hu Hp. unfold Probe.mysql_arguments, get, subscript.
  rewrite Hh, Hu, Hp. cbn [rbind].
  destruct (truthy (dict_get flat "ssl" (VBool false))); cbn [rbind];
    eexists; (split; [reflexivity|]); reflexivity.
Qed.

(** X22: an enabled, well-formed entry whose password is to come from the
    secret store or the parameter store, but which names no key, is turned
    into a flat entry with the password [MISSING_PASSWORD_KEY] without any
    fetch; the probe script does not hold that entry back: its MySQL probe
    attempts the connection, with [MISSING_PASSWORD_KEY] as the password. *)
Theorem missing_key_placeholder_is_sent (R : runtime) (W W' : world)
    (d creds : dict) (source : string) (s : process) (all_valid : bool)
    (st : Probe.session) :
  well_formed_entry (VDict d) = true ->
  disabled (VDict d) = false ->
  dict_lookup d "credentials" = Some (VDict creds) ->
  dict_lookup creds "password_source" = Some (VStr source) ->
  source = "aws_secrets_manager" \/ source = "aws_ssm_parameter" ->
  truthy (dict_get creds "password_key" VNone) = false ->
  exists flat args v st',
    Transform.transform_database W (VDict d) s = (Returns (VDict flat), s)
    /\ dict_lookup flat "password" = Some (VStr "MISSING_PASSWORD_KEY")
    /\ Probe.mysql_arguments (VDict flat) = Returns args
    /\ dict_lookup args "password" = Some (VStr "MISSING_PASSWORD_KEY")
    /\ Probe.check_database R (Probe.test_mysql_connection R W') all_valid
         (VDict flat) st = (Returns v, st')
    /\ connects st' = connects st ++ [Connect "mysql" args].
Proof.
  intros Hwf Hen Hcreds Hsrc Hsource Hkey.
  destruct (transform_database_enabled W d s Hwf Hen)
    as (conn & creds' & ty & flat & password & s' & _ & Hcr & _ & Hres & Hrun
        & Hh & _ & Hu & Hpassword).
  unfold section_of in Hcr. rewrite Hcreds in Hcr. injection Hcr as <-.
  assert (password = VStr "MISSING_PASSWORD_KEY" /\ s' = s) as [-> ->].
  { revert Hres. unfold dict_get in Hkey.
    unfold Transform.resolve_credentials, bind, lift, ret, get, dict_get.
    rewrite Hsrc.
    destruct Hsource as [-> | ->]; cbn; rewrite Hkey; cbn;
      intros [= <- <-]; split; reflexivity. }
  destruct (mysql_arguments_password flat _ _ _ Hh Hu Hpassword)
    as (args & Hargs & Hsent).
  destruct (check_database_ready R "mysql" Probe.mysql_arguments
              (Probe.test_mysql_connection R W') all_valid (VDict flat) st
              (test_mysql_connection_probes R W'))
    as (v & st' & es & Hcheck & _ & _ & _ & Hconnects).
  { cbn [probe_ready]. rewrite Hh, Hpassword. reflexivity. }
  exists flat, args, v, st'.
  split; [exact Hrun|]. split; [exact Hpassword|]. split; [exact Hargs|].
  split; [exact Hsent|]. split; [exact Hcheck|].
  rewrite Hconnects. unfold unresolved, attempt. rewrite Hpassword, Hargs.
  reflexivity.
Qed.

Lemma missing_key_placeholder_is_sent_witness :
  exists flat args v st',
    Transform.transform_database Examples.offline (VDict Examples.keyless_entry)
      Examples.idle = (Returns (VDict flat), Examples.idle)
    /\ dict_lookup flat "password" = Some (VStr "MISSING_PASSWORD_KEY")
    /\ Probe.mysql_arguments (VDict flat) = Returns args
    /\ dict_lookup args "password" = Some (VStr "MISSING_PASSWORD_KEY")
    /\ Probe.check_database Examples.runtime0
         (Probe.test_mysql_connection Examples.runtime0
            (Examples.welcoming Examples.all_grants))
         true (VDict flat) Examples.desk = (Returns v, st')
    /\ connects st' = connects Examples.desk ++ [Connect "mysql" args].
Proof.
  apply (missing_key_placeholder_is_sent Examples.runtime0 Examples.offline
           (Examples.welcoming Examples.all_grants) Examples.keyless_entry
           [("password_source", VStr "aws_ssm_parameter")] "aws_ssm_parameter"
           Examples.idle true Examples.desk);
    try reflexivity.
  right. reflexivity.
Defined.

(** ** The fields of a flat entry *)

Lemma dict_lookup_set (d : dict) (k k' : string) (v : value) :
  dict_lookup (dict_set d k v) k'
  = if String.eqb k k' then Some v else dict_lookup d k'.
Proof.
  induction d as [|[k0 v0] d IH]; cbn [dict_set dict_lookup].
  - destruct (String.eqb k k'); reflexivity.
  - destruct (String.eqb k0 k) eqn:E0; cbn [dict_lookup].
    + apply String.eqb_eq in E0. subst k0.
      destruct (String.eqb k k'); reflexivity.
    + rewrite IH. destruct (String.eqb k0 k') eqn:E1; [|reflexivity].
      apply String.eqb_eq in E1. subst k0. rewrite String.eqb_sym, E0. reflexivity.
Qed.

Lemma dict_lookup_absent (d : dict) (k : string) :
  ~ In k (map fst d) -> dict_lookup d k = None.
Proof.
  induction d as [|[k0 v0] d IH]; [reflexivity|]. cbn [map fst In dict_lookup].
  intros Hk. destruct (String.eqb k0 k) eqn:E.
  - apply String.eqb_eq in E. tauto.
  - apply IH. tauto.
Qed.

Lemma custom_labels_lookup (labels acc : dict) (k : string) :
  List.NoDup (map fst labels) ->
  dict_lookup
    (fold_left (fun acc kv =>
                  if negb (String.eqb (fst kv) "environment")
                  then dict_set acc (fst kv) (snd kv) else acc)
       labels acc) k
  = match (if String.eqb k "environment" then None else dict_lookup labels k) with
    | Some v => Some v
    | None => dict_lookup acc k
    end.
Proof.
  revert acc. induction labels as [|[k0 v0] labels IH]; intros acc Hnodup.
  - cbn. destruct (String.eqb k "environment"); reflexivity.
  - cbn [map fst] in Hnodup. apply List.NoDup_cons_iff in Hnodup as [Hk0 Hnodup].
    cbn [fold_left fst snd]. rewrite IH by exact Hnodup. cbn [dict_lookup].
    destruct (String.eqb k "environment") eqn:Ek.
    + apply String.eqb_eq in Ek. subst k.
      destruct (String.eqb k0 "environment") eqn:E0; cbn [negb]; [reflexivity|].
      rewrite dict_lookup_set, E0. reflexivity.
    + destruct (String.eqb k0 k) eqn:E0.
      * apply String.eqb_eq in E0. subst k0. rewrite Ek. cbn [negb].
        rewrite (dict_lookup_absent labels k Hk0), dict_lookup_set, String.eqb_refl.
        reflexivity.
      * destruct (dict_lookup labels k); [reflexivity|].
        destruct (negb (String.eqb k0 "environment")); [|reflexivity].
        rewrite dict_lookup_set, E0. reflexivity.
Qed.

Section FlatFacts.
Import Transform.

(** The fields of a flat entry that depend on the engine, and its labels. *)
Lemma flat_entry_fields (d : dict) (u p : value) (conn mon tls labels : dict)
    (ty : value) :
  section_of d "connection" = Some conn ->
  section_of d "monitoring" = Some mon ->
  section_of d "tls" = Some tls ->
  section_of d "labels" = Some labels ->
  dict_lookup d "type" = Some ty ->
  exists flat,
    flat_entry (VDict d) (VDict [("user", u); ("password", p)]) = Returns (VDict flat)
    /\ dict_lookup flat "database"
       = (if py_eq ty (VStr "postgresql")
          then Some (dict_get conn "database" (VStr "postgres")) else None)
    /\ dict_lookup flat "sslmode"
       = (if py_eq ty (VStr "postgresql")
          then Some (dict_get conn "ssl_mode" (VStr "require")) else None)
    /\ dict_lookup flat "collect_bloat_metrics"
       = (if py_eq ty (VStr "postgresql")
          then Some (dict_get mon "collect_bloat_metrics" (VBool true)) else None)
    /\ dict_lookup flat "collect_db_lock_metrics"
       = (if py_eq ty (VStr "postgresql")
          then Some (dict_get mon "collect_db_lock_metrics" (VBool true)) else None)
    /\ dict_lookup flat "environment"
       = Some (dict_get labels "environment" (VStr "production"))
    /\ dict_lookup flat "custom_labels" = Some (VDict (custom_labels labels)).
Proof.
  intros Hc Hm Ht Hl Hty.
  unfold flat_entry, section_get, subscript, get, first_host, py_or.
  rewrite (section_of_get _ _ _ Hc), (section_of_get _ _ _ Hm),
    (section_of_get _ _ _ Ht), (section_of_get _ _ _ Hl), Hty.
  cbn [rbind items].
  destruct (truthy (dict_get conn "host" VNone));
    [| cbn [rbind]; destruct (truthy (dict_get conn "endpoint" VNone)) ];
    cbn [rbind].
  all: destruct (py_eq ty (VStr "postgresql")); cbn [rbind].
  all: destruct (truthy (dict_get tls "enabled" VNone)) eqn:Hen; cbn [rbind].
  all: try (destruct (truthy (dict_get tls "ca_bundle_file" VNone)) eqn:Hca;
            cbn [rbind]).
  all: try (unfold section_of in Ht; unfold dict_get in Hca;
            destruct (dict_lookup d "tls") as [x|]; [destruct x|];
            try discriminate Ht;
            [ injection Ht as ->; simpl;
              destruct (dict_lookup tls "ca_bundle_file"); [| discriminate Hca]
            | injection Ht as <-; discriminate Hca ]).
  all: simpl; eexists; split; [reflexivity|]; repeat split; reflexivity.
Qed.

End FlatFacts.

(** X23: the flat entry of an enabled, well-formed entry has the fields
    [database], [sslmode], [collect_bloat_metrics] and
    [collect_db_lock_metrics] exactly when its type is [postgresql], with the
    defaults [postgres], [require], [True] and [True]; its [environment] is
    the label of that name, or [production]; and its [custom_labels] are the
    labels of the entry without [environment]. *)
Theorem engine_fields_and_labels (W : world) (d : dict) (s : process) :
  well_formed_entry (VDict d) = true ->
  disabled (VDict d) = false ->
  exists conn mon labels ty flat custom s',
    section_of d "connection" = Some conn
    /\ section_of d "monitoring" = Some mon
    /\ section_of d "labels" = Some labels
    /\ dict_lookup d "type" = Some ty
    /\ Transform.transform_database W (VDict d) s = (Returns (VDict flat), s')
    /\ (if py_eq ty (VStr "postgresql")
        then dict_lookup flat "database"
             = Some (dict_get conn "database" (VStr "postgres"))
             /\ dict_lookup flat "sslmode"
                = Some (dict_get conn "ssl_mode" (VStr "require"))
             /\ dict_lookup flat "collect_bloat_metrics"
                = Some (dict_get mon "collect_bloat_metrics" (VBool true))
             /\ dict_lookup flat "collect_db_lock_metrics"
                = Some (dict_get mon "collect_db_lock_metrics" (VBool true))
        else dict_lookup flat "database" = None
             /\ dict_lookup flat "sslmode" = None
             /\ dict_lookup flat "collect_bloat_metrics" = None
             /\ dict_lookup flat "collect_db_lock_metrics" = None)
    /\ dict_lookup flat "environment"
       = Some (dict_get labels "environment" (VStr "production"))
    /\ dict_lookup flat "custom_labels" = Some (VDict custom)
    /\ (List.NoDup (map fst labels) ->
        forall k, dict_lookup custom k
                  = if String.eqb k "environment" then None
                    else dict_lookup labels k).
Proof.
  intros Hwf Hen. simpl in Hwf, Hen.
  repeat (apply andb_prop in Hwf as [Hwf ?]).
  apply has_section_inv in Hwf as [conn Hconn].
  match goal with H : has_section d "monitoring" = true |- _ =>
    apply has_section_inv in H as [mon Hmon] end.
  match goal with H : has_section d "tls" = true |- _ =>
    apply has_section_inv in H as [tls Htls] end.
  match goal with H : has_section d "labels" = true |- _ =>
    apply has_section_inv in H as [labels Hlabels] end.
  destruct (section_of d "credentials") as [creds|] eqn:Hcreds; [|discriminate].
  destruct (dict_lookup d "type") as [ty|] eqn:Hty; [|discriminate].
  destruct (resolve_credentials_returns W creds s) as (password & s' & Hres);
    [assumption|].
  destruct (flat_entry_fields d (dict_get creds "username" (VStr "newrelic"))
              password conn mon tls labels ty Hconn Hmon Htls Hlabels Hty)
    as (flat & Hflat & Hdb & Hssl & Hbloat & Hlock & Henv & Hcustom).
  exists conn, mon, labels, ty, flat, (Transform.custom_labels labels), s'.
  split; [assumption|]. split; [assumption|]. split; [assumption|].
  split; [reflexivity|]. split.
  { unfold Transform.transform_database, bind, lift, ret, get.
    apply negb_false_iff in Hen. rewrite Hen. cbn [negb].
    rewrite (section_of_get _ _ _ Hcreds), Hres, Hflat. reflexivity. }
  split.
  { destruct (py_eq ty (VStr "postgresql")); repeat split; assumption. }
  split; [exact Henv|]. split; [exact Hcustom|].
  intros Hnodup k. unfold Transform.custom_labels.
  rewrite custom_labels_lookup by exact Hnodup.
  destruct (String.eqb k "environment"); [reflexivity|].
  destruct (dict_lookup labels k); reflexivity.
Qed.

Lemma engine_fields_and_labels_witness :
  exists conn mon labels ty flat custom s',
    section_of Examples.reporting_entry "connection" = Some conn
    /\ section_of Examples.reporting_entry "monitoring" = Some mon
    /\ section_of Examples.reporting_entry "labels" = Some labels
    /\ dict_lookup Examples.reporting_entry "type" = Some ty
    /\ Transform.transform_database Examples.offline (VDict Examples.reporting_entry)
         Examples.idle = (Returns (VDict flat), s')
    /\ (if py_eq ty (VStr "postgresql")
        then dict_lookup flat "database"
             = Some (dict_get conn "database" (VStr "postgres"))
             /\ dict_lookup flat "sslmode"
                = Some (dict_get conn "ssl_mode" (VStr "require"))
             /\ dict_lookup flat "collect_bloat_metrics"
                = Some (dict_get mon "collect_bloat_metrics" (VBool true))
             /\ dict_lookup flat "collect_db_lock_metrics"
                = Some (dict_get mon "collect_db_lock_metrics" (VBool true))
        else dict_lookup flat "database" = None
             /\ dict_lookup flat "sslmode" = None
             /\ dict_lookup flat "collect_bloat_metrics" = None
             /\ dict_lookup flat "collect_db_lock_metrics" = None)
    /\ dict_lookup flat "environment"
       = Some (dict_get labels "environment" (VStr "production"))
    /\ dict_lookup flat "custom_labels" = Some (VDict custom)
    /\ (List.NoDup (map fst labels) ->
        forall k, dict_lookup custom k
                  = if String.eqb k "environment" then None
                    else dict_lookup labels k).
Proof.
  apply (engine_fields_and_labels Examples.offline Examples.reporting_entry Examples.idle);
    reflexivity.
Defined.

Example reporting_entry_flat :
  exists flat s',
    Transform.transform_database Examples.offline (VDict Examples.reporting_entry)
      Examples.idle = (Returns (VDict flat), s')
    /\ dict_lookup flat "database" = Some (VStr "reports")
    /\ dict_lookup flat "sslmode" = Some (VStr "require")
    /\ dict_lookup flat "environment" = Some (VStr "staging")
    /\ dict_lookup flat "custom_labels" = Some (VDict [("team", VStr "data")]).
Proof. eexists. eexists. vm_compute. repeat split; reflexivity. Qed.

(** ** The port of a connection *)

Section PortFacts.
Import Validation.
Variable R : runtime.

Lemma Qle_bool_inject (a b : Z) : Qle_bool (inject_Z a) (inject_Z b) = (a <=? b).
Proof. unfold Qle_bool, inject_Z. cbn. rewrite !Z.mul_1_r. reflexivity. Qed.

Lemma port_check (port : value) :
  port <> VNone ->
  negb (is_int port) || out_of_range port (NInt 1) (NInt 65535)
  = negb (acceptable_port port).
Proof.
  intros Hport. destruct port as [|b|z| | | |]; try reflexivity; [contradiction| |].
  - destruct b; reflexivity.
  - cbn [is_int negb orb out_of_range as_num acceptable_port].
    unfold num_lt, float_of_num, float_lt. rewrite !Qle_bool_inject.
    destruct (1 <=? z) eqn:E1; destruct (z <=? 65535) eqn:E2; cbn; try reflexivity.
    all: rewrite ?Z.leb_le, ?Z.leb_gt in *; exfalso; lia.
Qed.

Lemma other_connection_errors (prefix rest : string) (port : value) :
  String.prefix ".connection: Invalid port '" rest = false ->
  prefix +:+ rest <> port_error R prefix port.
Proof.
  intros Hrest E. unfold port_error in E.
  apply (inj (String.append prefix)) in E. subst rest.
  rewrite prefix_of_append in Hrest. discriminate Hrest.
Qed.

Lemma three_phases (msg : string) (Q : Prop) (m1 m2 m3 : V unit) :
  runs (fun e => e <> msg) m1 ->
  (forall s, exists es,
      m2 s = (Returns tt, Validator (errors s ++ es) (warnings s))
      /\ (In msg es <-> Q)) ->
  runs (fun e => e <> msg) m3 ->
  forall s, exists es ws,
    bind m1 (fun _ => bind m2 (fun _ => m3)) s
    = (Returns tt, Validator (errors s ++ es) (warnings s ++ ws))
    /\ (In msg es <-> Q).
Proof.
  intros H1 H2 H3 s. unfold bind.
  destruct (H1 s) as ([] & es1 & ws1 & -> & F1).
  destruct (H2 (Validator (errors s ++ es1) (warnings s ++ ws1)))
    as (es2 & E2 & Hin).
  cbn [errors warnings] in E2. rewrite E2.
  destruct (H3 (Validator ((errors s ++ es1) ++ es2) (warnings s ++ ws1)))
    as ([] & es3 & ws3 & E3 & F3).
  cbn [errors warnings] in E3. rewrite E3.
  exists (es1 ++ es2 ++ es3), (ws1 ++ ws3). rewrite <- !app_assoc.
  split; [reflexivity|]. rewrite <- Hin. rewrite !in_app_iff.
  rewrite List.Forall_forall in F1, F3. split.
  - intros [H|[H|H]]; [exfalso; exact (F1 _ H eq_refl) | exact H
                      | exfalso; exact (F3 _ H eq_refl)].
  - intros H. right. left. exact H.
Qed.

(** X24: for a connection whose host fields are strings or empty,
    [_validate_connection] returns, only appends to the errors and warnings,
    and records the error "<prefix>.connection: Invalid port '<port>' - must
    be 1-65535" exactly when the port is present and is not an integer from
    1 to 65535: a port written as a string or a float is rejected, [True] is
    let pass as 1. *)
Theorem port_must_be_in_range (conn : dict) (prefix : string) (s : validator) :
  validator_ready_connection (VDict conn) = true ->
  exists es ws,
    _validate_connection R (VDict conn) prefix s
    = (Returns tt, Validator (errors s ++ es) (warnings s ++ ws))
    /\ (In (port_error R prefix (dict_get conn "port" VNone)) es
        <-> acceptable_port (dict_get conn "port" VNone) = false).
Proof.
  intros Hready. cbn [validator_ready_connection forallb] in Hready.
  rewrite !andb_true_iff in Hready. destruct Hready as (Hh & He & Hc & _).
  set (port := dict_get conn "port" VNone).
  set (msg := port_error R prefix port).
  assert (Hother : forall rest,
             String.prefix ".connection: Invalid port '" rest = false ->
             prefix +:+ rest <> msg).
  { intros rest Hrest. apply other_connection_errors, Hrest. }
  refine (three_phases msg (acceptable_port port = false)
    (match List.filter truthy
             [dict_get conn "host" VNone; dict_get conn "endpoint" VNone;
              dict_get conn "cluster_endpoint" VNone] with
     | [] => append_error (prefix +:+ ".connection: No host specified")
     | [h] =>
         ok <~ lift (_validate_host R h) ;;
         if ok then ret tt
         else append_error (prefix +:+ ".connection: Invalid host '"
                              +:+ py_str R h +:+ "'")
     | _ => append_warning
              (prefix +:+ ".connection: Multiple hosts specified, will use first one")
     end)
    (match port with
     | VNone => ret tt
     | _ =>
         if negb (is_int port) || out_of_range port (NInt 1) (NInt 65535)
         then append_error (prefix +:+ ".connection: Invalid port '"
                              +:+ py_str R port +:+ "' - must be 1-65535")
         else ret tt
     end)
    (ssl_mode <~ lift (get (VDict conn) "ssl_mode" VNone) ;;
     if truthy ssl_mode
        && negb (str_in ssl_mode
                   ["disable"; "require"; "verify-ca"; "verify-full"; "prefer"])
     then append_error (prefix +:+ ".connection: Invalid ssl_mode '"
                          +:+ py_str R ssl_mode +:+ "'")
     else ret tt) _ _ _ s).
  - cbn [List.filter].
    destruct (truthy (dict_get conn "host" VNone)) eqn:Th;
      destruct (truthy (dict_get conn "endpoint" VNone)) eqn:Te;
      destruct (truthy (dict_get conn "cluster_endpoint" VNone)) eqn:Tc;
      try apply runs_warning; try (apply runs_error, Hother; reflexivity).
    + destruct (str_of_truthy _ Hh Th) as [h ->].
      destruct (_validate_host_returns R h) as [b ->].
      apply runs_bind_lift.
      destruct b; [apply runs_ret | apply runs_error, Hother; reflexivity].
    + destruct (str_of_truthy _ He Te) as [h ->].
      destruct (_validate_host_returns R h) as [b ->].
      apply runs_bind_lift.
      destruct b; [apply runs_ret | apply runs_error, Hother; reflexivity].
    + destruct (str_of_truthy _ Hc Tc) as [h ->].
      destruct (_validate_host_returns R h) as [b ->].
      apply runs_bind_lift.
      destruct b; [apply runs_ret | apply runs_error, Hother; reflexivity].
  - intros [es0 ws0]. cbn [errors warnings]. destruct (acceptable_port port) eqn:Hp.
    + exists []. rewrite app_nil_r. split; [|split; [intros []|discriminate]].
      destruct port as [|b|z| | | |]; try discriminate Hp; try reflexivity;
        rewrite port_check, Hp by discriminate; reflexivity.
    + exists [msg]. split; [|split; [reflexivity|intros _; left; reflexivity]].
      destruct port as [|b|z| | | |] eqn:Eport; try discriminate Hp;
        rewrite port_check, Hp by discriminate; reflexivity.
  - cbn [get]. apply runs_bind_lift.
    match goal with |- runs _ (if ?b then _ else _) => destruct b end;
      [apply runs_error, Hother; reflexivity | apply runs_ret].
Qed.

End PortFacts.

Lemma port_must_be_in_range_witness :
  exists es ws,
    Validation._validate_connection Examples.runtime0 (VDict Examples.quoted_port)
      "mysql_databases[0]" (Validation.Validator [] [])
    = (Returns tt, Validation.Validator ([] ++ es) ([] ++ ws))
    /\ (In (port_error Examples.runtime0 "mysql_databases[0]"
              (dict_get Examples.quoted_port "port" VNone)) es
        <-> acceptable_port (dict_get Examples.quoted_port "port" VNone) = false).
Proof.
  apply (port_must_be_in_range Examples.runtime0 Examples.quoted_port "mysql_databases[0]"
           (Validation.Validator [] [])).
  reflexivity.
Defined.
